(** * The documents store of turbopuffer-gui: query compilation, cursor
      pagination and the result cache

    A shallow embedding of [src/renderer/stores/documentsStore.ts]: the
    store state, the mutators of the query configuration and
    [loadDocuments], with the backend calls recorded in a trace; then
    the other actions of the store (namespace, client, writes, raw
    query results, filter history) and the operator table of the
    filter builder. *)

From Stdlib Require Import ZArith QArith Bool List Lia.
From Stdlib Require Import Strings.Ascii Strings.String.
From Stdlib Require Import Floats.SpecFloat.
From stdpp Require Import base option list gmap strings pretty.
From coqutil Require Import Datatypes.RecordSetters.
Import ListNotations.
Import TriangleBracketNotations.

Local Set Warnings "-register-all".
Local Open Scope string_scope.
Local Open Scope Z_scope.

(** ** JavaScript values

    Filter values, row keys, filters and ranking expressions are untyped
    JSON in the source ([any], [TurbopufferFilter]).  Numbers are
    rationals; a string is a JavaScript string whose code units are all
    below 256, one [ascii] for each code unit. *)

Inductive JsVal : Type :=
| JUndefined
| JNull
| JBool (b : bool)
| JNum (q : Q)
| JStr (s : string)
| JArr (items : list JsVal)
| JObj (fields : list (string * JsVal)).

(** [Array.isArray(v)] *)
Definition isArray (v : JsVal) : bool :=
  match v with JArr _ => true | _ => false end.

(** [v[0]] on an array: [undefined] when the array is empty. *)
Definition firstElement (items : list JsVal) : JsVal :=
  match items with x :: _ => x | [] => JUndefined end.

(** [Array.isArray(v) ? v[0] : v] *)
Definition firstIfArray (v : JsVal) : JsVal :=
  match v with JArr items => firstElement items | _ => v end.

(** [Array.isArray(v) ? v : [v]] *)
Definition asArray (v : JsVal) : JsVal :=
  match v with JArr _ => v | _ => JArr [v] end.

(** ** String primitives of the JavaScript runtime

    On strings whose code units are below 256. *)

(** The code units that [trim] strips from both ends: the white space
    and the line terminators of ECMAScript.  Below 256 these are the
    tab, the line feed, the vertical tab, the form feed, the carriage
    return (9 to 13), the space (32) and the no-break space U+00A0
    (160); the others (U+1680, U+2000 to U+200A, U+2028, U+2029, U+202F,
    U+205F, U+3000 and U+FEFF) lie above 255. *)
Definition isWhiteSpace (c : ascii) : bool :=
  let n := nat_of_ascii c in
  (Nat.eqb n 32 || Nat.eqb n 160 || (Nat.leb 9 n && Nat.leb n 13))%bool.

Fixpoint trimStartChars (cs : list ascii) : list ascii :=
  match cs with
  | c :: rest => if isWhiteSpace c then trimStartChars rest else cs
  | [] => []
  end.

(** [s.trim()] *)
Definition trim (s : string) : string :=
  string_of_list_ascii
    (rev (trimStartChars (rev (trimStartChars (list_ascii_of_string s))))).

(** [toLowerCase] on one code unit: the letters A to Z (65 to 90) and
    the letters U+00C0 to U+00DE (192 to 222) but for the multiplication
    sign U+00D7 (215) have their lower case 32 code units further. *)
Definition lowerChar (c : ascii) : ascii :=
  let n := nat_of_ascii c in
  if ((Nat.leb 65 n && Nat.leb n 90)
      || (Nat.leb 192 n && Nat.leb n 222 && negb (Nat.eqb n 215)))%bool
  then ascii_of_nat (n + 32) else c.

(** [toUpperCase] on one code unit whose upper case is one code unit
    below 256: the letters a to z (97 to 122) and the letters U+00E0 to
    U+00FE (224 to 254) but for the division sign U+00F7 (247).  The
    micro sign, the sharp s and U+00FF, whose upper case is no such
    code unit, start none of the operator names that [capitalize] is
    applied to. *)
Definition upperChar (c : ascii) : ascii :=
  let n := nat_of_ascii c in
  if ((Nat.leb 97 n && Nat.leb n 122)
      || (Nat.leb 224 n && Nat.leb n 254 && negb (Nat.eqb n 247)))%bool
  then ascii_of_nat (n - 32) else c.

(** [s.toLowerCase()] *)
Fixpoint toLowerCase (s : string) : string :=
  match s with
  | String c rest => String (lowerChar c) (toLowerCase rest)
  | EmptyString => EmptyString
  end.

(** [s.charAt(0).toUpperCase() + s.slice(1)] *)
Definition capitalize (s : string) : string :=
  match s with
  | String c rest => String (upperChar c) rest
  | EmptyString => EmptyString
  end.

(** Truthiness of a string: the empty string is falsy. *)
Definition nonEmpty (s : string) : bool :=
  match s with EmptyString => false | _ => true end.

(** [o || d] for a [string | null]: [null] and the empty string give [d]. *)
Definition orDefault (o : option string) (d : string) : string :=
  match o with
  | Some s => if nonEmpty s then s else d
  | None => d
  end.

(** [String(v)], as a template literal applies it.  Numbers, arrays and
    objects are rendered by the runtime: [render] stands for that part. *)
Definition toStringWith (render : JsVal -> string) (v : JsVal) : string :=
  match v with
  | JStr s => s
  | JNull => "null"
  | JUndefined => "undefined"
  | JBool true => "true"
  | JBool false => "false"
  | _ => render v
  end.

(** ** Number primitives of the JavaScript runtime

    Counts, page numbers and page sizes are integers in the model.  A
    quotient of two of them is the binary64 number that JavaScript
    computes, with the division of the Standard Library's
    specification of IEEE 754 ([prec = 53], [emax = 1024]). *)

(** The number that holds an integer: the integer itself up to 2^53 in
    absolute value, the nearest binary64 number past that. *)
Definition toNumber (z : Z) : spec_float := binary_normalize 53 1024 z 0 false.

(** [a / b] *)
Definition divide (a b : Z) : spec_float :=
  SFdiv 53 1024 (toNumber a) (toNumber b).

(** What [Math.ceil] returns: an integer, the negative zero, an infinity
    or [NaN]. *)
Inductive Rounded : Type :=
| Integer (z : Z)
| NegativeZero
| Infinite (negative : bool)
| NotANumber.

(** [Math.ceil(x)] *)
Definition mathCeil (x : spec_float) : Rounded :=
  match x with
  | S754_nan => NotANumber
  | S754_infinity negative => Infinite negative
  | S754_zero negative => if negative then NegativeZero else Integer 0
  | S754_finite negative m e =>
      let signed := if negative then Z.neg m else Z.pos m in
      let ceiling :=
        if e <? 0 then - ((- signed) / 2 ^ (- e)) else signed * 2 ^ e in
      if negative && (ceiling =? 0) then NegativeZero else Integer ceiling
  end.

(** ** Filter model *)

Inductive FilterOperator : Type :=
| op_equals | op_not_equals
| op_contains
| op_greater | op_greater_or_equal | op_less | op_less_or_equal
| op_in | op_not_in
| op_matches | op_not_matches | op_imatches | op_not_imatches
| op_any_lt | op_any_lte | op_any_gt | op_any_gte
| op_array_contains | op_not_array_contains
| op_contains_any | op_not_contains_any
| op_regex
| op_contains_all_tokens | op_contains_token_sequence.

Record SimpleFilter : Type := mkSimpleFilter {
  filter_id : string;
  attribute : string;
  operator : FilterOperator;
  value : JsVal;
  displayValue : string
}.

(** The part of [DiscoveredAttribute] the store reads: name and type. *)
Record DiscoveredAttribute : Type := mkAttribute {
  attr_name : string;
  attr_type : string
}.

(** [attributes.find(attr => attr.name === a)?.type] *)
Definition fieldTypeOf (attributes : list DiscoveredAttribute) (a : string)
  : option string :=
  attr_type <$> List.find (fun attr => String.eqb (attr_name attr) a) attributes.

(** A backend filter triple [[a, op, v]]. *)
Definition triple (a op : string) (v : JsVal) : JsVal :=
  JArr [JStr a; JStr op; v].

(** ** Query configuration, rows and backend messages *)

Inductive SortDirection : Type := dir_asc | dir_desc.

Definition directionName (d : SortDirection) : string :=
  match d with dir_asc => "asc" | dir_desc => "desc" end.

Inductive QueryMode : Type := mode_browse | mode_bm25 | mode_vector.

Inductive RankingMode : Type := ranking_simple | ranking_expression.

Inductive BM25Operator : Type := bm25_sum | bm25_max | bm25_product.

Definition operatorName (o : BM25Operator) : string :=
  match o with
  | bm25_sum => "sum"
  | bm25_max => "max"
  | bm25_product => "product"
  end.

Record BM25Field : Type := mkBM25Field {
  field : string;
  weight : Q
}.

(** A node of the ranking expression builder. *)
Inductive RankingExprNode : Type :=
| RankNode (type : string) (node_attribute : JsVal) (constant : JsVal)
           (node_operator : option string)
           (operands : option (list RankingExprNode)).

(** An entry of the aggregations panel.  [loadDocuments] reads [name]
    only; [agg_type] and [agg_field] stand for the rest of the entry. *)
Record AggregationConfig : Type := mkAggregation {
  name : string;
  agg_type : string;
  agg_field : option string
}.

Record Document : Type := mkDocument {
  doc_id : JsVal;
  doc_attributes : list (string * JsVal)
}.

(** The request object handed to [documentService.queryDocuments].
    [None] is a key that the object literal does not have. *)
Record QueryRequest : Type := mkRequest {
  filters : option JsVal;
  rank_by : option JsVal;
  top_k : option Z;
  include_attributes : option bool;
  aggregate_by : option (list (string * JsVal));
  group_by : option (list string)
}.

Record AggregationGroupEntry : Type := mkGroupEntry {
  group_key : JsVal;
  group_count : JsVal
}.

(** A value of [response.aggregations]: the number of a count
    aggregation, or an object that may carry [groups]. *)
Inductive AggregationValue : Type :=
| AggNumber (n : Z)
| AggData (groups : option (list AggregationGroupEntry)).

Record DocumentsQueryResponse : Type := mkResponse {
  rows : option (list Document);
  aggregations_of : option (list (string * AggregationValue));
  aggregation_groups : option (list JsVal)
}.

(** What a rejected call throws: an [Error] with its message, or any
    other value. *)
Inductive Thrown : Type :=
| ErrorObject (message : string)
| NonError (v : JsVal).

Inductive Settled : Type :=
| Fulfilled (response : DocumentsQueryResponse)
| Rejected (e : Thrown).

Record ParsedAggregation : Type := mkParsedAggregation {
  label : string;
  parsed_groups : list AggregationGroupEntry
}.

Record CacheEntry : Type := mkCacheEntry {
  cached_documents : list Document;
  cached_totalCount : option Z;
  timestamp : Z
}.

(** ** The store state

    The fields of [DocumentsState] that the query mutators and
    [loadDocuments] read.  The selection, the visible columns, the
    display options, the filter history and the attribute cache, which
    no load reads, are left out. *)
Record DocumentsState : Type := mkState {
  (* Data *)
  documents : list Document;
  totalCount : option Z;
  unfilteredTotalCount : option Z;
  attributes : list DiscoveredAttribute;
  lastQueryResult : option DocumentsQueryResponse;
  nextCursor : option JsVal;
  previousCursors : list JsVal;
  currentPage : Z;
  pageSize : Z;
  totalPages : option Rounded;
  (* Connection state *)
  currentConnectionId : option string;
  (* UI state *)
  isLoading : bool;
  error : option string;
  (* Client state *)
  isClientInitialized : bool;
  (* Query state *)
  currentNamespaceId : option string;
  searchText : string;
  activeFilters : list SimpleFilter;
  isQueryMode : bool;
  sortAttribute : option string;
  sortDirection : SortDirection;
  queryMode : QueryMode;
  searchField : option string;
  vectorQuery : option (list Q);
  vectorField : option string;
  bm25Fields : list BM25Field;
  bm25Operator : BM25Operator;
  rankingMode : RankingMode;
  rankingExpression : option RankingExprNode;
  aggregations : list AggregationConfig;
  aggregationResults : option (list ParsedAggregation);
  groupByAttributes : list string;
  aggregationGroups : option (list JsVal);
  isGroupedQuery : bool;
  (* Cache *)
  documentsCache : gmap string CacheEntry
}.

(** ** What the store takes from outside its source file

    [isArrayType] and [parseValueForFieldType] belong to
    [utils/filterTypeConversion], which is not among the sources; the
    other members are primitives of the JavaScript runtime, and the value
    analysis inside [discoverAttributesFromDocuments] ([typeof], date
    parsing), which is opaque here. *)
Class Runtime : Type := {
  isArrayType : option string -> bool;
  parseValueForFieldType : string -> option string -> JsVal;
  (** [String(v)] of a number, an array or an object *)
  render : JsVal -> string;
  (** [JSON.stringify(v)] *)
  stringify : JsVal -> string;
  (** [JSON.stringify(state.activeFilters)] *)
  stringifyFilters : list SimpleFilter -> string;
  (** the attribute list that [discoverAttributesFromDocuments] derives
      from a non-empty list of rows *)
  analyzeDocuments : list Document -> list DiscoveredAttribute
}.

(** The collaborators of one call of [loadDocuments]: the execution
    capability, the client handle and the clock. *)
Record Services : Type := mkServices {
  (** [documentService.queryDocuments(namespace, request)] *)
  queryDocuments : string -> QueryRequest -> Settled;
  (** [documentService.getClient()] is not null *)
  getClient : bool;
  (** [Date.now()] when the cache is consulted *)
  now : Z;
  (** [Date.now()] when the fetched page is written to the cache *)
  nowStored : Z
}.

(** A backend call: namespace and request. *)
Definition Call : Type := (string * QueryRequest)%type.

Definition CACHE_DURATION : Z := 5 * 60 * 1000.
Definition DEBOUNCE_DELAY : Z := 500.

(** ** JavaScript helpers *)

Definition truthy (v : JsVal) : bool :=
  match v with
  | JUndefined | JNull => false
  | JBool b => b
  | JNum q => negb (Qeq_bool q 0)
  | JStr s => nonEmpty s
  | JArr _ | JObj _ => true
  end.

(** [!o] for a [string | null] *)
Definition missing (o : option string) : bool :=
  match o with Some s => negb (nonEmpty s) | None => true end.

(** [`${o}`] for a [string | null] *)
Definition showNullable (o : option string) : string :=
  match o with Some s => s | None => "null" end.

(** [`${n}`] for an integer *)
Definition showInt (n : Z) : string := pretty n.

(** [arr[i] = x] on a copy of [arr]: a negative index leaves the elements
    alone, an index past the end extends the array with holes. *)
Definition arraySet (arr : list JsVal) (i : Z) (x : JsVal) : list JsVal :=
  if i <? 0 then arr
  else
    let n := Z.to_nat i in
    if (n <? length arr)%nat then <[n := x]> arr
    else (arr ++ replicate (n - length arr)%nat JUndefined ++ [x])%list.

(** [arr[arr.length - 1]] *)
Definition lastDocument (docs : list Document) : option Document :=
  List.last (List.map Some docs) None.

(** [s.split(",")] *)
Fixpoint splitComma (cur : list ascii) (cs : list ascii) : list string :=
  match cs with
  | [] => [string_of_list_ascii (rev cur)]
  | c :: rest =>
      if Ascii.eqb c ","%char
      then string_of_list_ascii (rev cur) :: splitComma [] rest
      else splitComma (c :: cur) rest
  end.

(** [String(raw).split(",").map(v => v.trim()).filter(v => v)] *)
Definition splitValues (raw : string) : list string :=
  List.filter nonEmpty
    (List.map trim (splitComma [] (list_ascii_of_string raw))).

(** [parts.join(sep)] *)
Fixpoint joinWith (sep : string) (parts : list string) : string :=
  match parts with
  | [] => ""
  | [p] => p
  | p :: rest => p +:+ sep +:+ joinWith sep rest
  end.

(** ** Query compilation *)

Definition NO_TEXT_FIELDS : string :=
  "No text fields available for full-text search. Please select fields in the BM25 configuration or check your schema has full_text_search enabled.".

Definition NOT_INITIALIZED : string := "Client not initialized. Please wait...".

(** The value of [rankBy], or the early return of the full-text branch
    that finds no field to search. *)
Inductive RankBy : Type :=
| Rank (r : JsVal)
| NoSearchableFields.

(** [convertRankingExprToTurbopuffer] *)
Fixpoint convertRankingExprToTurbopuffer (node : RankingExprNode) : JsVal :=
  match node with
  | RankNode type node_attribute constant node_operator operands =>
      if String.eqb type "attribute" then node_attribute
      else if String.eqb type "constant" then constant
      else
        match node_operator, operands with
        | Some op, Some args =>
            if String.eqb type "operator" && nonEmpty op
            then JArr (JStr op :: List.map convertRankingExprToTurbopuffer args)
            else JNull
        | _, _ => JNull
        end
  end.

(** [[f, "BM25", text]] *)
Definition bm25Rank (f text : string) : JsVal :=
  JArr [JStr f; JStr "BM25"; JStr text].

(** The callback of [state.bm25Fields.map] in the multi-field branch. *)
Definition fieldRank (text : string) (f : BM25Field) : JsVal :=
  let rank := bm25Rank (field f) text in
  if negb (Qeq_bool (weight f) 1)
  then JArr [JStr "Product"; JArr [JNum (weight f); rank]]
  else rank.

Definition isTextType (t : string) : bool :=
  String.eqb t "string" || String.eqb t "[]string".

Definition isKeyLikeName (n : string) : bool :=
  existsb (String.eqb (toLowerCase n))
    ["id"; "uuid"; "key"; "created_at"; "updated_at"].

(** The fallback of the full-text branch when no field is configured. *)
Definition potentialBM25Fields (attrs : list DiscoveredAttribute) : list string :=
  List.map attr_name
    (List.filter (fun attr => negb (isKeyLikeName (attr_name attr)))
       (List.filter (fun attr => isTextType (attr_type attr)) attrs)).

Definition isBrowse (m : QueryMode) : bool :=
  match m with mode_browse => true | _ => false end.
Definition isBM25 (m : QueryMode) : bool :=
  match m with mode_bm25 => true | _ => false end.
Definition isVector (m : QueryMode) : bool :=
  match m with mode_vector => true | _ => false end.

(** [state.rankingMode === 'expression' && state.rankingExpression] *)
Definition customExpression (s : DocumentsState) : option RankingExprNode :=
  match rankingMode s with
  | ranking_expression => rankingExpression s
  | ranking_simple => None
  end.

(** [state.vectorQuery && state.vectorQuery.length > 0] *)
Definition usableVector (s : DocumentsState) : option (list Q) :=
  match vectorQuery s with
  | Some (x :: v) => Some (x :: v)
  | _ => None
  end.

(** "Determine rank_by based on ranking mode and search mode" *)
Definition determineRankBy (s : DocumentsState) : RankBy :=
  let text := trim (searchText s) in
  match customExpression s with
  | Some e => Rank (convertRankingExprToTurbopuffer e)
  | None =>
      if isBM25 (queryMode s) && nonEmpty text then
        match bm25Fields s with
        | _ :: _ :: _ =>
            let fieldRanks := List.map (fieldRank text) (bm25Fields s) in
            let op := capitalize (operatorName (bm25Operator s)) in
            Rank (JArr [JStr op; JArr fieldRanks])
        | [f] => Rank (bm25Rank (field f) text)
        | [] =>
            match potentialBM25Fields (attributes s) with
            | p :: _ => Rank (bm25Rank p text)
            | [] => NoSearchableFields
            end
        end
      else
        match (if isVector (queryMode s) then usableVector s else None) with
        | Some v =>
            Rank (JArr [JStr (orDefault (vectorField s) "vector"); JStr "ANN";
                        JArr (List.map JNum v)])
        | None =>
            Rank (JArr [JStr (orDefault (sortAttribute s) "id");
                        JStr (directionName (sortDirection s))])
        end
  end.

(** [["id", "Gt", cursor]] *)
Definition cursorFilter (cursor : JsVal) : JsVal := triple "id" "Gt" cursor.

(** [combinedFilter ? ["And", [combinedFilter, cursorFilter]] : cursorFilter] *)
Definition withCursor (combinedFilter cursor : JsVal) : JsVal :=
  if truthy combinedFilter
  then JArr [JStr "And"; JArr [combinedFilter; cursorFilter cursor]]
  else cursorFilter cursor.

(** [docs[docs.length - 1].id], read where [docs] is not empty. *)
Definition lastId (docs : list Document) : JsVal :=
  match lastDocument docs with Some d => doc_id d | None => JUndefined end.

(** The cursor chosen by the pagination branches, if any: the last row of
    the loaded page going forward, a slot of the stack going backward.
    The branches for page 1 and for the initial load choose none. *)
Definition paginationCursor (s : DocumentsState) (page : Z) : option JsVal :=
  if (page >? currentPage s) && (0 <? length (documents s))%nat
  then Some (lastId (documents s))
  else if (page <? currentPage s) && (0 <? length (previousCursors s))%nat
  then
    let cursorIndex := page - 2 in
    if (0 <=? cursorIndex) && (cursorIndex <? Z.of_nat (length (previousCursors s)))
    then Some (nth (Z.to_nat cursorIndex) (previousCursors s) JUndefined)
    else None
  else None.

Definition countAggregate : list (string * JsVal) :=
  [("count", JArr [JStr "Count"; JStr "id"])].

(** The object passed to the final [queryDocuments] of query mode. *)
Definition queryRequest (s : DocumentsState) (limit : Z)
    (finalFilter rankBy : JsVal) : QueryRequest :=
  let hasAggregations := (0 <? length (aggregations s))%nat in
  let aggregateBy :=
    if hasAggregations
    then (fun a => [(name a, JArr [JStr "Count"])]) <$> head (aggregations s)
    else None in
  if hasAggregations then
    {| filters := Some finalFilter;
       top_k := Some limit;
       aggregate_by := aggregateBy;
       group_by := if (0 <? length (groupByAttributes s))%nat
                   then Some (groupByAttributes s) else None;
       rank_by := None;
       include_attributes := None |}
  else
    {| filters := Some finalFilter;
       top_k := Some limit;
       include_attributes := Some true;
       rank_by := Some rankBy;
       aggregate_by := None;
       group_by := None |}.

(** The count request of query mode. *)
Definition filteredCountRequest (combinedFilter : JsVal) : QueryRequest :=
  {| filters := Some combinedFilter;
     aggregate_by := Some countAggregate;
     rank_by := None; top_k := None; include_attributes := None;
     group_by := None |}.

(** The count request of browse mode. *)
Definition totalCountRequest : QueryRequest :=
  {| filters := None;
     aggregate_by := Some countAggregate;
     rank_by := None; top_k := None; include_attributes := None;
     group_by := None |}.

(** The listing request of browse mode. *)
Definition listRequest (paginationFilter : JsVal) (limit : Z) : QueryRequest :=
  {| filters := Some paginationFilter;
     rank_by := Some (JArr [JStr "id"; JStr "asc"]);
     top_k := Some limit;
     include_attributes := Some true;
     aggregate_by := None;
     group_by := None |}.

(** ** Reading a response *)

(** [response.aggregations?.count || 0] *)
Definition countOf (r : DocumentsQueryResponse) : Z :=
  match aggregations_of r with
  | Some aggs =>
      match List.find (fun e => String.eqb (fst e) "count") aggs with
      | Some (_, AggNumber n) => n
      | _ => 0
      end
  | None => 0
  end.

(** [response.rows || []] *)
Definition rowsOf (r : DocumentsQueryResponse) : list Document :=
  match rows r with Some ds => ds | None => [] end.

(** "Parse aggregation results if present" *)
Definition parseAggregations (r : DocumentsQueryResponse) : list ParsedAggregation :=
  match aggregations_of r with
  | Some aggs =>
      List.map (fun e =>
        {| label := fst e;
           parsed_groups := match snd e with
                            | AggData (Some gs) => gs
                            | _ => []
                            end |}) aggs
  | None => []
  end.

(** [docs.length > 0 ? docs[docs.length - 1].id : null] *)
Definition newNextCursor (docs : list Document) : option JsVal :=
  doc_id <$> lastDocument docs.

(** ** loadDocuments *)

(** How a call of [loadDocuments] ended. *)
Inductive Outcome : Type :=
| Skipped            (* no namespace, or a load in flight *)
| NotInitialized     (* the client is not initialized *)
| CacheHit           (* served from [documentsCache] *)
| ConfigError        (* no field for the full-text ranking *)
| Failed (e : Thrown) (* a backend call was rejected *)
| Loaded.

Record LoadResult : Type := mkLoadResult {
  final : DocumentsState;
  calls : list Call;
  outcome : Outcome
}.

(** How the body of the [try] block ended. *)
Inductive TryResult : Type :=
| Completed (cur : DocumentsState) (docs : list Document) (total : Z)
            (queryResult : DocumentsQueryResponse)
| Returned (cur : DocumentsState)
| Threw (e : Thrown).

(** What a mutator leaves to the timers: the state changes at once, the
    reload follows when the timer fires. *)
Inductive Task : Type :=
| LogFilterChange   (* get().logFilterChange() *)
| LoadFirstPage.    (* get().loadDocuments(true, false, get().pageSize, 1) *)

Inductive Effect : Type :=
| ClearSearchDebounce
| SetSearchDebounce (delay : Z) (tasks : list Task)
| SetTimeout (delay : Z) (task : Task).

(** "Update cursor stack for backward navigation", inside [set]. *)
Definition updateCursorStack (page : Z) (cur : DocumentsState) : DocumentsState :=
  if page >? currentPage cur then
    match documents cur with
    | first :: _ =>
        cur <| previousCursors :=
                 arraySet (previousCursors cur) (currentPage cur - 1) (doc_id first) |>
    | [] => cur
    end
  else if page =? 1 then cur <| previousCursors := [] |>
  else cur.

Section Store.

Context {RT : Runtime}.

(** The [switch (filter.operator)] of [loadDocuments]: the backend
    filter pushed for one active predicate. *)
Definition compileFilter (attrs : list DiscoveredAttribute)
    (f : SimpleFilter) : JsVal :=
  let a := attribute f in
  let v := value f in
  let isArrayField := isArrayType (fieldTypeOf attrs a) in
  match operator f with
  | op_equals =>
      if isArrayField then triple a "ContainsAny" (firstIfArray v)
      else triple a "Eq" v
  | op_not_equals =>
      if isArrayField
      then JArr [JStr "Not"; triple a "ContainsAny" (firstIfArray v)]
      else triple a "NotEq" v
  | op_contains =>
      if isArrayField then triple a "ContainsAny" (firstIfArray v)
      else triple a "Glob" (JStr ("*" +:+ toStringWith render v +:+ "*"))
  | op_greater => triple a "Gt" v
  | op_greater_or_equal => triple a "Gte" v
  | op_less => triple a "Lt" v
  | op_less_or_equal => triple a "Lte" v
  | op_in => triple a "In" (asArray v)
  | op_not_in => triple a "NotIn" (asArray v)
  | op_matches => triple a "Glob" v
  | op_not_matches => triple a "NotGlob" v
  | op_imatches => triple a "IGlob" v
  | op_not_imatches => triple a "NotIGlob" v
  | op_any_lt => triple a "AnyLt" v
  | op_any_lte => triple a "AnyLte" v
  | op_any_gt => triple a "AnyGt" v
  | op_any_gte => triple a "AnyGte" v
  | op_array_contains => triple a "Contains" (firstIfArray v)
  | op_not_array_contains => triple a "NotContains" (firstIfArray v)
  | op_contains_any => triple a "ContainsAny" (asArray v)
  | op_not_contains_any => triple a "NotContainsAny" (asArray v)
  | op_regex => triple a "Regex" v
  | op_contains_all_tokens => triple a "ContainsAllTokens" v
  | op_contains_token_sequence => triple a "ContainsTokenSequence" v
  end.

(** "Build query filters": the id glob of browse mode, then one filter
    per active predicate. *)
Definition buildFilters (s : DocumentsState) : list JsVal :=
  ((if nonEmpty (trim (searchText s)) && isBrowse (queryMode s)
   then [triple "id" "Glob" (JStr ("*" +:+ trim (searchText s) +:+ "*"))]
   else [])
  ++ List.map (compileFilter (attributes s)) (activeFilters s))%list.

(** "Combine filters with AND" *)
Definition combineFilters (fs : list JsVal) : JsVal :=
  match fs with
  | [] => JUndefined
  | [f] => f
  | _ => JArr [JStr "And"; JArr fs]
  end.

(** [shouldUseQueryMode] *)
Definition shouldUseQueryMode (s : DocumentsState) : bool :=
  (0 <? length (activeFilters s))%nat
  || (0 <? String.length (trim (searchText s)))%nat.

(** The cache key of a load. *)
Definition cacheKey (s : DocumentsState) (page limit : Z) : string :=
  showNullable (currentConnectionId s) +:+ ":" +:+
  showNullable (currentNamespaceId s) +:+ "-" +:+
  searchText s +:+ "-" +:+
  stringifyFilters (activeFilters s) +:+ "-" +:+
  showInt page +:+ "-" +:+ showInt limit.

(** [discoverAttributesFromDocuments], as far as [attributes] goes. *)
Definition discoverAttributesFromDocuments (docs : list Document)
    (cur : DocumentsState) : DocumentsState :=
  match docs with
  | [] => cur
  | _ => cur <| attributes := analyzeDocuments docs |>
  end.

(** [cached && Date.now() - cached.timestamp < CACHE_DURATION] *)
Definition freshEntry (w : Services) (cached : option CacheEntry)
  : option CacheEntry :=
  match cached with
  | Some c => if now w - timestamp c <? CACHE_DURATION then Some c else None
  | None => None
  end.

(** The pagination bookkeeping common to both [set] blocks that follow
    the fetch of a page. *)
Definition recordPage (page : Z) (docs : list Document) (pages : Rounded)
    (cur : DocumentsState) : DocumentsState :=
  (updateCursorStack page cur)
    <| nextCursor := newNextCursor docs |>
    <| currentPage := page |>
    <| totalPages := Some pages |>.

(** The query-mode branch of the [try] block ([shouldUseQueryMode]). *)
Definition loadFiltered (w : Services) (ns : string) (limit page : Z)
    (s cur : DocumentsState) : list Call * TryResult :=
  let combinedFilter := combineFilters (buildFilters s) in
  let countRequest := filteredCountRequest combinedFilter in
  match queryDocuments w ns countRequest with
  | Rejected e => ([(ns, countRequest)], Threw e)
  | Fulfilled countResult =>
      let total := countOf countResult in
      let pages := mathCeil (divide total limit) in
      let finalFilter :=
        match paginationCursor s page with
        | Some cursor => withCursor combinedFilter cursor
        | None => combinedFilter
        end in
      match determineRankBy s with
      | NoSearchableFields =>
          ([(ns, countRequest)],
           Returned (cur <| error := Some NO_TEXT_FIELDS |>
                         <| isLoading := false |>))
      | Rank rankBy =>
          let request := queryRequest s limit finalFilter rankBy in
          match queryDocuments w ns request with
          | Rejected e => ([(ns, countRequest); (ns, request)], Threw e)
          | Fulfilled result =>
              let docs := rowsOf result in
              let parsed := parseAggregations result in
              let cur' :=
                (recordPage page docs pages cur)
                  <| aggregationResults :=
                       if (0 <? length parsed)%nat then Some parsed else None |>
                  <| aggregationGroups := aggregation_groups result |> in
              ([(ns, countRequest); (ns, request)],
               Completed cur' docs total result)
          end
      end
  end.

(** The browse-mode branch of the [try] block. *)
Definition loadBrowse (w : Services) (ns : string) (force : bool)
    (limit page : Z) (s cur : DocumentsState) : list Call * TryResult :=
  let countCall : list Call * (Thrown + Z) :=
    match queryDocuments w ns totalCountRequest with
    | Rejected e => ([(ns, totalCountRequest)], inl e)
    | Fulfilled countResult =>
        ([(ns, totalCountRequest)], inr (countOf countResult))
    end in
  (* force || state.totalCount === null || state.unfilteredTotalCount === null *)
  let counted : list Call * (Thrown + Z) :=
    match totalCount s, unfilteredTotalCount s with
    | Some known, Some _ => if force then countCall else ([], inr known)
    | _, _ => countCall
    end in
  match counted with
  | (cs, inl e) => (cs, Threw e)
  | (cs, inr total) =>
      let pages := mathCeil (divide total limit) in
      let paginationFilter :=
        match paginationCursor s page with
        | Some cursor => cursorFilter cursor
        | None => JUndefined
        end in
      let request := listRequest paginationFilter limit in
      match queryDocuments w ns request with
      | Rejected e => ((cs ++ [(ns, request)])%list, Threw e)
      | Fulfilled response =>
          let docs := rowsOf response in
          ((cs ++ [(ns, request)])%list,
           Completed (recordPage page docs pages cur) docs total response)
      end
  end.

(** The [catch] block. *)
Definition catchError (e : Thrown) (cur : DocumentsState) : DocumentsState :=
  cur <| error := Some match e with
                       | ErrorObject message => message
                       | NonError _ => "Failed to load documents"
                       end |>.

(** The [finally] block. *)
Definition finallyDone (cur : DocumentsState) : DocumentsState :=
  cur <| isLoading := false |>.

(** The last [set] of the [try] block: the page, the counts and the
    write-through to the cache. *)
Definition storePage (w : Services) (key : string) (queryMode_ : bool)
    (page : Z) (docs : list Document) (total : Z)
    (queryResult : DocumentsQueryResponse) (cur : DocumentsState)
  : DocumentsState :=
  let cur1 :=
    cur <| documents := docs |>
        <| totalCount := Some total |>
        <| totalPages := Some (mathCeil (divide total (pageSize cur))) |>
        <| lastQueryResult := Some queryResult |>
        <| currentPage := page |> in
  let cur2 :=
    if negb queryMode_ then cur1 <| unfilteredTotalCount := Some total |>
    else cur1 in
  cur2 <| documentsCache :=
            <[key := {| cached_documents := docs;
                        cached_totalCount := Some total;
                        timestamp := nowStored w |}]> (documentsCache cur2) |>.

(** "Check cache first (only for non-forced loads)": the entry that
    answers the load, if any. *)
Definition servedFromCache (w : Services) (force : bool) (limit page : Z)
    (s : DocumentsState) : option CacheEntry :=
  if force then None
  else freshEntry w (documentsCache s !! cacheKey s page limit).

(** The body of the [try] block. *)
Definition tryFetch (w : Services) (ns : string) (force : bool)
    (limit page : Z) (s cur : DocumentsState) : list Call * TryResult :=
  if shouldUseQueryMode s
  then loadFiltered w ns limit page s cur
  else loadBrowse w ns force limit page s cur.

(** What follows the body: the final [set] and the attribute discovery
    on success, the [catch] block on a rejection, and [finally]. *)
Definition settle (w : Services) (key : string) (page : Z)
    (s cur : DocumentsState) (tried : list Call * TryResult) : LoadResult :=
  match snd tried with
  | Completed cur' docs total queryResult =>
      {| final :=
           finallyDone
             (discoverAttributesFromDocuments docs
                (storePage w key (shouldUseQueryMode s) page docs total
                   queryResult cur'));
         calls := fst tried; outcome := Loaded |}
  | Returned cur' =>
      {| final := finallyDone cur'; calls := fst tried; outcome := ConfigError |}
  | Threw e =>
      {| final := finallyDone (catchError e cur);
         calls := fst tried; outcome := Failed e |}
  end.

(** "Using cached documents": the [set] of the cache branch and the
    attribute discovery from the cached rows. *)
Definition fromCache (page : Z) (cached : CacheEntry) (s : DocumentsState)
  : DocumentsState :=
  discoverAttributesFromDocuments (cached_documents cached)
    (s <| documents := cached_documents cached |>
       <| totalCount := cached_totalCount cached |>
       <| lastQueryResult := None |>
       <| currentPage := page |>).

(** The [set] that precedes the [try] block. *)
Definition beginLoad (limit : Z) (s : DocumentsState) : DocumentsState :=
  s <| isLoading := true |> <| error := None |> <| pageSize := limit |>.

(** [loadDocuments(force, loadMore, limit, page)] run on the state [s],
    with the backend calls it made. *)
Definition loadDocuments (w : Services) (force loadMore : bool)
    (limit page : Z) (s : DocumentsState) : LoadResult :=
  match currentNamespaceId s with
  | None => {| final := s; calls := []; outcome := Skipped |}
  | Some ns =>
      if negb (nonEmpty ns) || isLoading s then
        {| final := s; calls := []; outcome := Skipped |}
      else if negb (isClientInitialized s) || negb (getClient w) then
        {| final := if missing (error s)
                    then s <| error := Some NOT_INITIALIZED |> else s;
           calls := []; outcome := NotInitialized |}
      else
        match servedFromCache w force limit page s with
        | Some cached =>
            {| final := fromCache page cached s;
               calls := []; outcome := CacheHit |}
        | None =>
            let cur := beginLoad limit s in
            settle w (cacheKey s page limit) page s cur
              (tryFetch w ns force limit page s cur)
        end
  end.

(** The count request that precedes the page request, when one is
    issued. *)
Definition countRequest (s : DocumentsState) : QueryRequest :=
  if shouldUseQueryMode s
  then filteredCountRequest (combineFilters (buildFilters s))
  else totalCountRequest.

(** The load gets past the entry guards: a namespace is selected, no
    load is in flight and the client is there. *)
Definition passesGuards (w : Services) (s : DocumentsState) : bool :=
  negb (missing (currentNamespaceId s)) && negb (isLoading s)
  && isClientInitialized s && getClient w.

(** ** Mutators of the query configuration *)

(** The typed value that [addFilter] and [updateFilter] store. *)
Definition typedValueOf (fieldType : option string) (op : FilterOperator)
    (rawValue : JsVal) : JsVal :=
  match op with
  | op_in | op_not_in =>
      match rawValue with
      | JArr items =>
          JArr (List.map (fun v => match v with
                                   | JStr str => parseValueForFieldType str fieldType
                                   | _ => v
                                   end) items)
      | _ =>
          JArr (List.map (fun v => parseValueForFieldType v fieldType)
                  (splitValues (toStringWith render rawValue)))
      end
  | _ =>
      match rawValue with
      | JStr str =>
          if String.eqb (toLowerCase str) "null" then JNull
          else parseValueForFieldType str fieldType
      | _ => rawValue
      end
  end.

(** The text of an element inside [Array.prototype.join]. *)
Definition elementText (v : JsVal) : string :=
  match v with
  | JNull | JUndefined => ""
  | _ => toStringWith render v
  end.

(** "Create human-readable display value" *)
Definition displayValueOf (typedValue : JsVal) : string :=
  match typedValue with
  | JNull => "null"
  | JArr items =>
      if (3 <? length items)%nat
      then "[" +:+ joinWith ", " (List.map elementText (firstn 3 items)) +:+ ", ...]"
      else "[" +:+ joinWith ", " (List.map elementText items) +:+ "]"
  | JObj _ => stringify typedValue
  | _ => toStringWith render typedValue
  end.

Definition setSearchText (text : string) (s : DocumentsState)
  : DocumentsState * list Effect :=
  (s <| searchText := text |>
     <| isQueryMode := (0 <? String.length text)%nat
                       || (0 <? length (activeFilters s))%nat |>
     <| currentPage := 1 |>
     <| previousCursors := [] |>
     <| nextCursor := None |>,
   [ClearSearchDebounce;
    SetSearchDebounce DEBOUNCE_DELAY [LogFilterChange; LoadFirstPage]]).

Definition addFilter (newId : string) (a : string) (op : FilterOperator)
    (rawValue : JsVal) (s : DocumentsState) : DocumentsState * list Effect :=
  let fieldType := fieldTypeOf (attributes s) a in
  let typedValue := typedValueOf fieldType op rawValue in
  let newFilter :=
    {| filter_id := newId; attribute := a; operator := op;
       value := typedValue; displayValue := displayValueOf typedValue |} in
  (s <| activeFilters := (activeFilters s ++ [newFilter])%list |>
     <| isQueryMode := true |>
     <| currentPage := 1 |>
     <| previousCursors := [] |>
     <| nextCursor := None |>,
   [SetTimeout 100 LogFilterChange; SetTimeout 0 LoadFirstPage]).

(** [activeFilters[findIndex(f => f.id === filterId)] = {...old, ...}] *)
Fixpoint replaceFilter (filterId : string) (update : SimpleFilter -> SimpleFilter)
    (fs : list SimpleFilter) : list SimpleFilter :=
  match fs with
  | [] => []
  | f :: rest =>
      if String.eqb (filter_id f) filterId then update f :: rest
      else f :: replaceFilter filterId update rest
  end.

Definition updateFilter (filterId : string) (a : string) (op : FilterOperator)
    (rawValue : JsVal) (s : DocumentsState) : DocumentsState * list Effect :=
  let fieldType := fieldTypeOf (attributes s) a in
  let typedValue := typedValueOf fieldType op rawValue in
  let update old :=
    {| filter_id := filter_id old; attribute := a; operator := op;
       value := typedValue; displayValue := displayValueOf typedValue |} in
  (s <| activeFilters := replaceFilter filterId update (activeFilters s) |>
     <| currentPage := 1 |>
     <| previousCursors := [] |>
     <| nextCursor := None |>,
   [SetTimeout 100 LogFilterChange; SetTimeout 0 LoadFirstPage]).

Definition removeFilter (filterId : string) (s : DocumentsState)
  : DocumentsState * list Effect :=
  let kept := List.filter (fun f => negb (String.eqb (filter_id f) filterId))
                (activeFilters s) in
  (s <| activeFilters := kept |>
     <| isQueryMode := (0 <? String.length (searchText s))%nat
                       || (0 <? length kept)%nat |>
     <| currentPage := 1 |>
     <| previousCursors := [] |>
     <| nextCursor := None |>,
   [SetTimeout 100 LogFilterChange; SetTimeout 0 LoadFirstPage]).

Definition setSortAttribute (a : option string) (direction : SortDirection)
    (s : DocumentsState) : DocumentsState :=
  s <| sortAttribute := a |>
    <| sortDirection := direction |>
    <| currentPage := 1 |>
    <| previousCursors := [] |>
    <| nextCursor := None |>.

Definition setQueryMode (mode : QueryMode) (s : DocumentsState) : DocumentsState :=
  s <| queryMode := mode |>
    <| currentPage := 1 |>
    <| previousCursors := [] |>
    <| nextCursor := None |>.

Definition setSearchField (f : option string) (s : DocumentsState)
  : DocumentsState :=
  s <| searchField := f |>
    <| currentPage := 1 |>
    <| previousCursors := [] |>
    <| nextCursor := None |>.

Definition setVectorQuery (vector : option (list Q)) (f : string)
    (s : DocumentsState) : DocumentsState :=
  s <| vectorQuery := vector |>
    <| vectorField := Some f |>
    <| currentPage := 1 |>
    <| previousCursors := [] |>
    <| nextCursor := None |>.

Definition setBM25Config (fields : list BM25Field) (op : BM25Operator)
    (s : DocumentsState) : DocumentsState :=
  s <| bm25Fields := fields |>
    <| bm25Operator := op |>
    <| currentPage := 1 |>
    <| previousCursors := [] |>
    <| nextCursor := None |>.

Definition setRankingMode (mode : RankingMode) (s : DocumentsState)
  : DocumentsState :=
  s <| rankingMode := mode |>
    <| currentPage := 1 |>
    <| previousCursors := [] |>
    <| nextCursor := None |>.

Definition setRankingExpression (e : option RankingExprNode)
    (s : DocumentsState) : DocumentsState :=
  s <| rankingExpression := e |>
    <| currentPage := 1 |>
    <| previousCursors := [] |>
    <| nextCursor := None |>.

Definition setAggregations (aggs : list AggregationConfig)
    (s : DocumentsState) : DocumentsState :=
  s <| aggregations := aggs |>
    <| currentPage := 1 |>
    <| previousCursors := [] |>
    <| nextCursor := None |>.

Definition setGroupByAttributes (attrs : list string) (s : DocumentsState)
  : DocumentsState :=
  let s' :=
    s <| groupByAttributes := attrs |>
      <| isGroupedQuery := (0 <? length attrs)%nat |>
      <| currentPage := 1 |>
      <| previousCursors := [] |>
      <| nextCursor := None |> in
  match attrs with
  | [] => s' <| aggregationGroups := None |>
  | _ => s'
  end.

(** The mutator intents on the query configuration, as one type. *)
Inductive Mutation : Type :=
| SetSearchText (text : string)
| AddFilter (newId a : string) (op : FilterOperator) (rawValue : JsVal)
| UpdateFilter (filterId a : string) (op : FilterOperator) (rawValue : JsVal)
| RemoveFilter (filterId : string)
| SetSortAttribute (a : option string) (direction : SortDirection)
| SetQueryMode (mode : QueryMode)
| SetSearchField (f : option string)
| SetVectorQuery (vector : option (list Q)) (f : string)
| SetBM25Config (fields : list BM25Field) (op : BM25Operator)
| SetRankingMode (mode : RankingMode)
| SetRankingExpression (e : option RankingExprNode)
| SetAggregations (aggs : list AggregationConfig)
| SetGroupByAttributes (attrs : list string).

(** The state right after the mutator has run. *)
Definition mutate (m : Mutation) (s : DocumentsState) : DocumentsState :=
  match m with
  | SetSearchText text => fst (setSearchText text s)
  | AddFilter newId a op rawValue => fst (addFilter newId a op rawValue s)
  | UpdateFilter filterId a op rawValue =>
      fst (updateFilter filterId a op rawValue s)
  | RemoveFilter filterId => fst (removeFilter filterId s)
  | SetSortAttribute a direction => setSortAttribute a direction s
  | SetQueryMode mode => setQueryMode mode s
  | SetSearchField f => setSearchField f s
  | SetVectorQuery vector f => setVectorQuery vector f s
  | SetBM25Config fields op => setBM25Config fields op s
  | SetRankingMode mode => setRankingMode mode s
  | SetRankingExpression e => setRankingExpression e s
  | SetAggregations aggs => setAggregations aggs s
  | SetGroupByAttributes attrs => setGroupByAttributes attrs s
  end.

(** The request of the page itself, compiled from [s] with the cursor
    that the pagination branches chose: [None] when the full-text
    branch returns early. *)
Definition compileRequest (s : DocumentsState) (limit : Z)
    (cursor : option JsVal) : option QueryRequest :=
  if shouldUseQueryMode s then
    let combinedFilter := combineFilters (buildFilters s) in
    let finalFilter :=
      match cursor with
      | Some c => withCursor combinedFilter c
      | None => combinedFilter
      end in
    match determineRankBy s with
    | Rank rankBy => Some (queryRequest s limit finalFilter rankBy)
    | NoSearchableFields => None
    end
  else
    Some (listRequest
            match cursor with
            | Some c => cursorFilter c
            | None => JUndefined
            end limit).

(** The page request that a load of [page] compiles from [s], when it
    reaches that point with no cache entry to serve. *)
Definition primaryRequest (s : DocumentsState) (limit page : Z)
  : option QueryRequest :=
  compileRequest s limit (paginationCursor s page).

End Store.

(** The query configuration of a state, with the connection, the
    namespace and the client flag: what a load reads and never writes. *)
Definition queryOf (s : DocumentsState) :=
  (currentConnectionId s, currentNamespaceId s, isClientInitialized s,
   searchText s, activeFilters s, queryMode s,
   sortAttribute s, sortDirection s, vectorQuery s, vectorField s,
   bm25Fields s, bm25Operator s, rankingMode s, rankingExpression s,
   aggregations s, groupByAttributes s).


(** [sortAttribute ?? "id"], as claim C3 words the lexical sort. *)
Definition lexicalSortAsClaimed (s : DocumentsState) : JsVal :=
  JArr [JStr (default "id" (sortAttribute s));
        JStr (directionName (sortDirection s))].

(** ** The rest of the state

    The fields of [DocumentsState] that [loadDocuments] does not read,
    beside the ones it does ([core]).  The two display options
    ([wrapCellText], [shrinkLargeText]) are left out. *)

(** An entry of the saved filters. *)
Record FilterHistoryEntry : Type := mkSavedFilter {
  saved_id : string;
  saved_name : string;
  saved_searchText : string;
  saved_filters : list SimpleFilter;
  saved_timestamp : Z;
  appliedCount : Z;
  saved_description : option string
}.

(** An entry of the filters logged as they are typed. *)
Record RecentFilterEntry : Type := mkRecentFilter {
  recent_id : string;
  recent_searchText : string;
  recent_filters : list SimpleFilter;
  recent_timestamp : Z;
  recent_description : option string
}.

Record AttributesCacheEntry : Type := mkAttributesCacheEntry {
  cached_attributes : list DiscoveredAttribute;
  attributes_timestamp : Z
}.

Record Store : Type := mkStore {
  core : DocumentsState;
  isRefreshing : bool;
  isDiscoveringAttributes : bool;
  (** [Set<string | number>]; the actions below only empty it *)
  selectedDocuments : list JsVal;
  (** [Set<string>]; the actions below only empty it *)
  visibleColumns : list string;
  initializationAttempts : Z;
  maxInitAttempts : Z;
  attributesCache : gmap string AttributesCacheEntry;
  filterHistory : gmap string (list FilterHistoryEntry);
  recentFilterHistory : gmap string (list RecentFilterEntry)
}.

(** What the store and the filter builder take from [utils] beside
    [isArrayType] and [parseValueForFieldType]: [filterDescriptions] and
    [filterTypeConversion] are not among the sources. *)
Class Utilities : Type := {
  generateFilterDescription : list SimpleFilter -> string -> string;
  isNumericType : string -> bool
}.

(** How an awaited call whose value is not read settled. *)
Inductive Awaited : Type :=
| Resolved
| RejectedWith (e : Thrown).

(** What an action that awaits one call of a service leaves. *)
Record Settlement : Type := mkSettlement {
  after : Store;
  (** the service was called *)
  called : bool;
  (** what the action throws again *)
  rethrown : option Thrown
}.

(** [error instanceof Error ? error.message : fallback] *)
Definition errorMessage (e : Thrown) (fallback : string) : string :=
  match e with
  | ErrorObject message => message
  | NonError _ => fallback
  end.

(** [a === b] on a [string | null] *)
Definition sameNullable (a b : option string) : bool :=
  match a, b with
  | Some x, Some y => String.eqb x y
  | None, None => true
  | _, _ => false
  end.

(** [a === b] on row keys, which are strings or numbers; primitives
    compare by value, and no array or object is another one. *)
Definition sameKey (a b : JsVal) : bool :=
  match a, b with
  | JStr x, JStr y => String.eqb x y
  | JNum x, JNum y => Qeq_bool x y
  | JBool x, JBool y => Bool.eqb x y
  | JNull, JNull => true
  | JUndefined, JUndefined => true
  | _, _ => false
  end.

(** [`${connectionId}:${namespaceId}`] *)
Definition historyKey (connectionId namespaceId : string) : string :=
  connectionId +:+ ":" +:+ namespaceId.

(** [get().loadDocuments(true, false, get().pageSize, 1)], the task
    [LoadFirstPage] when its timer fires. *)
Definition loadFirstPage {RT : Runtime} (w : Services) (s : DocumentsState)
  : LoadResult :=
  loadDocuments w true false (pageSize s) 1 s.

(** The states that a sequence of loads goes through, one after the
    other: a load request is the services at hand, [force], the page
    size and the page. *)
Definition afterLoads {RT : Runtime}
    (requests : list (Services * bool * Z * Z)) (s : DocumentsState)
  : DocumentsState :=
  fold_left (fun cur '(w, force, limit, page) =>
               final (loadDocuments w force false limit page cur))
    requests s.

(** ** Namespace and filters *)

(** [setNamespace]: the state, and the connection and namespace whose
    query history is asked for in the background. *)
Definition setNamespace (namespaceId : option string) (st : Store)
  : Store * option (string * string) :=
  let s := core st in
  if sameNullable (currentNamespaceId s) namespaceId then (st, None)
  else
    (st <| core :=
            (s <| currentNamespaceId := namespaceId |>
               <| documents := [] |>
               <| totalCount := None |>
               <| unfilteredTotalCount := None |>
               <| attributes := [] |>
               <| lastQueryResult := None |>
               <| nextCursor := None |>
               <| previousCursors := [] |>
               <| currentPage := 1 |>
               <| searchText := "" |>
               <| activeFilters := [] |>
               <| isQueryMode := false |>
               <| sortAttribute := None |>
               <| sortDirection := dir_asc |>
               <| queryMode := mode_browse |>
               <| searchField := None |>
               <| vectorQuery := None |>
               <| vectorField := None |>
               <| bm25Fields := [] |>
               <| bm25Operator := bm25_sum |>
               <| groupByAttributes := [] |>
               <| aggregationGroups := None |>
               <| isGroupedQuery := false |>
               <| error := None |>
               <| isClientInitialized := false |>) |>
        <| selectedDocuments := [] |>
        <| visibleColumns := [] |>
        <| initializationAttempts := 0 |>,
     match currentConnectionId s, namespaceId with
     | Some c, Some n => if nonEmpty c && nonEmpty n then Some (c, n) else None
     | _, _ => None
     end).

(** The callback of [loadQueryHistory(connectionId, namespaceId)]. *)
Definition queryHistoryLoaded (connectionId namespaceId : string)
    (saved : option (list FilterHistoryEntry))
    (recent : option (list RecentFilterEntry)) (st : Store) : Store :=
  st <| filterHistory :=
          <[historyKey connectionId namespaceId := default [] saved]>
            (filterHistory st) |>
     <| recentFilterHistory :=
          <[historyKey connectionId namespaceId := default [] recent]>
            (recentFilterHistory st) |>.

Definition clearFilters (s : DocumentsState) : DocumentsState * list Effect :=
  (s <| searchText := "" |>
     <| activeFilters := [] |>
     <| isQueryMode := false |>
     <| nextCursor := None |>
     <| previousCursors := [] |>
     <| currentPage := 1 |>,
   [ClearSearchDebounce; SetTimeout 100 LogFilterChange;
    SetTimeout 0 LoadFirstPage]).

Definition clearAllFilters (s : DocumentsState) : DocumentsState * list Effect :=
  (s <| searchText := "" |>
     <| activeFilters := [] |>
     <| isQueryMode := false |>
     <| nextCursor := None |>
     <| previousCursors := [] |>
     <| currentPage := 1 |>,
   [ClearSearchDebounce; SetTimeout 0 LoadFirstPage]).

(** ** The client *)

Record Initialization : Type := mkInitialization {
  initialized_store : Store;
  (** the value that [initializeClient] resolves to *)
  initialized : bool;
  (** the connection was tried *)
  attempted : bool
}.

(** [initializeClient]: [clientPresent] is
    [documentService.getClient()] not being null, [connect] is how
    fetching the connection and initializing the client settled. *)
Definition initializeClient (clientPresent : bool) (connect : Awaited)
    (st : Store) : Initialization :=
  if isClientInitialized (core st) && clientPresent then
    {| initialized_store := st; initialized := true; attempted := false |}
  else if maxInitAttempts st <=? initializationAttempts st then
    {| initialized_store :=
         st <| core :=
                 (core st)
                   <| error := Some ("Failed to initialize after " +:+
                                     showInt (maxInitAttempts st) +:+
                                     " attempts. Please check your connection.") |> |>;
       initialized := false; attempted := false |}
  else
    let st1 := st <| initializationAttempts := initializationAttempts st + 1 |> in
    match connect with
    | Resolved =>
        {| initialized_store :=
             st1 <| core := (core st1) <| isClientInitialized := true |>
                                       <| error := None |> |>
                 <| initializationAttempts := 0 |>;
           initialized := true; attempted := true |}
    | RejectedWith e =>
        {| initialized_store :=
             st1 <| core :=
                      (core st1)
                        <| error :=
                             Some (if maxInitAttempts st1 <=? initializationAttempts st1
                                   then "Failed to connect after " +:+
                                        showInt (maxInitAttempts st1) +:+
                                        " attempts: " +:+
                                        errorMessage e "Unknown error"
                                   else "Failed to connect to database. Retrying...") |>
                        <| isClientInitialized := false |> |>;
           initialized := false; attempted := true |}
    end.

Definition resetInitialization (st : Store) : Store :=
  st <| initializationAttempts := 0 |>
     <| core := (core st) <| error := None |> |>.

(** Calls of [initializeClient] one after the other, each finding no
    client and a connection that fails: the final state and the number
    of times the connection was tried. *)
Fixpoint initializeFailing (errors : list Thrown) (st : Store) : Store * nat :=
  match errors with
  | [] => (st, 0%nat)
  | e :: rest =>
      let r := initializeClient false (RejectedWith e) st in
      let '(st', n) := initializeFailing rest (initialized_store r) in
      (st', if attempted r then S n else n)
  end.

(** ** Writes *)

(** [deleteDocuments(ids)] *)
Definition deleteDocuments (deleted : Awaited) (ids : list JsVal) (st : Store)
  : Settlement :=
  let s := core st in
  if missing (currentNamespaceId s) then
    {| after := st; called := false; rethrown := None |}
  else
    match deleted with
    | Resolved =>
        {| after :=
             st <| core :=
                     (s <| documents :=
                             List.filter
                               (fun doc =>
                                  negb (existsb (fun id => sameKey id (doc_id doc)) ids))
                               (documents s) |>
                        <| totalCount :=
                             (fun n => Z.max 0 (n - Z.of_nat (length ids)))
                               <$> totalCount s |>
                        <| documentsCache := ∅ |>) |>
                <| selectedDocuments := [] |>;
           called := true; rethrown := None |}
    | RejectedWith e =>
        {| after :=
             st <| core :=
                     s <| error := Some (errorMessage e "Failed to delete documents") |> |>;
           called := true; rethrown := Some e |}
    end.

(** [o[k] = v] on an object: the value of a key that is there is
    replaced, a new key goes last. *)
Fixpoint setProperty (k : string) (v : JsVal) (o : list (string * JsVal))
  : list (string * JsVal) :=
  match o with
  | [] => [(k, v)]
  | (k', v') :: rest =>
      if String.eqb k' k then (k, v) :: rest
      else (k', v') :: setProperty k v rest
  end.

(** [{ ...o, ...update }] *)
Definition spread (o update : list (string * JsVal)) : list (string * JsVal) :=
  fold_left (fun acc kv => setProperty (fst kv) (snd kv) acc) update o.

(** [o[k]] *)
Definition getProperty (k : string) (o : list (string * JsVal)) : option JsVal :=
  snd <$> List.find (fun kv => String.eqb (fst kv) k) o.

(** [docs[docs.findIndex(doc => doc.id === id)] = {...doc, attributes:
    {...doc.attributes, ...attrs}}], nothing when no row has the id. *)
Fixpoint mergeIntoFirst (id : JsVal) (attrs : list (string * JsVal))
    (docs : list Document) : list Document :=
  match docs with
  | [] => []
  | doc :: rest =>
      if sameKey (doc_id doc) id
      then {| doc_id := doc_id doc;
              doc_attributes := spread (doc_attributes doc) attrs |} :: rest
      else doc :: mergeIntoFirst id attrs rest
  end.

(** [updateDocument(id, attributes)] *)
Definition updateDocument (updated : Awaited) (id : JsVal)
    (attrs : list (string * JsVal)) (st : Store) : Settlement :=
  let s := core st in
  if missing (currentNamespaceId s) then
    {| after := st; called := false; rethrown := None |}
  else
    match updated with
    | Resolved =>
        {| after :=
             st <| core :=
                     s <| documents := mergeIntoFirst id attrs (documents s) |>
                       <| documentsCache := ∅ |> |>;
           called := true; rethrown := None |}
    | RejectedWith e =>
        {| after :=
             st <| core :=
                     s <| error := Some (errorMessage e "Failed to update document") |> |>;
           called := true; rethrown := Some e |}
    end.

(** [importDocuments(documents)]: what it leaves, and the backend calls
    of the reload it awaits. *)
Definition importDocuments {RT : Runtime} (w : Services) (upserted : Awaited)
    (docs : list Document) (st : Store) : Settlement * list Call :=
  let s := core st in
  if missing (currentNamespaceId s) then
    ({| after := st; called := false; rethrown := None |}, [])
  else
    let s1 := s <| isLoading := true |> <| error := None |> in
    match upserted with
    | Resolved =>
        let s2 := s1 <| documentsCache := ∅ |> in
        let reload := loadDocuments w true false (pageSize s2) 1 s2 in
        ({| after := st <| core := (final reload) <| isLoading := false |> |>
                        <| attributesCache := ∅ |>;
            called := true; rethrown := None |},
         calls reload)
    | RejectedWith e =>
        ({| after :=
              st <| core :=
                      s1 <| isLoading := false |>
                         <| error := Some (errorMessage e "Failed to import documents") |> |>;
            called := true; rethrown := Some e |},
         [])
    end.

(** ** Raw queries and utilities *)

(** [setRawQueryResults(documents, queryResponse)] *)
Definition setRawQueryResults (docs : list Document)
    (queryResponse : option DocumentsQueryResponse) (s : DocumentsState)
  : DocumentsState :=
  s <| documents := docs |>
    <| totalCount := Some (Z.of_nat (length docs)) |>
    <| isLoading := false |>
    <| error := None |>
    <| lastQueryResult := queryResponse |>
    <| nextCursor := None |>
    <| activeFilters := [] |>
    <| searchText := "" |>.

Definition clearDocuments (s : DocumentsState) : DocumentsState :=
  s <| documents := [] |>
    <| totalCount := None |>
    <| error := None |>
    <| isLoading := false |>.

Definition clearCache (st : Store) : Store :=
  st <| core := (core st) <| documentsCache := ∅ |> |>
     <| attributesCache := ∅ |>.

Definition reset (st : Store) : Store :=
  st <| core :=
          (core st)
            <| documents := [] |>
            <| totalCount := None |>
            <| unfilteredTotalCount := None |>
            <| attributes := [] |>
            <| lastQueryResult := None |>
            <| nextCursor := None |>
            <| isLoading := false |>
            <| error := None |>
            <| currentNamespaceId := None |>
            <| searchText := "" |>
            <| activeFilters := [] |>
            <| isQueryMode := false |>
            <| isClientInitialized := false |>
            <| documentsCache := ∅ |> |>
     <| isRefreshing := false |>
     <| isDiscoveringAttributes := false |>
     <| selectedDocuments := [] |>
     <| visibleColumns := [] |>
     <| initializationAttempts := 0 |>
     <| attributesCache := ∅ |>.

(** ** Filter history *)

#[global] Instance FilterOperator_eq_dec : EqDecision FilterOperator.
Proof. solve_decision. Defined.

(** The connection and the namespace of the history, when both are
    there: [!currentConnectionId || !currentNamespaceId] otherwise. *)
Definition historyScope (s : DocumentsState) : option (string * string) :=
  match currentConnectionId s, currentNamespaceId s with
  | Some c, Some n => if nonEmpty c && nonEmpty n then Some (c, n) else None
  | _, _ => None
  end.

Definition getNamespaceFilterHistory (st : Store) : list FilterHistoryEntry :=
  match historyScope (core st) with
  | Some (c, n) => default [] (filterHistory st !! historyKey c n)
  | None => []
  end.

Definition getNamespaceRecentHistory (st : Store) : list RecentFilterEntry :=
  match historyScope (core st) with
  | Some (c, n) => default [] (recentFilterHistory st !! historyKey c n)
  | None => []
  end.

(** The list that the history menu of [FilterBar] shows. *)
Definition recentHistoryShown (st : Store) : list RecentFilterEntry :=
  match currentNamespaceId (core st) with
  | Some n =>
      if nonEmpty n then default [] (recentFilterHistory st !! n) else []
  | None => []
  end.

Section Actions.

Context {RT : Runtime} {UT : Utilities}.

(** The callback of [entry.filters.every] in [logFilterChange]. *)
Definition sameFilter (f g : SimpleFilter) : bool :=
  String.eqb (attribute f) (attribute g)
  && bool_decide (operator f = operator g)
  && String.eqb (stringify (value f)) (stringify (value g)).

(** [fs.every((f, i) => ... gs[i]? ...)]: an index that [gs] does not
    have compares with [undefined]. *)
Fixpoint everyMatches (fs gs : list SimpleFilter) : bool :=
  match fs with
  | [] => true
  | f :: fs' =>
      match gs with
      | g :: gs' => sameFilter f g && everyMatches fs' gs'
      | [] => false
      end
  end.

(** "This exact filter combination already exists" *)
Definition isDuplicateOf (newEntry entry : RecentFilterEntry) : bool :=
  String.eqb (recent_searchText entry) (recent_searchText newEntry)
  && (length (recent_filters entry) =? length (recent_filters newEntry))%nat
  && everyMatches (recent_filters entry) (recent_filters newEntry).

(** The entry that [logFilterChange] builds: [newId] and [time] are
    what [`${Date.now()}-${Math.random()}`] and [Date.now()] give. *)
Definition recentEntry (newId : string) (time : Z) (s : DocumentsState)
  : RecentFilterEntry :=
  {| recent_id := newId;
     recent_searchText := searchText s;
     recent_filters := activeFilters s;
     recent_timestamp := time;
     recent_description :=
       Some (generateFilterDescription (activeFilters s) (searchText s)) |}.

(** [logFilterChange]; [saved] is how the write to disk settled. *)
Definition logFilterChange (newId : string) (time : Z) (saved : Awaited)
    (st : Store) : Store :=
  let s := core st in
  match historyScope s with
  | None => st
  | Some (c, n) =>
      if (String.length (searchText s) =? 0)%nat
         && (length (activeFilters s) =? 0)%nat
      then st
      else
        let newEntry := recentEntry newId time s in
        match saved with
        | RejectedWith _ => st
        | Resolved =>
            let recentHistory :=
              default [] (recentFilterHistory st !! historyKey c n) in
            if existsb (isDuplicateOf newEntry) recentHistory then st
            else
              st <| recentFilterHistory :=
                      <[historyKey c n := firstn 30 (newEntry :: recentHistory)]>
                        (recentFilterHistory st) |>
        end
  end.

(** [applyRecentFilter(historyId)] *)
Definition applyRecentFilter (historyId : string) (st : Store)
  : Store * list Effect :=
  match historyScope (core st) with
  | None => (st, [])
  | Some (c, n) =>
      let recentHistory :=
        default [] (recentFilterHistory st !! historyKey c n) in
      match List.find (fun entry => String.eqb (recent_id entry) historyId)
              recentHistory with
      | None => (st, [])
      | Some historyEntry =>
          (st <| core :=
                  (core st)
                    <| searchText := recent_searchText historyEntry |>
                    <| activeFilters := recent_filters historyEntry |>
                    <| isQueryMode :=
                         (0 <? String.length (recent_searchText historyEntry))%nat
                         || (0 <? length (recent_filters historyEntry))%nat |> |>,
           [SetTimeout 0 LoadFirstPage])
      end
  end.

(** The entry that [saveToFilterHistory] builds. *)
Definition savedEntry (name_ newId : string) (time : Z) (s : DocumentsState)
  : FilterHistoryEntry :=
  {| saved_id := newId;
     saved_name := name_;
     saved_searchText := searchText s;
     saved_filters := activeFilters s;
     saved_timestamp := time;
     appliedCount := 0;
     saved_description :=
       Some (generateFilterDescription (activeFilters s) (searchText s)) |}.

(** [saveToFilterHistory(name)] *)
Definition saveToFilterHistory (name_ newId : string) (time : Z)
    (saved : Awaited) (st : Store) : Store :=
  let s := core st in
  match historyScope s with
  | None => st
  | Some (c, n) =>
      let newEntry := savedEntry name_ newId time s in
      match saved with
      | RejectedWith _ => st
      | Resolved =>
          let namespaceHistory :=
            default [] (filterHistory st !! historyKey c n) in
          st <| filterHistory :=
                  <[historyKey c n := firstn 20 (newEntry :: namespaceHistory)]>
                    (filterHistory st) |>
      end
  end.

(** [applyFilterFromHistory(historyId)]; the count on disk is updated
    after the state, and a failure of that write is swallowed. *)
Definition applyFilterFromHistory (historyId : string) (st : Store)
  : Store * list Effect :=
  match historyScope (core st) with
  | None => (st, [])
  | Some (c, n) =>
      let namespaceHistory := default [] (filterHistory st !! historyKey c n) in
      match List.find (fun entry => String.eqb (saved_id entry) historyId)
              namespaceHistory with
      | None => (st, [])
      | Some historyEntry =>
          (st <| core :=
                  (core st)
                    <| searchText := saved_searchText historyEntry |>
                    <| activeFilters := saved_filters historyEntry |>
                    <| isQueryMode :=
                         (0 <? String.length (saved_searchText historyEntry))%nat
                         || (0 <? length (saved_filters historyEntry))%nat |> |>
              <| filterHistory :=
                   <[historyKey c n :=
                       List.map (fun entry =>
                                   if String.eqb (saved_id entry) historyId
                                   then entry <| appliedCount := appliedCount entry + 1 |>
                                   else entry) namespaceHistory]>
                     (filterHistory st) |>,
           [SetTimeout 0 LoadFirstPage])
      end
  end.

(** [deleteFilterFromHistory(historyId)] *)
Definition deleteFilterFromHistory (historyId : string) (deleted : Awaited)
    (st : Store) : Store :=
  match historyScope (core st) with
  | None => st
  | Some (c, n) =>
      match deleted with
      | RejectedWith _ => st
      | Resolved =>
          let namespaceHistory :=
            default [] (filterHistory st !! historyKey c n) in
          st <| filterHistory :=
                  <[historyKey c n :=
                      List.filter
                        (fun entry => negb (String.eqb (saved_id entry) historyId))
                        namespaceHistory]>
                    (filterHistory st) |>
      end
  end.

(** ** The operators of the filter builder *)

(** The part of [FieldInfo] that the operator table reads. *)
Record FieldInfo : Type := mkFieldInfo {
  field_name : string;
  field_type : string;
  isFts : option bool
}.

Record OperatorOption : Type := mkOperatorOption {
  option_value : FilterOperator;
  apiOperator : string;
  option_label : string;
  option_group : string
}.

(** [s.includes(part)] *)
Fixpoint includes (part s : string) : bool :=
  String.prefix part s
  || match s with
     | String _ rest => includes part rest
     | EmptyString => false
     end.

(** "Define operators for different field types" *)
Definition operators (selectedFieldInfo : option FieldInfo) : list OperatorOption :=
  match selectedFieldInfo with
  | None => []
  | Some info =>
      let type := field_type info in
      let isNumericArray :=
        includes "int" type || includes "uint" type || includes "float" type
        || String.eqb type "[]number" in
      if isArrayType (Some type) then
        ([mkOperatorOption op_array_contains "Contains" "Array contains value" "containment";
          mkOperatorOption op_not_array_contains "NotContains" "Array does not contain" "containment";
          mkOperatorOption op_contains_any "ContainsAny" "Contains any of values" "containment";
          mkOperatorOption op_not_contains_any "NotContainsAny" "Contains none of values" "containment"]
         ++ (if isNumericArray then
               [mkOperatorOption op_any_lt "AnyLt" "Any element less than" "comparison";
                mkOperatorOption op_any_lte "AnyLte" "Any element less or equal" "comparison";
                mkOperatorOption op_any_gt "AnyGt" "Any element greater than" "comparison";
                mkOperatorOption op_any_gte "AnyGte" "Any element greater or equal" "comparison"]
             else []))%list
      else if String.eqb type "number" || isNumericType type then
        [mkOperatorOption op_equals "Eq" "Equal to" "equality";
         mkOperatorOption op_not_equals "NotEq" "Not equal to" "equality";
         mkOperatorOption op_greater "Gt" "Greater than" "comparison";
         mkOperatorOption op_greater_or_equal "Gte" "Greater or equal" "comparison";
         mkOperatorOption op_less "Lt" "Less than" "comparison";
         mkOperatorOption op_less_or_equal "Lte" "Less or equal" "comparison";
         mkOperatorOption op_in "In" "Value in list" "list";
         mkOperatorOption op_not_in "NotIn" "Value not in list" "list"]
      else
        ([mkOperatorOption op_equals "Eq" "Exact match" "equality";
          mkOperatorOption op_not_equals "NotEq" "Not equal" "equality";
          mkOperatorOption op_contains "Glob" "Contains substring (*val*)" "pattern";
          mkOperatorOption op_matches "Glob" "Unix glob pattern" "pattern";
          mkOperatorOption op_not_matches "NotGlob" "Does not match glob" "pattern";
          mkOperatorOption op_imatches "IGlob" "Case-insensitive glob" "pattern";
          mkOperatorOption op_not_imatches "NotIGlob" "Not case-insensitive glob" "pattern";
          mkOperatorOption op_regex "Regex" "Regular expression" "pattern";
          mkOperatorOption op_in "In" "Value in list" "list";
          mkOperatorOption op_not_in "NotIn" "Value not in list" "list";
          mkOperatorOption op_greater "Gt" "Lexicographic greater" "comparison";
          mkOperatorOption op_greater_or_equal "Gte" "Lexicographic greater or equal" "comparison";
          mkOperatorOption op_less "Lt" "Lexicographic less" "comparison";
          mkOperatorOption op_less_or_equal "Lte" "Lexicographic less or equal" "comparison"]
         ++ (match isFts info with
             | Some true =>
                 [mkOperatorOption op_contains_all_tokens "ContainsAllTokens"
                    "All words present (any order)" "fts";
                  mkOperatorOption op_contains_token_sequence "ContainsTokenSequence"
                    "Exact phrase match" "fts"]
             | _ => []
             end))%list
  end.

(** The operator that [handleFieldChange] selects for an existing
    filter moved to the field [newField]. *)
Definition operatorOnFieldChange (fields : list FieldInfo) (newField : string)
  : FilterOperator :=
  let fieldInfo :=
    List.find (fun f => String.eqb (field_name f) newField) fields in
  if isArrayType (field_type <$> fieldInfo) then op_array_contains else op_equals.

End Actions.

(** ** The initial state and sample data *)

(** "Initial state" of the store. *)
Definition initialState : DocumentsState :=
  {| documents := [];
     totalCount := None;
     unfilteredTotalCount := None;
     attributes := [];
     lastQueryResult := None;
     nextCursor := None;
     previousCursors := [];
     currentPage := 1;
     pageSize := 100;
     totalPages := None;
     isLoading := false;
     error := None;
     isClientInitialized := false;
     currentConnectionId := None;
     currentNamespaceId := None;
     searchText := "";
     activeFilters := [];
     isQueryMode := false;
     sortAttribute := None;
     sortDirection := dir_asc;
     queryMode := mode_browse;
     searchField := None;
     vectorQuery := None;
     vectorField := None;
     bm25Fields := [];
     bm25Operator := bm25_sum;
     rankingMode := ranking_simple;
     rankingExpression := None;
     aggregations := [];
     aggregationResults := None;
     groupByAttributes := [];
     aggregationGroups := None;
     isGroupedQuery := false;
     documentsCache := ∅ |}.

(** The store once a connection and a namespace are chosen and the
    client is initialized. *)
Definition connectedState : DocumentsState :=
  initialState <| currentConnectionId := Some "conn" |>
               <| currentNamespaceId := Some "docs" |>
               <| isClientInitialized := true |>.

(** The array test that [discoverAttributesFromDocuments] itself applies
    to a type name: ["array"] or a name that starts with ["[]"]. *)
Definition isArrayTypeName (t : option string) : bool :=
  match t with
  | Some ty => String.eqb ty "array" || String.prefix "[]" ty
  | None => false
  end.

(** A runtime for the examples.  Values typed in are kept as strings and
    filters are keyed by their ids; no example renders a number or an
    object; the rows of the examples carry an id and no attribute, for
    which the analysis finds no attribute. *)
Definition sampleRuntime : Runtime :=
  {| isArrayType := isArrayTypeName;
     parseValueForFieldType := fun v _ => JStr v;
     render := fun _ => "";
     stringify := fun _ => "";
     stringifyFilters := fun fs => joinWith "," (List.map filter_id fs);
     analyzeDocuments := fun _ => [] |}.

(** The type that [discoverAttributesFromDocuments] finds for a value,
    a string that is no date being of type ["string"]. *)
Definition isInteger (q : Q) : bool := (Z.pos (Qden (Qred q)) =? 1).

Definition discoveredArrayType (items : list JsVal) : string :=
  match List.find (fun el => match el with
                             | JNull | JUndefined => false
                             | _ => true
                             end) items with
  | Some (JNum _) =>
      if forallb (fun el => match el with
                            | JNull | JUndefined => true
                            | JNum q => isInteger q
                            | _ => false
                            end) items
      then "[]int32" else "[]float64"
  | Some (JStr _) => "[]string"
  | Some (JBool _) => "[]bool"
  | _ => "array"
  end.

Definition discoveredType (v : JsVal) : string :=
  match v with
  | JStr _ => "string"
  | JNum _ => "number"
  | JBool _ => "boolean"
  | JArr items => discoveredArrayType items
  | JObj _ => "object"
  | JNull | JUndefined => "string"
  end.

(** [attributeMap.get(key).type = type], the key entering the map last
    when it is new. *)
Fixpoint setDiscoveredType (key type : string)
    (found : list DiscoveredAttribute) : list DiscoveredAttribute :=
  match found with
  | [] => [mkAttribute key type]
  | a :: rest =>
      if String.eqb (attr_name a) key then mkAttribute key type :: rest
      else a :: setDiscoveredType key type rest
  end.

(** The attributes of the rows in the order of their first occurrence,
    each with the type of its last value. *)
Definition scanRows (docs : list Document) : list DiscoveredAttribute :=
  fold_left
    (fun found doc =>
       fold_left
         (fun found entry =>
            setDiscoveredType (fst entry) (discoveredType (snd entry)) found)
         (doc_attributes doc) found)
    docs [].

(** A runtime whose analysis reads the rows, for examples whose rows
    carry attributes and no date. *)
Definition scanningRuntime : Runtime :=
  {| isArrayType := isArrayTypeName;
     parseValueForFieldType := fun v _ => JStr v;
     render := fun _ => "";
     stringify := fun _ => "";
     stringifyFilters := fun fs => joinWith "," (List.map filter_id fs);
     analyzeDocuments := scanRows |}.

Definition row (key : string) : Document :=
  {| doc_id := JStr key; doc_attributes := [] |}.

Definition pageOne : list Document := [row "a"; row "b"].
Definition pageTwo : list Document := [row "c"; row "d"].

Definition rowsResponse (ds : list Document) : DocumentsQueryResponse :=
  {| rows := Some ds; aggregations_of := None; aggregation_groups := None |}.

Definition countResponse (n : Z) : DocumentsQueryResponse :=
  {| rows := None; aggregations_of := Some [("count", AggNumber n)];
     aggregation_groups := None |}.

(** A backend over four rows [a, b, c, d] ordered by id: it counts them,
    and lists the rows after the cursor of the request, two to a page. *)
Definition sampleRespond (ns : string) (q : QueryRequest)
  : DocumentsQueryResponse :=
  match aggregate_by q with
  | Some [("count", JArr [JStr "Count"; JStr "id"])] => countResponse 4
  | _ =>
      match filters q with
      | Some (JArr [JStr "id"; JStr "Gt"; JStr "b"])
      | Some (JArr [JStr "And"; JArr [_; JArr [JStr "id"; JStr "Gt"; JStr "b"]]]) =>
          rowsResponse pageTwo
      | Some (JArr [JStr "id"; JStr "Gt"; JStr "d"])
      | Some (JArr [JStr "And"; JArr [_; JArr [JStr "id"; JStr "Gt"; JStr "d"]]]) =>
          rowsResponse []
      | _ => rowsResponse pageOne
      end
  end.

(** The services at clock time [t]. *)
Definition servicesAt (t : Z) : Services :=
  {| queryDocuments := fun ns q => Fulfilled (sampleRespond ns q);
     getClient := true; now := t; nowStored := t |}.

(** A backend that is down. *)
Definition failingServices (message : string) : Services :=
  {| queryDocuments := fun _ _ => Rejected (ErrorObject message);
     getClient := true; now := 0; nowStored := 0 |}.

(** The same backend over rows that carry a status and two tags. *)
Definition tagged (d : Document) : Document :=
  {| doc_id := doc_id d;
     doc_attributes := [("status", JStr "published");
                        ("tags", JArr [JStr "x"; JStr "y"])] |}.

Definition taggedRespond (ns : string) (q : QueryRequest)
  : DocumentsQueryResponse :=
  let answer := sampleRespond ns q in
  {| rows := List.map tagged <$> rows answer;
     aggregations_of := aggregations_of answer;
     aggregation_groups := aggregation_groups answer |}.

Definition taggedServicesAt (t : Z) : Services :=
  {| queryDocuments := fun ns q => Fulfilled (taggedRespond ns q);
     getClient := true; now := t; nowStored := t |}.

Definition statusFilter : SimpleFilter :=
  {| filter_id := "f1"; attribute := "status"; operator := op_equals;
     value := JStr "published"; displayValue := "published" |}.

Definition tagsFilter : SimpleFilter :=
  {| filter_id := "f2"; attribute := "tags"; operator := op_equals;
     value := JArr [JStr "x"; JStr "y"]; displayValue := "[x, y]" |}.

(** Two predicates over a registry with a string and an array attribute. *)
Definition filteredState : DocumentsState :=
  connectedState
    <| attributes := [mkAttribute "status" "string"; mkAttribute "tags" "[]string"] |>
    <| activeFilters := [statusFilter; tagsFilter] |>
    <| isQueryMode := true |>.

(** One aggregation grouped by an attribute, and no filter. *)
Definition aggregatingState : DocumentsState :=
  connectedState
    <| aggregations := [mkAggregation "total" "count" (Some "id")] |>
    <| groupByAttributes := ["category"] |>
    <| isGroupedQuery := true |>.

(** The same aggregation behind a filter. *)
Definition filteredAggregatingState : DocumentsState :=
  aggregatingState <| activeFilters := [statusFilter] |> <| isQueryMode := true |>.

(** A descending sort on [name], and no filter. *)
Definition sortedState : DocumentsState :=
  connectedState <| sortAttribute := Some "name" |> <| sortDirection := dir_desc |>.

(** The same sort behind a filter. *)
Definition filteredSortedState : DocumentsState :=
  sortedState <| activeFilters := [statusFilter] |> <| isQueryMode := true |>.

(** Full-text search for "hello" with no field configured and an empty
    registry. *)
Definition fullTextState : DocumentsState :=
  connectedState <| queryMode := mode_bm25 |> <| searchText := "hello" |>
                 <| isQueryMode := true |>.

(** Full-text search over the fields [a] and [b] of weight 1. *)
Definition twoFieldState : DocumentsState :=
  fullTextState <| bm25Fields := [mkBM25Field "a" 1; mkBM25Field "b" 1] |>.

(** Full-text search over the single field [a] of weight 2. *)
Definition weightedFieldState : DocumentsState :=
  fullTextState <| bm25Fields := [mkBM25Field "a" 2] |>.

(** The listing of the four rows, two to a page: page 1 loaded at time
    0, then page 2 at time 10, neither load forced. *)
Definition loadedFirstPage : DocumentsState :=
  final (loadDocuments (RT := sampleRuntime) (servicesAt 0) false false 2 1
           connectedState).

Definition loadedSecondPage : DocumentsState :=
  final (loadDocuments (RT := sampleRuntime) (servicesAt 10) false false 2 2
           loadedFirstPage).

(** One predicate over an empty registry: page 1 of the filtered query
    loaded at time 0, then page 2 at time 10, neither load forced. *)
Definition oneFilterState : DocumentsState :=
  connectedState <| activeFilters := [statusFilter] |> <| isQueryMode := true |>.

Definition filteredFirstPage : DocumentsState :=
  final (loadDocuments (RT := sampleRuntime) (servicesAt 0) false false 2 1
           oneFilterState).

Definition filteredSecondPage : DocumentsState :=
  final (loadDocuments (RT := sampleRuntime) (servicesAt 10) false false 2 2
           filteredFirstPage).



(** Two aggregations, and no filter. *)
Definition twoAggregationsState : DocumentsState :=
  connectedState
    <| aggregations := [mkAggregation "total" "count" (Some "id");
                        mkAggregation "mean" "avg" (Some "price")] |>.

(** Full-text mode over the field [a] with a search text of one space,
    behind a filter. *)
Definition blankSearchState : DocumentsState :=
  oneFilterState <| queryMode := mode_bm25 |> <| searchText := " " |>
                 <| bm25Fields := [mkBM25Field "a" 1] |>.

(** The filtered query, page 1 loaded at time 0. *)
Definition loadedFiltered : DocumentsState :=
  final (loadDocuments (RT := sampleRuntime) (servicesAt 0) false false 100 1
           filteredState).

(** "Initial state" of the store, all of it. *)
Definition initialStore : Store :=
  {| core := initialState;
     isRefreshing := false;
     isDiscoveringAttributes := false;
     selectedDocuments := [];
     visibleColumns := [];
     initializationAttempts := 0;
     maxInitAttempts := 3;
     attributesCache := ∅;
     filterHistory := ∅;
     recentFilterHistory := ∅ |}.

(** Utilities for the examples: a filter is described by its search
    text, and the numeric types are [int] and [float]. *)
Definition sampleUtilities : Utilities :=
  {| generateFilterDescription := fun _ text => text;
     isNumericType := fun t => String.eqb t "int" || String.eqb t "float" |}.

(** The store with page 1 of the listing on display. *)
Definition loadedStore : Store := initialStore <| core := loadedFirstPage |>.

(** The store with one predicate set. *)
Definition filteringStore : Store := initialStore <| core := oneFilterState |>.

(** Full-text search for "hello" with no field configured, over a
    registry with an id and a title. *)
Definition titledState : DocumentsState :=
  fullTextState
    <| attributes := [mkAttribute "id" "string"; mkAttribute "title" "string"] |>.

(** A text of white space only: the no-break space U+00A0, a tab and a
    space. *)
Definition blankText : string :=
  String "160"%char (String "009"%char " ").

(** A list of values as typed: [a], a comma, the no-break space and
    [b], a comma and a space. *)
Definition listText : string := "a," +:+ String "160"%char "b, ".

(** The field [tags] as the filter builder gets it. *)
Definition tagsField : FieldInfo :=
  {| field_name := "tags"; field_type := "[]string"; isFts := None |}.

(** A predicate on [tags] with the first operator of the builder. *)
Definition tagsContains : SimpleFilter :=
  {| filter_id := "f4"; attribute := "tags"; operator := op_array_contains;
     value := JStr "x"; displayValue := "x" |}.

(** * Properties *)

Section StoreFacts.

Context {RT : Runtime}.

(** ** Predicate translation *)

Lemma firstIfArray_cons (x : JsVal) (rest : list JsVal) :
  firstIfArray (JArr (x :: rest)) = x.
Proof. reflexivity. Qed.

Lemma firstIfArray_scalar (v : JsVal) :
  isArray v = false -> firstIfArray v = v.
Proof. destruct v; simpl; congruence. Qed.

Lemma compiled_in_buildFilters (s : DocumentsState) (f : SimpleFilter) :
  In f (activeFilters s) ->
  In (compileFilter (attributes s) f) (buildFilters s).
Proof.
  intros Hin. unfold buildFilters. apply in_or_app. right.
  apply in_map. exact Hin.
Qed.

(** C2.  An active predicate with operator [equals] compiles to
    [[attribute, "ContainsAny", v]] when the discovered type of its
    attribute is an array type, [v] being the first element of an array
    value and the value itself otherwise, and to
    [[attribute, "Eq", value]] when the type is scalar; [not_equals]
    compiles to [["Not", [attribute, "ContainsAny", v]]] and to
    [[attribute, "NotEq", value]].  The compiled filter is among the
    filters of the query. *)
Theorem equals_compiles_by_attribute_type
    (s : DocumentsState) (f : SimpleFilter) :
  In f (activeFilters s) ->
  let a := attribute f in
  let v := firstIfArray (value f) in
  In (compileFilter (attributes s) f) (buildFilters s) /\
  (isArrayType (fieldTypeOf (attributes s) a) = true ->
     (operator f = op_equals ->
        compileFilter (attributes s) f
        = JArr [JStr a; JStr "ContainsAny"; v]) /\
     (operator f = op_not_equals ->
        compileFilter (attributes s) f
        = JArr [JStr "Not"; JArr [JStr a; JStr "ContainsAny"; v]])) /\
  (isArrayType (fieldTypeOf (attributes s) a) = false ->
     (operator f = op_equals ->
        compileFilter (attributes s) f = JArr [JStr a; JStr "Eq"; value f]) /\
     (operator f = op_not_equals ->
        compileFilter (attributes s) f = JArr [JStr a; JStr "NotEq"; value f])) /\
  (forall x rest, value f = JArr (x :: rest) -> v = x) /\
  (isArray (value f) = false -> v = value f).
Proof.
  intros Hin a v. split; [ now apply compiled_in_buildFilters | ].
  split; [ | split; [ | split ] ].
  - intros Harr. split; intros Hop; unfold compileFilter;
      rewrite Hop; fold a; rewrite Harr; reflexivity.
  - intros Harr. split; intros Hop; unfold compileFilter;
      rewrite Hop; fold a; rewrite Harr; reflexivity.
  - intros x rest Hv. subst v. rewrite Hv. reflexivity.
  - intros Hv. subst v. now apply firstIfArray_scalar.
Qed.

(** ** Pagination reset *)

(** C4.  Every mutator of the query configuration leaves
    [currentPage = 1], [previousCursors = []] and [nextCursor = null]. *)
Theorem mutation_resets_pagination (m : Mutation) (s : DocumentsState) :
  currentPage (mutate m s) = 1 /\
  previousCursors (mutate m s) = [] /\
  nextCursor (mutate m s) = None.
Proof.
  destruct m; cbn; try (repeat split; reflexivity).
  destruct attrs; cbn; repeat split; reflexivity.
Qed.

(** ** The compiled request *)

Lemma nonEmpty_length (t : string) :
  (0 <? String.length t)%nat = nonEmpty t.
Proof. destruct t; reflexivity. Qed.

Lemma searchText_forces_query_mode (s : DocumentsState) :
  nonEmpty (trim (searchText s)) = true -> shouldUseQueryMode s = true.
Proof.
  intros Ht. unfold shouldUseQueryMode. rewrite nonEmpty_length, Ht.
  apply orb_true_r.
Qed.

(** In query mode the page request is the one built by [queryRequest],
    unless the full-text branch returns early. *)
Lemma primaryRequest_query_mode (s : DocumentsState) (limit page : Z) :
  shouldUseQueryMode s = true ->
  primaryRequest s limit page =
  match determineRankBy s with
  | Rank rankBy =>
      Some (queryRequest s limit
              match paginationCursor s page with
              | Some cursor => withCursor (combineFilters (buildFilters s)) cursor
              | None => combineFilters (buildFilters s)
              end rankBy)
  | NoSearchableFields => None
  end.
Proof. intros Hq. unfold primaryRequest, compileRequest. rewrite Hq. reflexivity. Qed.

Lemma primaryRequest_browse_mode (s : DocumentsState) (limit page : Z) :
  shouldUseQueryMode s = false ->
  primaryRequest s limit page =
  Some (listRequest
          match paginationCursor s page with
          | Some cursor => cursorFilter cursor
          | None => JUndefined
          end limit).
Proof. intros Hq. unfold primaryRequest, compileRequest. rewrite Hq. reflexivity. Qed.

Lemma queryRequest_plain (s : DocumentsState) (limit : Z) (f r : JsVal) :
  aggregations s = [] ->
  queryRequest s limit f r =
  {| filters := Some f; top_k := Some limit; include_attributes := Some true;
     rank_by := Some r; aggregate_by := None; group_by := None |}.
Proof. intros Ha. unfold queryRequest. rewrite Ha. reflexivity. Qed.

Lemma queryRequest_aggregating (s : DocumentsState) (limit : Z) (f r : JsVal)
    (a : AggregationConfig) (rest : list AggregationConfig) :
  aggregations s = a :: rest ->
  queryRequest s limit f r =
  {| filters := Some f; top_k := Some limit;
     aggregate_by := Some [(name a, JArr [JStr "Count"])];
     group_by := if (0 <? length (groupByAttributes s))%nat
                 then Some (groupByAttributes s) else None;
     rank_by := None; include_attributes := None |}.
Proof. intros Ha. unfold queryRequest. rewrite Ha. reflexivity. Qed.

(** The ranking that a query-mode request without aggregations carries. *)
Lemma rank_by_of_query (s : DocumentsState) (limit page : Z) (r : JsVal) :
  shouldUseQueryMode s = true ->
  aggregations s = [] ->
  determineRankBy s = Rank r ->
  rank_by <$> primaryRequest s limit page = Some (Some r).
Proof.
  intros Hq Ha Hr. rewrite primaryRequest_query_mode by exact Hq.
  rewrite Hr. cbn. rewrite queryRequest_plain by exact Ha. reflexivity.
Qed.

(** ** Aggregation *)

(** The aggregation branch of the page request.  With a non-empty
    aggregation list, the [aggregate_by] object that the query-mode
    path sends has exactly one entry, the name of the first aggregation
    mapped to [["Count"]]; no request carries another [aggregate_by]
    object, and the aggregations after the first and the type or target
    field of any of them do not change the request. *)
Theorem aggregate_by_is_first_count
    (s : DocumentsState) (limit page : Z) (q : QueryRequest)
    (a : AggregationConfig) (rest : list AggregationConfig) :
  aggregations s = a :: rest ->
  primaryRequest s limit page = Some q ->
  (shouldUseQueryMode s = true ->
     aggregate_by q = Some [(name a, JArr [JStr "Count"])]) /\
  (forall o, aggregate_by q = Some o -> o = [(name a, JArr [JStr "Count"])]) /\
  (forall a' rest',
     name a' = name a ->
     primaryRequest (s <| aggregations := a' :: rest' |>) limit page = Some q).
Proof.
  intros Ha Hq.
  assert (Hmode : shouldUseQueryMode s = true ->
            aggregate_by q = Some [(name a, JArr [JStr "Count"])]).
  { intros Hm. rewrite primaryRequest_query_mode in Hq by exact Hm.
    destruct (determineRankBy s) as [r|]; [ | discriminate ].
    rewrite (queryRequest_aggregating _ _ _ _ a rest Ha) in Hq.
    injection Hq as <-. reflexivity. }
  split; [ exact Hmode | split ].
  - intros o Ho. destruct (shouldUseQueryMode s) eqn:Hm.
    + rewrite (Hmode eq_refl) in Ho. now injection Ho as <-.
    + rewrite primaryRequest_browse_mode in Hq by exact Hm.
      injection Hq as <-. discriminate Ho.
  - intros a' rest' Hname. rewrite <- Hq.
    unfold primaryRequest, compileRequest, queryRequest. destruct s; cbn in *.
    subst. cbn. rewrite Hname. reflexivity.
Qed.

(** The two shapes of the page request.  On the query-mode path (an
    active filter or a search text that is not blank), a request
    compiled with at least one aggregation carries [aggregate_by],
    carries [group_by] exactly when group-by attributes are set, and
    carries neither [rank_by] nor [include_attributes]; on either path,
    a request compiled with no aggregation carries [rank_by] and
    [include_attributes] and no [aggregate_by]. *)
Theorem aggregation_excludes_ranking
    (s : DocumentsState) (limit page : Z) (q : QueryRequest) :
  primaryRequest s limit page = Some q ->
  (shouldUseQueryMode s = true ->
   aggregations s <> [] ->
     is_Some (aggregate_by q) /\
     (is_Some (group_by q) <-> groupByAttributes s <> []) /\
     rank_by q = None /\
     include_attributes q = None) /\
  (aggregations s = [] ->
     is_Some (rank_by q) /\
     is_Some (include_attributes q) /\
     aggregate_by q = None).
Proof.
  intros Hq. split.
  - intros Hm Hne. rewrite primaryRequest_query_mode in Hq by exact Hm.
    destruct (determineRankBy s) as [r|]; [ | discriminate ].
    destruct (aggregations s) as [|a rest] eqn:Ha; [ congruence | ].
    rewrite (queryRequest_aggregating _ _ _ _ a rest Ha) in Hq.
    injection Hq as <-. cbn. split; [ eauto | split; [ | split; reflexivity ] ].
    destruct (groupByAttributes s); cbn; split.
    + intros [x Hx]. discriminate.
    + congruence.
    + discriminate.
    + eauto.
  - intros Ha. destruct (shouldUseQueryMode s) eqn:Hm.
    + rewrite primaryRequest_query_mode in Hq by exact Hm.
      destruct (determineRankBy s) as [r|]; [ | discriminate ].
      rewrite queryRequest_plain in Hq by exact Ha.
      injection Hq as <-. cbn. eauto.
    + rewrite primaryRequest_browse_mode in Hq by exact Hm.
      injection Hq as <-. cbn. eauto.
Qed.

(** ** Ranking *)

(** No custom expression is in effect when the ranking mode is [simple]
    or no expression tree is stored. *)
Lemma customExpression_None (s : DocumentsState) :
  customExpression s = None <->
  rankingMode s = ranking_simple \/ rankingExpression s = None.
Proof.
  unfold customExpression. destruct (rankingMode s); split; auto.
  - intros [Hm | He]; [ discriminate | exact He ].
Qed.

Lemma determineRankBy_custom (s : DocumentsState) (e : RankingExprNode) :
  customExpression s = Some e ->
  determineRankBy s = Rank (convertRankingExprToTurbopuffer e).
Proof. intros He. unfold determineRankBy. rewrite He. reflexivity. Qed.

Lemma determineRankBy_fulltext (s : DocumentsState) :
  customExpression s = None ->
  isBM25 (queryMode s) && nonEmpty (trim (searchText s)) = true ->
  determineRankBy s =
  let text := trim (searchText s) in
  match bm25Fields s with
  | _ :: _ :: _ =>
      Rank (JArr [JStr (capitalize (operatorName (bm25Operator s)));
                  JArr (List.map (fieldRank text) (bm25Fields s))])
  | [f] => Rank (bm25Rank (field f) text)
  | [] =>
      match potentialBM25Fields (attributes s) with
      | p :: _ => Rank (bm25Rank p text)
      | [] => NoSearchableFields
      end
  end.
Proof.
  intros He Hft. unfold determineRankBy. rewrite He, Hft. reflexivity.
Qed.

Lemma determineRankBy_vector (s : DocumentsState) (x : Q) (v : list Q) :
  customExpression s = None ->
  isBM25 (queryMode s) && nonEmpty (trim (searchText s)) = false ->
  queryMode s = mode_vector ->
  vectorQuery s = Some (x :: v) ->
  determineRankBy s =
  Rank (JArr [JStr (orDefault (vectorField s) "vector"); JStr "ANN";
              JArr (List.map JNum (x :: v))]).
Proof.
  intros He Hft Hm Hv. unfold determineRankBy, usableVector.
  rewrite He, Hft, Hm, Hv. reflexivity.
Qed.

Lemma determineRankBy_sort (s : DocumentsState) :
  customExpression s = None ->
  isBM25 (queryMode s) && nonEmpty (trim (searchText s)) = false ->
  queryMode s <> mode_vector \/ vectorQuery s = None \/ vectorQuery s = Some [] ->
  determineRankBy s =
  Rank (JArr [JStr (orDefault (sortAttribute s) "id");
              JStr (directionName (sortDirection s))]).
Proof.
  intros He Hft Hv. unfold determineRankBy, usableVector.
  rewrite He, Hft.
  destruct Hv as [Hm | [Hv | Hv]].
  - destruct (queryMode s); cbn; congruence.
  - rewrite Hv. destruct (isVector (queryMode s)); reflexivity.
  - rewrite Hv. destruct (isVector (queryMode s)); reflexivity.
Qed.

(** C3, as amended.  On the query-mode path and without aggregations,
    [rank_by] follows the priority order: (1) the converted custom
    expression when the ranking mode is [expression] and an expression
    is present; otherwise (2) when the query mode is full-text and the
    trimmed search text is non-empty, the BM25 ranking over the
    configured fields, or over the first text attribute of the
    registry when none is configured, the load returning early when
    there is none either; otherwise (3)
    [[vectorField || "vector", "ANN", vector]] when the query mode is
    vector and the query vector is non-empty; otherwise (4)
    [[sortAttribute || "id", direction]]. *)
Theorem rank_by_priority (s : DocumentsState) (limit page : Z) :
  shouldUseQueryMode s = true ->
  aggregations s = [] ->
  let text := trim (searchText s) in
  let fullText := isBM25 (queryMode s) && nonEmpty text in
  let sent := primaryRequest s limit page in
  (forall e, rankingMode s = ranking_expression -> rankingExpression s = Some e ->
     rank_by <$> sent = Some (Some (convertRankingExprToTurbopuffer e))) /\
  (customExpression s = None -> fullText = true ->
     match bm25Fields s with
     | _ :: _ :: _ =>
         rank_by <$> sent =
         Some (Some (JArr [JStr (capitalize (operatorName (bm25Operator s)));
                           JArr (List.map (fieldRank text) (bm25Fields s))]))
     | [f] =>
         rank_by <$> sent
         = Some (Some (JArr [JStr (field f); JStr "BM25"; JStr text]))
     | [] =>
         match potentialBM25Fields (attributes s) with
         | p :: _ =>
             rank_by <$> sent
             = Some (Some (JArr [JStr p; JStr "BM25"; JStr text]))
         | [] => sent = None
         end
     end) /\
  (customExpression s = None -> fullText = false ->
   queryMode s = mode_vector ->
   forall x v, vectorQuery s = Some (x :: v) ->
     rank_by <$> sent =
     Some (Some (JArr [JStr (orDefault (vectorField s) "vector"); JStr "ANN";
                       JArr (List.map JNum (x :: v))]))) /\
  (customExpression s = None -> fullText = false ->
   queryMode s <> mode_vector \/ vectorQuery s = None \/ vectorQuery s = Some [] ->
     rank_by <$> sent =
     Some (Some (JArr [JStr (orDefault (sortAttribute s) "id");
                       JStr (directionName (sortDirection s))]))).
Proof.
  intros Hm Ha text fullText sent. subst sent.
  split; [ | split; [ | split ] ].
  - intros e Hrm He. apply rank_by_of_query; auto.
    apply determineRankBy_custom. unfold customExpression. now rewrite Hrm.
  - intros He Hft. pose proof (determineRankBy_fulltext s He Hft) as Hr.
    cbn zeta in Hr. fold text in Hr.
    destruct (bm25Fields s) as [|f [|g fs]].
    + destruct (potentialBM25Fields (attributes s)) as [|p ps].
      * rewrite primaryRequest_query_mode by exact Hm. now rewrite Hr.
      * now apply rank_by_of_query.
    + now apply rank_by_of_query.
    + now apply rank_by_of_query.
  - intros He Hft Hv x v Hq. apply rank_by_of_query; auto.
    now apply determineRankBy_vector.
  - intros He Hft Hv. apply rank_by_of_query; auto.
    now apply determineRankBy_sort.
Qed.

Lemma fieldRank_weighted (text : string) (f : BM25Field) :
  ~ (weight f == 1)%Q ->
  fieldRank text f =
  JArr [JStr "Product";
        JArr [JNum (weight f); JArr [JStr (field f); JStr "BM25"; JStr text]]].
Proof.
  intros Hw. unfold fieldRank.
  destruct (Qeq_bool (weight f) 1) eqn:Hb; [ | reflexivity ].
  apply Qeq_bool_iff in Hb. contradiction.
Qed.

Lemma fieldRank_unit (text : string) (f : BM25Field) :
  (weight f == 1)%Q ->
  fieldRank text f = JArr [JStr (field f); JStr "BM25"; JStr text].
Proof.
  intros Hw. unfold fieldRank. apply Qeq_bool_iff in Hw. now rewrite Hw.
Qed.

(** C9, as amended.  Take a full-text query with no custom ranking
    expression in effect and no aggregation configured.  For the search
    text ["hello"] over the fields [a] and [b], each of weight 1,
    combined by [sum], it ranks by
    [["Sum", [["a","BM25","hello"], ["b","BM25","hello"]]]]; and
    whenever the search text is not blank and two or more fields are
    configured, the ranking is the capitalized operator over one term
    per field, in order, the term of a field whose weight differs from
    1 being [["Product", [weight, [field, "BM25", text]]]] and that of
    a field of weight 1 being [[field, "BM25", text]], [text] being the
    trimmed search text. *)
Theorem bm25_ranking (s : DocumentsState) (limit page : Z) :
  customExpression s = None ->
  queryMode s = mode_bm25 ->
  aggregations s = [] ->
  let sent := primaryRequest s limit page in
  (searchText s = "hello" ->
   bm25Fields s = [mkBM25Field "a" 1; mkBM25Field "b" 1] ->
   bm25Operator s = bm25_sum ->
     rank_by <$> sent =
     Some (Some (JArr [JStr "Sum";
                       JArr [JArr [JStr "a"; JStr "BM25"; JStr "hello"];
                             JArr [JStr "b"; JStr "BM25"; JStr "hello"]]]))) /\
  (nonEmpty (trim (searchText s)) = true ->
   (2 <= length (bm25Fields s))%nat ->
     exists terms,
       rank_by <$> sent =
       Some (Some (JArr [JStr (capitalize (operatorName (bm25Operator s)));
                         JArr terms])) /\
       length terms = length (bm25Fields s) /\
       forall (i : nat) (f : BM25Field),
         bm25Fields s !! i = Some f ->
         (~ (weight f == 1)%Q ->
            terms !! i =
            Some (JArr [JStr "Product";
                        JArr [JNum (weight f);
                              JArr [JStr (field f); JStr "BM25";
                                    JStr (trim (searchText s))]]])) /\
         ((weight f == 1)%Q ->
            terms !! i =
            Some (JArr [JStr (field f); JStr "BM25";
                        JStr (trim (searchText s))]))).
Proof.
  intros He Hmode Ha sent. subst sent.
  assert (Hgeneral :
    nonEmpty (trim (searchText s)) = true ->
    (2 <= length (bm25Fields s))%nat ->
    rank_by <$> primaryRequest s limit page =
    Some (Some (JArr [JStr (capitalize (operatorName (bm25Operator s)));
                      JArr (List.map (fieldRank (trim (searchText s)))
                              (bm25Fields s))]))).
  { intros Ht Hlen.
    apply rank_by_of_query; auto using searchText_forces_query_mode.
    rewrite determineRankBy_fulltext; auto.
    - destruct (bm25Fields s) as [|f [|g fs]]; cbn in Hlen; try lia.
      reflexivity.
    - rewrite Hmode, Ht. reflexivity. }
  split.
  - intros Htext Hfields Hop.
    rewrite Hgeneral.
    + rewrite Htext, Hfields, Hop. reflexivity.
    + rewrite Htext. reflexivity.
    + rewrite Hfields. cbn. lia.
  - intros Ht Hlen.
    exists (List.map (fieldRank (trim (searchText s))) (bm25Fields s)).
    split; [ now apply Hgeneral | split; [ apply length_map | ] ].
    intros i f Hi.
    assert (Hterm : List.map (fieldRank (trim (searchText s))) (bm25Fields s) !! i
                    = Some (fieldRank (trim (searchText s)) f)).
    { change (List.map ?g ?l) with (g <$> l).
      rewrite list_lookup_fmap, Hi. reflexivity. }
    split; intros Hw; rewrite Hterm; f_equal.
    + now apply fieldRank_weighted.
    + now apply fieldRank_unit.
Qed.

(** ** The shape of a load *)

Lemma passesGuards_namespace (w : Services) (s : DocumentsState) :
  passesGuards w s = true ->
  exists ns, currentNamespaceId s = Some ns /\ nonEmpty ns = true.
Proof.
  unfold passesGuards, missing. intros H.
  destruct (currentNamespaceId s) as [ns|]; [ | discriminate ].
  exists ns. split; [ reflexivity | ].
  destruct (nonEmpty ns); [ reflexivity | discriminate ].
Qed.

(** Past the guards, a load is answered from the cache or fetches. *)
Lemma loadDocuments_guarded (w : Services) (force loadMore : bool)
    (limit page : Z) (s : DocumentsState) (ns : string) :
  passesGuards w s = true ->
  currentNamespaceId s = Some ns ->
  loadDocuments w force loadMore limit page s =
  match servedFromCache w force limit page s with
  | Some cached =>
      {| final := fromCache page cached s; calls := []; outcome := CacheHit |}
  | None =>
      settle w (cacheKey s page limit) page s (beginLoad limit s)
        (tryFetch w ns force limit page s (beginLoad limit s))
  end.
Proof.
  unfold passesGuards, missing, loadDocuments. intros H Hns. rewrite Hns in *.
  destruct (nonEmpty ns); [ | discriminate ].
  destruct (isLoading s); [ discriminate | ].
  destruct (isClientInitialized s); [ | discriminate ].
  destruct (getClient w); [ | discriminate ].
  reflexivity.
Qed.

(** A load that does not get past the guards calls nothing. *)
Lemma loadDocuments_blocked (w : Services) (force loadMore : bool)
    (limit page : Z) (s : DocumentsState) :
  passesGuards w s = false ->
  calls (loadDocuments w force loadMore limit page s) = [] /\
  (outcome (loadDocuments w force loadMore limit page s) = Skipped \/
   outcome (loadDocuments w force loadMore limit page s) = NotInitialized).
Proof.
  unfold passesGuards, missing, loadDocuments. intros H.
  destruct (currentNamespaceId s) as [ns|]; [ | auto ].
  destruct (nonEmpty ns); [ | auto ].
  destruct (isLoading s); [ auto | ].
  destruct (isClientInitialized s); [ | auto ].
  destruct (getClient w); [ discriminate | auto ].
Qed.

(** Case analysis on the branches of the [try] block. *)
Ltac split_fetch :=
  repeat match goal with
    | |- context [if shouldUseQueryMode ?s then _ else _] =>
        destruct (shouldUseQueryMode s) eqn:?
    | |- context [queryDocuments ?w ?ns ?q] =>
        lazymatch goal with
        | |- context [match queryDocuments w ns q with _ => _ end] =>
            destruct (queryDocuments w ns q) eqn:?
        end
    | |- context [match determineRankBy ?s with _ => _ end] =>
        destruct (determineRankBy s) eqn:?
    | |- context [match paginationCursor ?s ?p with _ => _ end] =>
        destruct (paginationCursor s p) eqn:?
    | |- context [match totalCount ?s with _ => _ end] =>
        destruct (totalCount s) eqn:?
    | |- context [match unfilteredTotalCount ?s with _ => _ end] =>
        destruct (unfilteredTotalCount s) eqn:?
    | |- context [if ?b then _ else _] =>
        is_var b; destruct b
    end;
  cbv beta iota zeta delta [fst snd].

(** The body of the [try] block makes one or two calls. *)
Lemma tryFetch_calls (w : Services) (ns : string) (force : bool)
    (limit page : Z) (s cur : DocumentsState) :
  (1 <= length (fst (tryFetch w ns force limit page s cur)) <= 2)%nat.
Proof.
  unfold tryFetch, loadFiltered, loadBrowse.
  split_fetch; cbn; lia.
Qed.

(** A rejected call ends the body of the [try] block with that
    rejection. *)
Lemma tryFetch_rejected (w : Services) (ns : string) (force : bool)
    (limit page : Z) (s cur : DocumentsState)
    (ns' : string) (q : QueryRequest) (e : Thrown) :
  In (ns', q) (fst (tryFetch w ns force limit page s cur)) ->
  queryDocuments w ns' q = Rejected e ->
  snd (tryFetch w ns force limit page s cur) = Threw e.
Proof.
  unfold tryFetch, loadFiltered, loadBrowse. intros Hin Hrej.
  revert Hin. split_fetch; cbn; intros Hin;
    repeat match goal with
           | H : _ \/ _ |- _ => destruct H
           | H : (_, _) = (_, _) |- _ => injection H as <- <-
           | H : False |- _ => destruct H
           end; congruence.
Qed.

(** ** Failure *)

(** C8.  When the execution capability rejects a call of a load, the
    resulting state has [error] set to the message of the error (to
    "Failed to load documents" when what was thrown is not an [Error]),
    [isLoading] false, and [documents], [totalCount], [currentPage],
    [previousCursors] and [nextCursor] as they were before the load. *)
Theorem rejected_load_keeps_rows (w : Services) (force loadMore : bool)
    (limit page : Z) (s : DocumentsState)
    (ns : string) (q : QueryRequest) (e : Thrown) :
  In (ns, q) (calls (loadDocuments w force loadMore limit page s)) ->
  queryDocuments w ns q = Rejected e ->
  let s' := final (loadDocuments w force loadMore limit page s) in
  error s' = Some match e with
                  | ErrorObject message => message
                  | NonError _ => "Failed to load documents"
                  end /\
  isLoading s' = false /\
  documents s' = documents s /\
  totalCount s' = totalCount s /\
  currentPage s' = currentPage s /\
  previousCursors s' = previousCursors s /\
  nextCursor s' = nextCursor s.
Proof.
  intros Hin Hrej.
  destruct (passesGuards w s) eqn:Hg.
  - destruct (passesGuards_namespace w s Hg) as (ns0 & Hns & _).
    rewrite (loadDocuments_guarded w force loadMore limit page s ns0 Hg Hns)
      in Hin |- *.
    destruct (servedFromCache w force limit page s) as [cached|].
    + destruct Hin.
    + unfold settle in Hin |- *.
      pose proof (tryFetch_rejected w ns0 force limit page s (beginLoad limit s)
                    ns q e) as Hthrew.
      destruct (snd (tryFetch w ns0 force limit page s (beginLoad limit s)))
        eqn:Htried; cbn in Hin;
        specialize (Hthrew Hin Hrej); try discriminate.
      injection Hthrew as ->. cbn. repeat split; reflexivity.
  - destruct (loadDocuments_blocked w force loadMore limit page s Hg) as [Hc _].
    rewrite Hc in Hin. destruct Hin.
Qed.

(** ** The result cache *)

Lemma discover_keeps_rows (docs : list Document) (cur : DocumentsState) :
  documents (discoverAttributesFromDocuments docs cur) = documents cur /\
  totalCount (discoverAttributesFromDocuments docs cur) = totalCount cur.
Proof. destruct docs; split; reflexivity. Qed.

(** C7, as amended.  A non-forced load that gets past the entry guards
    and whose cache key has an entry younger than the 5-minute TTL
    issues no network call and shows the cached rows and total count;
    a load that gets past the guards and whose entry is as old as the
    TTL or older ignores the entry and calls the backend once or twice
    (the count sub-query when one is needed, then the page request). *)
Theorem cache_hit_and_expiry (w : Services) (force loadMore : bool)
    (limit page : Z) (s : DocumentsState) (entry : CacheEntry) :
  passesGuards w s = true ->
  documentsCache s !! cacheKey s page limit = Some entry ->
  let r := loadDocuments w force loadMore limit page s in
  (force = false -> now w - timestamp entry < CACHE_DURATION ->
     calls r = [] /\
     outcome r = CacheHit /\
     documents (final r) = cached_documents entry /\
     totalCount (final r) = cached_totalCount entry) /\
  (CACHE_DURATION <= now w - timestamp entry ->
     outcome r <> CacheHit /\
     (length (calls r) = 1 \/ length (calls r) = 2)%nat).
Proof.
  intros Hg Hentry r. subst r.
  destruct (passesGuards_namespace w s Hg) as (ns & Hns & _).
  rewrite (loadDocuments_guarded w force loadMore limit page s ns Hg Hns).
  unfold servedFromCache, freshEntry. rewrite Hentry. split.
  - intros -> Hfresh.
    destruct (Z.ltb_spec (now w - timestamp entry) CACHE_DURATION); [ | lia ].
    cbn. unfold fromCache.
    destruct (discover_keeps_rows (cached_documents entry)
                (s <| documents := cached_documents entry |>
                   <| totalCount := cached_totalCount entry |>
                   <| lastQueryResult := None |>
                   <| currentPage := page |>)) as [-> ->].
    repeat split; reflexivity.
  - intros Hold.
    destruct (Z.ltb_spec (now w - timestamp entry) CACHE_DURATION); [ lia | ].
    assert (Hsame : (if force then None else (None : option CacheEntry)) = None)
      by (destruct force; reflexivity).
    rewrite Hsame.
    pose proof (tryFetch_calls w ns force limit page s (beginLoad limit s)) as Hlen.
    unfold settle.
    destruct (snd (tryFetch w ns force limit page s (beginLoad limit s)));
      cbn [calls outcome]; (split; [ discriminate | lia ]).
Qed.

(** ** The full-text branch without a field *)

(** C6, as amended.  A load that fetches (past the guards, forced or
    with no fresh cache entry) in full-text mode with a non-blank
    search text, no custom ranking expression, no configured BM25 field
    and no eligible text attribute in the registry, and whose count
    sub-query is answered, ends with the no-searchable-fields error
    and [isLoading] false after that one call: the count sub-query is
    the only call, the page request is never issued, and the rows on
    display stay. *)
Theorem no_searchable_fields_skips_page_request
    (w : Services) (force loadMore : bool) (limit page : Z)
    (s : DocumentsState) (ns : string) (countResult : DocumentsQueryResponse) :
  passesGuards w s = true ->
  currentNamespaceId s = Some ns ->
  servedFromCache w force limit page s = None ->
  customExpression s = None ->
  queryMode s = mode_bm25 ->
  nonEmpty (trim (searchText s)) = true ->
  bm25Fields s = [] ->
  potentialBM25Fields (attributes s) = [] ->
  queryDocuments w ns (countRequest s) = Fulfilled countResult ->
  let r := loadDocuments w force loadMore limit page s in
  outcome r = ConfigError /\
  error (final r) = Some NO_TEXT_FIELDS /\
  isLoading (final r) = false /\
  calls r = [(ns, countRequest s)] /\
  primaryRequest s limit page = None /\
  documents (final r) = documents s.
Proof.
  intros Hg Hns Hcache He Hmode Ht Hfields Hattrs Hcount r. subst r.
  pose proof (searchText_forces_query_mode s Ht) as Hq.
  assert (Hrank : determineRankBy s = NoSearchableFields).
  { rewrite determineRankBy_fulltext; auto.
    - rewrite Hfields, Hattrs. reflexivity.
    - rewrite Hmode, Ht. reflexivity. }
  rewrite (loadDocuments_guarded w force loadMore limit page s ns Hg Hns), Hcache.
  unfold countRequest in *. rewrite Hq in *.
  unfold tryFetch, loadFiltered. rewrite Hq, Hcount, Hrank.
  rewrite primaryRequest_query_mode by exact Hq. rewrite Hrank.
  cbn. repeat split; reflexivity.
Qed.

(** ** What a load leaves alone *)

Lemma updateCursorStack_frame (page : Z) (cur : DocumentsState) :
  queryOf (updateCursorStack page cur) = queryOf cur /\
  attributes (updateCursorStack page cur) = attributes cur /\
  isLoading (updateCursorStack page cur) = isLoading cur.
Proof.
  unfold updateCursorStack.
  destruct (page >? currentPage cur); [ destruct (documents cur) | ];
    [ | | destruct (page =? 1) ]; repeat split; reflexivity.
Qed.


Lemma recordPage_frame (page : Z) (docs : list Document) (pages : Rounded)
    (cur : DocumentsState) :
  queryOf (recordPage page docs pages cur) = queryOf cur /\
  attributes (recordPage page docs pages cur) = attributes cur /\
  isLoading (recordPage page docs pages cur) = isLoading cur /\
  previousCursors (recordPage page docs pages cur)
  = previousCursors (updateCursorStack page cur).
Proof.
  destruct (updateCursorStack_frame page cur) as (Hq & Ha & Hl).
  unfold recordPage. repeat split; cbn; assumption || reflexivity.
Qed.

Lemma discover_frame (docs : list Document) (cur : DocumentsState) :
  queryOf (discoverAttributesFromDocuments docs cur) = queryOf cur /\
  isLoading (discoverAttributesFromDocuments docs cur) = isLoading cur /\
  currentPage (discoverAttributesFromDocuments docs cur) = currentPage cur /\
  previousCursors (discoverAttributesFromDocuments docs cur)
  = previousCursors cur /\
  (attributes (discoverAttributesFromDocuments docs cur) = attributes cur \/
   exists ds, ds <> [] /\
     attributes (discoverAttributesFromDocuments docs cur) = analyzeDocuments ds).
Proof.
  destruct docs as [|d ds]; cbn; repeat split; auto.
  right. exists (d :: ds). split; [ discriminate | reflexivity ].
Qed.


(** Going to page 1 from a page at or after it selects no cursor. *)
Lemma paginationCursor_first_page (s : DocumentsState) :
  1 <= currentPage s -> paginationCursor s 1 = None.
Proof.
  intros Hp. unfold paginationCursor.
  destruct (Z.gtb_spec 1 (currentPage s)); [ lia | ]. cbn [andb].
  match goal with |- (if ?b then _ else _) = _ => destruct b end;
    reflexivity.
Qed.

(** How the body of the [try] block completes. *)
Lemma tryFetch_completed (w : Services) (ns : string) (force : bool)
    (limit page : Z) (s cur cur' : DocumentsState) (cs : list Call)
    (docs : list Document) (total : Z) (queryResult : DocumentsQueryResponse) :
  tryFetch w ns force limit page s cur = (cs, Completed cur' docs total queryResult) ->
  exists q,
    primaryRequest s limit page = Some q /\
    queryDocuments w ns q = Fulfilled queryResult /\
    docs = rowsOf queryResult /\
    List.last cs (ns, q) = (ns, q) /\
    In (ns, q) cs /\
    queryOf cur' = queryOf cur /\
    attributes cur' = attributes cur /\
    isLoading cur' = isLoading cur /\
    previousCursors cur' = previousCursors (updateCursorStack page cur).
Proof.
  unfold tryFetch, loadFiltered, loadBrowse, primaryRequest, compileRequest.
  destruct (updateCursorStack_frame page cur) as (Hq & Ha & Hl).
  split_fetch; intros Heq; try discriminate;
    injection Heq as <- <- <- <- <-;
    match goal with
    | H : queryDocuments _ _ ?q = Fulfilled _ |- _ =>
        solve [ exists q; repeat split;
                first [ assumption | reflexivity | exact Hq | exact Ha
                      | exact Hl | cbn [In]; auto ] ]
    end.
Qed.

Lemma storePage_frame (w : Services) (key : string) (queryMode_ : bool)
    (page : Z) (docs : list Document) (total : Z)
    (queryResult : DocumentsQueryResponse) (cur : DocumentsState) :
  let cur' := storePage w key queryMode_ page docs total queryResult cur in
  queryOf cur' = queryOf cur /\
  attributes cur' = attributes cur /\
  isLoading cur' = isLoading cur /\
  previousCursors cur' = previousCursors cur /\
  documents cur' = docs /\
  currentPage cur' = page.
Proof. unfold storePage. destruct queryMode_; repeat split; reflexivity. Qed.

(** The state that a completed fetch leaves. *)
Lemma completed_final (w : Services) (key : string) (page : Z)
    (s cur cur' : DocumentsState) (cs : list Call) (docs : list Document)
    (total : Z) (queryResult : DocumentsQueryResponse) :
  let s' := final (settle w key page s cur
                     (cs, Completed cur' docs total queryResult)) in
  queryOf s' = queryOf cur' /\
  isLoading s' = false /\
  currentPage s' = page /\
  documents s' = docs /\
  previousCursors s' = previousCursors cur' /\
  (attributes s' = attributes cur' \/
   exists ds, ds <> [] /\ attributes s' = analyzeDocuments ds).
Proof.
  unfold settle. cbv beta iota zeta delta [fst snd final].
  set (stored := storePage w key (shouldUseQueryMode s) page docs total
                   queryResult cur').
  destruct (storePage_frame w key (shouldUseQueryMode s) page docs total
              queryResult cur') as (Hq & Ha & Hl & Hp & Hd & Hc).
  fold stored in Hq, Ha, Hl, Hp, Hd, Hc.
  destruct (discover_frame docs stored) as (Dq & Dl & Dc & Dp & Da).
  destruct (discover_keeps_rows docs stored) as (Dd & _).
  set (found := discoverAttributesFromDocuments docs stored) in *.
  repeat split.
  - transitivity (queryOf found); [ reflexivity | congruence ].
  - transitivity (currentPage found); [ reflexivity | congruence ].
  - transitivity (documents found); [ reflexivity | congruence ].
  - transitivity (previousCursors found); [ reflexivity | congruence ].
  - destruct Da as [Da | (ds & Hne & Da)].
    + left. transitivity (attributes found); [ reflexivity | congruence ].
    + right. exists ds. split; [ exact Hne | ].
      transitivity (attributes found); [ reflexivity | exact Da ].
Qed.

(** A load whose outcome is [Loaded] got past the guards and the cache,
    and its [try] block completed. *)
Lemma loaded_inv (w : Services) (force loadMore : bool) (limit page : Z)
    (s : DocumentsState) :
  outcome (loadDocuments w force loadMore limit page s) = Loaded ->
  exists ns cs cur' docs total queryResult,
    currentNamespaceId s = Some ns /\
    passesGuards w s = true /\
    tryFetch w ns force limit page s (beginLoad limit s)
    = (cs, Completed cur' docs total queryResult) /\
    loadDocuments w force loadMore limit page s
    = settle w (cacheKey s page limit) page s (beginLoad limit s)
        (cs, Completed cur' docs total queryResult).
Proof.
  intros Hout. destruct (passesGuards w s) eqn:Hg.
  - destruct (passesGuards_namespace w s Hg) as (ns & Hns & _).
    rewrite (loadDocuments_guarded w force loadMore limit page s ns Hg Hns)
      in Hout |- *.
    destruct (servedFromCache w force limit page s); [ discriminate | ].
    destruct (tryFetch w ns force limit page s (beginLoad limit s))
      as [cs tried] eqn:Htry.
    unfold settle in Hout. cbv beta iota zeta delta [snd] in Hout.
    destruct tried as [cur' docs total queryResult | cur' | e];
      try discriminate.
    exists ns, cs, cur', docs, total, queryResult. auto.
  - destruct (loadDocuments_blocked w force loadMore limit page s Hg)
      as [_ [Ho | Ho]]; congruence.
Qed.


Lemma tryFetch_returned (w : Services) (ns : string) (force : bool)
    (limit page : Z) (s cur cur' : DocumentsState) (cs : list Call) :
  tryFetch w ns force limit page s cur = (cs, Returned cur') ->
  cur' = cur <| error := Some NO_TEXT_FIELDS |> <| isLoading := false |>.
Proof.
  unfold tryFetch, loadFiltered, loadBrowse.
  split_fetch; intros Heq; try discriminate.
  all: injection Heq as <- <-; reflexivity.
Qed.

(** Whatever its outcome, a load keeps the query configuration, leaves
    no load in flight if none was, stays on a page at or after the
    first, and either keeps the attribute registry or replaces it by
    what the analysis of some rows finds. *)
Lemma load_frame (w : Services) (force loadMore : bool) (limit page : Z)
    (s : DocumentsState) :
  let s' := final (loadDocuments w force loadMore limit page s) in
  queryOf s' = queryOf s /\
  (isLoading s = false -> isLoading s' = false) /\
  (1 <= currentPage s -> 1 <= page -> 1 <= currentPage s') /\
  (attributes s' = attributes s \/
   exists ds, ds <> [] /\ attributes s' = analyzeDocuments ds).
Proof.
  cbv zeta. destruct (passesGuards w s) eqn:Hg.
  - destruct (passesGuards_namespace w s Hg) as (ns & Hns & _).
    rewrite (loadDocuments_guarded w force loadMore limit page s ns Hg Hns).
    destruct (servedFromCache w force limit page s) as [cached|].
    + cbv beta iota zeta delta [final]. unfold fromCache.
      set (shown := s <| documents := cached_documents cached |>
                      <| totalCount := cached_totalCount cached |>
                      <| lastQueryResult := None |>
                      <| currentPage := page |>).
      destruct (discover_frame (cached_documents cached) shown)
        as (Dq & Dl & Dc & Dp & Da).
      split; [ | split; [ | split ] ].
      * rewrite Dq. reflexivity.
      * intros Hl. rewrite Dl. exact Hl.
      * intros _ Hp. rewrite Dc. exact Hp.
      * exact Da.
    + destruct (tryFetch w ns force limit page s (beginLoad limit s))
        as [cs tried] eqn:Htry.
      destruct tried as [cur' docs total queryResult | cur' | e].
      * destruct (tryFetch_completed _ _ _ _ _ _ _ _ _ _ _ _ Htry)
          as (q & _ & _ & _ & _ & _ & Tq & Ta & _ & _).
        destruct (completed_final w (cacheKey s page limit) page s
                    (beginLoad limit s) cur' cs docs total queryResult)
          as (Cq & Cl & Cc & _ & _ & Ca).
        split; [ | split; [ | split ] ].
        -- rewrite Cq, Tq. reflexivity.
        -- intros _. exact Cl.
        -- intros _ Hp. rewrite Cc. exact Hp.
        -- destruct Ca as [Ca | Ca]; [ left | right; exact Ca ].
           rewrite Ca, Ta. reflexivity.
      * rewrite (tryFetch_returned _ _ _ _ _ _ _ _ _ Htry).
        split; [ | split; [ | split ] ]; auto.
      * split; [ | split; [ | split ] ]; auto.
  - unfold passesGuards, missing in Hg. unfold loadDocuments.
    assert (Hsame : forall s0 : DocumentsState,
              queryOf s0 = queryOf s -> isLoading s0 = isLoading s ->
              currentPage s0 = currentPage s -> attributes s0 = attributes s ->
              queryOf s0 = queryOf s /\
              (isLoading s = false -> isLoading s0 = false) /\
              (1 <= currentPage s -> 1 <= page -> 1 <= currentPage s0) /\
              (attributes s0 = attributes s \/
               exists ds, ds <> [] /\ attributes s0 = analyzeDocuments ds)).
    { intros s0 Hq Hl Hc Ha. rewrite Hl, Hc. auto. }
    destruct (currentNamespaceId s) as [ns|]; [ | now apply Hsame ].
    destruct (nonEmpty ns); [ | now apply Hsame ].
    destruct (isLoading s) eqn:Hl; [ apply Hsame; auto | ].
    destruct (isClientInitialized s);
      [ destruct (getClient w); [ discriminate | ] | ];
      cbv beta iota zeta delta [negb orb final];
      destruct (missing (error s)); apply Hsame; auto.
Qed.

Lemma passesGuards_transfer (w w' : Services) (s s' : DocumentsState) :
  queryOf s' = queryOf s ->
  isLoading s' = false ->
  getClient w' = true ->
  passesGuards w s = true ->
  passesGuards w' s' = true.
Proof.
  intros Hq Hl Hc. unfold passesGuards. unfold queryOf in Hq.
  injection Hq as _ Hns Hinit _ _ _ _ _ _ _ _ _ _ _ _ _.
  rewrite Hns, Hinit, Hl, Hc.
  destruct (missing (currentNamespaceId s)), (isLoading s),
    (isClientInitialized s), (getClient w); cbn; congruence.
Qed.


(** Every call of the [try] block is the count request or the page
    request compiled from the state. *)
Lemma tryFetch_calls_compiled (w : Services) (ns : string) (force : bool)
    (limit page : Z) (s cur : DocumentsState) (ns' : string) (q : QueryRequest) :
  In (ns', q) (fst (tryFetch w ns force limit page s cur)) ->
  ns' = ns /\ (q = countRequest s \/ primaryRequest s limit page = Some q).
Proof.
  unfold tryFetch, loadFiltered, loadBrowse, countRequest, primaryRequest,
    compileRequest.
  split_fetch; cbn [In app]; intros Hin;
    repeat match goal with
           | H : _ \/ _ |- _ => destruct H
           | H : (_, _) = (_, _) |- _ => injection H as <- <-
           | H : False |- _ => destruct H
           end; auto.
Qed.

(** Every call of a load goes to the namespace of the state and is the
    count request or the page request compiled from the state. *)
Lemma calls_are_compiled (w : Services) (force loadMore : bool)
    (limit page : Z) (s : DocumentsState) (ns : string) (q : QueryRequest) :
  In (ns, q) (calls (loadDocuments w force loadMore limit page s)) ->
  currentNamespaceId s = Some ns /\
  (q = countRequest s \/ primaryRequest s limit page = Some q).
Proof.
  intros Hin. destruct (passesGuards w s) eqn:Hg.
  - destruct (passesGuards_namespace w s Hg) as (ns0 & Hns & _).
    rewrite (loadDocuments_guarded w force loadMore limit page s ns0 Hg Hns) in Hin.
    destruct (servedFromCache w force limit page s); [ destruct Hin | ].
    assert (Hcalls : In (ns, q)
                       (fst (tryFetch w ns0 force limit page s (beginLoad limit s)))).
    { unfold settle in Hin.
      destruct (snd (tryFetch w ns0 force limit page s (beginLoad limit s)));
        exact Hin. }
    destruct (tryFetch_calls_compiled _ _ _ _ _ _ _ _ _ Hcalls) as (-> & Hq).
    auto.
  - destruct (loadDocuments_blocked w force loadMore limit page s Hg) as [Hc _].
    rewrite Hc in Hin. destruct Hin.
Qed.

(** A load that ends [Loaded] has sent the page request last. *)
Lemma loaded_sends_primary (w : Services) (force loadMore : bool)
    (limit page : Z) (s : DocumentsState) :
  outcome (loadDocuments w force loadMore limit page s) = Loaded ->
  exists ns q,
    currentNamespaceId s = Some ns /\
    primaryRequest s limit page = Some q /\
    List.last (calls (loadDocuments w force loadMore limit page s)) (ns, q)
    = (ns, q) /\
    documents (final (loadDocuments w force loadMore limit page s))
    = match queryDocuments w ns q with
      | Fulfilled response => rowsOf response
      | Rejected _ => []
      end.
Proof.
  intros Hout.
  destruct (loaded_inv w force loadMore limit page s Hout)
    as (ns & cs & cur' & docs & total & qr & Hns & _ & Htry & Hload).
  destruct (tryFetch_completed _ _ _ _ _ _ _ _ _ _ _ _ Htry)
    as (q & Hq & Hqr & Hdocs & Hlast & _).
  destruct (completed_final w (cacheKey s page limit) page s (beginLoad limit s)
              cur' cs docs total qr) as (_ & _ & _ & Hd & _).
  exists ns, q. rewrite Hload, Hqr, Hd.
  repeat split; auto.
Qed.

(** ** Forward, then back to the first page *)


(** ** The entry guards *)

(** A load that the entry guards refuse calls nothing.  With no
    namespace or with a load in flight it leaves the state as it is;
    with a client that is not initialized it writes the
    not-initialized message, and only when no error is shown. *)
Theorem refused_load_changes_nothing (w : Services) (force loadMore : bool)
    (limit page : Z) (s : DocumentsState) :
  passesGuards w s = false ->
  let r := loadDocuments w force loadMore limit page s in
  calls r = [] /\
  (missing (currentNamespaceId s) = true \/ isLoading s = true ->
   final r = s /\ outcome r = Skipped) /\
  (missing (currentNamespaceId s) = false -> isLoading s = false ->
   outcome r = NotInitialized /\
   final r = if missing (error s)
             then s <| error := Some NOT_INITIALIZED |> else s).
Proof.
  unfold passesGuards, missing, loadDocuments. intros H.
  destruct (currentNamespaceId s) as [ns|].
  - destruct (nonEmpty ns); cbn [negb orb andb] in *.
    + destruct (isLoading s); cbn [negb orb andb] in *.
      * split; [ reflexivity | ]. split; [ auto | discriminate ].
      * assert (Hc : negb (isClientInitialized s) || negb (getClient w) = true)
          by (destruct (isClientInitialized s), (getClient w);
              cbn in *; congruence).
        rewrite Hc. split; [ reflexivity | ].
        split; [ intros [?|?]; discriminate | auto ].
    + split; [ reflexivity | ]. split; [ auto | discriminate ].
  - split; [ reflexivity | ]. split; [ auto | discriminate ].
Qed.

(** ** Number primitives *)

(** The number of binary digits of a positive integer. *)
Lemma digits2_pos_bounds (p : positive) :
  2 ^ (Z.pos (digits2_pos p) - 1) <= Z.pos p < 2 ^ Z.pos (digits2_pos p).
Proof.
  induction p as [p IH | p IH | ]; cbn [digits2_pos].
  - rewrite Pos2Z.inj_succ, (Pos2Z.inj_xI p).
    replace (Z.succ (Z.pos (digits2_pos p)) - 1) with (Z.succ (Z.pos (digits2_pos p) - 1)) by lia.
    rewrite !Z.pow_succ_r by lia.
    revert IH. generalize (2 ^ (Z.pos (digits2_pos p) - 1)), (2 ^ Z.pos (digits2_pos p)).
    intros; lia.
  - rewrite Pos2Z.inj_succ, (Pos2Z.inj_xO p).
    replace (Z.succ (Z.pos (digits2_pos p)) - 1) with (Z.succ (Z.pos (digits2_pos p) - 1)) by lia.
    rewrite !Z.pow_succ_r by lia.
    revert IH. generalize (2 ^ (Z.pos (digits2_pos p) - 1)), (2 ^ Z.pos (digits2_pos p)).
    intros; lia.
  - cbn. lia.
Qed.

Lemma digits2_pos_unique (p : positive) (d : Z) :
  2 ^ (d - 1) <= Z.pos p < 2 ^ d -> Z.pos (digits2_pos p) = d.
Proof.
  intros [Hlo Hhi]. pose proof (digits2_pos_bounds p) as [Blo Bhi].
  assert (Hd : 0 < d).
  { destruct (Z.ltb_spec 0 d); [ assumption | ].
    assert (2 ^ d <= 2 ^ 0) by (apply Z.pow_le_mono_r; lia).
    cbn in *. lia. }
  destruct (Z.lt_trichotomy (Z.pos (digits2_pos p)) d) as [Hlt | [Heq | Hgt]];
    [ | exact Heq | ].
  - assert (2 ^ Z.pos (digits2_pos p) <= 2 ^ (d - 1))
      by (apply Z.pow_le_mono_r; lia). lia.
  - assert (2 ^ d <= 2 ^ (Z.pos (digits2_pos p) - 1))
      by (apply Z.pow_le_mono_r; lia). lia.
Qed.

Lemma iter_xO_pow (p k : positive) :
  Z.pos (Pos.iter xO p k) = Z.pos p * 2 ^ Z.pos k.
Proof.
  revert p. induction k as [|k IH] using Pos.peano_ind; intros p.
  - cbn. lia.
  - rewrite Pos.iter_succ, Pos2Z.inj_xO, IH, Pos2Z.inj_succ, Z.pow_succ_r by lia.
    lia.
Qed.

Lemma fexp_normal (x : Z) : -1021 <= x -> fexp 53 1024 x = x - 53.
Proof. intros Hx. unfold fexp, emin. lia. Qed.

(** A mantissa of 53 digits is rounded to itself. *)
Lemma round_aux_exact (s : bool) (m : positive) (e : Z) :
  Z.pos (digits2_pos m) = 53 ->
  -1074 <= e <= 971 ->
  binary_round_aux 53 1024 s (Z.pos m) e loc_Exact = S754_finite s m e.
Proof.
  intros Hd He. unfold binary_round_aux, shr_fexp, Zdigits2.
  rewrite Hd. rewrite fexp_normal by lia.
  replace (53 + e - 53 - e) with 0 by lia.
  cbn [shr shr_record_of_loc shr_m loc_of_shr_record round_nearest_even].
  rewrite Hd. rewrite fexp_normal by lia.
  replace (53 + e - 53 - e) with 0 by lia.
  cbn [shr shr_record_of_loc shr_m].
  destruct (Z.leb_spec e (1024 - 53)); [ reflexivity | lia ].
Qed.

(** A positive integer below 2^53 is held as it is. *)
Lemma toNumber_safe (p : positive) :
  Z.pos p < 2 ^ 53 ->
  exists m e,
    toNumber (Z.pos p) = S754_finite false m e /\
    Z.pos (digits2_pos m) = 53 /\
    -52 <= e <= 0 /\
    Z.pos m = Z.pos p * 2 ^ (- e).
Proof.
  intros Hp. pose proof (digits2_pos_bounds p) as [Hlo Hhi].
  assert (Hd : 1 <= Z.pos (digits2_pos p) <= 53).
  { split; [ lia | ].
    destruct (Z.leb_spec (Z.pos (digits2_pos p)) 53) as [H | H]; [ exact H | ].
    assert (2 ^ 53 <= 2 ^ (Z.pos (digits2_pos p) - 1))
      by (apply Z.pow_le_mono_r; lia). lia. }
  unfold toNumber, binary_normalize, binary_round, shl_align.
  rewrite fexp_normal by lia.
  destruct (Z.pos (digits2_pos p) + 0 - 53 - 0) as [ | k | k ] eqn:Hk; try lia.
  - exists p, 0. split; [ apply round_aux_exact; lia | ].
    split; [ lia | ]. split; [ lia | ]. cbn. lia.
  - exists (Pos.iter xO p k), (Z.pos (digits2_pos p) + 0 - 53).
    assert (Hm : Z.pos (Pos.iter xO p k) = Z.pos p * 2 ^ Z.pos k)
      by apply iter_xO_pow.
    assert (Hdm : Z.pos (digits2_pos (Pos.iter xO p k)) = 53).
    { apply digits2_pos_unique. rewrite Hm.
      assert (Hk0 : 0 < 2 ^ Z.pos k) by (apply Z.pow_pos_nonneg; lia).
      assert (E1 : 2 ^ (53 - 1) = 2 ^ (Z.pos (digits2_pos p) - 1) * 2 ^ Z.pos k)
        by (rewrite <- Z.pow_add_r by lia; f_equal; lia).
      assert (E2 : 2 ^ 53 = 2 ^ Z.pos (digits2_pos p) * 2 ^ Z.pos k)
        by (rewrite <- Z.pow_add_r by lia; f_equal; lia).
      rewrite E1, E2. split.
      - apply Z.mul_le_mono_nonneg_r; lia.
      - apply Z.mul_lt_mono_pos_r; lia. }
    split; [ apply round_aux_exact; [ exact Hdm | lia ] | ].
    split; [ exact Hdm | ]. split; [ lia | ].
    rewrite Hm. f_equal. f_equal. lia.
Qed.

Lemma loc_of_shr_record_of_loc (m : Z) (l : location) :
  loc_of_shr_record (shr_record_of_loc m l) = l.
Proof. destruct l as [|[]]; reflexivity. Qed.

(** The last step of [binary_round_aux] on a mantissa of 53 digits, or
    on 2^53. *)
Lemma renormalize (s : bool) (m : positive) (e : Z) :
  2 ^ 52 <= Z.pos m <= 2 ^ 53 ->
  -1074 <= e <= 970 ->
  exists M j,
    (let '(mrs, e') := shr_fexp 53 1024 (Z.pos m) e loc_Exact in
     match shr_m mrs with
     | Z0 => S754_zero s
     | Z.pos m' =>
         if e' <=? 1024 - 53 then S754_finite s m' e' else S754_infinity s
     | Z.neg _ => S754_nan
     end) = S754_finite s M (e + j) /\
    0 <= j <= 1 /\
    Z.pos M * 2 ^ j = Z.pos m.
Proof.
  intros Hm He.
  destruct (Z.ltb_spec (Z.pos m) (2 ^ 53)) as [Hlt | Hge].
  - assert (Hd : Z.pos (digits2_pos m) = 53)
      by (apply digits2_pos_unique; change (53 - 1) with 52; lia).
    exists m, 0. unfold shr_fexp, Zdigits2.
    rewrite Hd, fexp_normal by lia.
    replace (53 + e - 53 - e) with 0 by lia.
    cbn [shr shr_record_of_loc shr_m].
    destruct (Z.leb_spec e (1024 - 53)); [ | lia ].
    split; [ f_equal; lia | ]. split; [ lia | ]. cbn. lia.
  - assert (Heq : m = (2 ^ 53)%positive).
    { assert (Z.pos m = 2 ^ 53) by lia. apply Pos2Z.inj.
      etransitivity; [ eassumption | reflexivity ]. }
    subst m. exists (2 ^ 52)%positive, 1.
    unfold shr_fexp, Zdigits2.
    change (Z.pos (digits2_pos (2 ^ 53))) with 54.
    rewrite fexp_normal by lia.
    replace (54 + e - 53 - e) with 1 by lia.
    cbn [shr shr_record_of_loc SpecFloat.iter_pos].
    change (shr_1 {| shr_m := Z.pos (2 ^ 53); shr_r := false; shr_s := false |})
      with {| shr_m := Z.pos (2 ^ 52); shr_r := false; shr_s := false |}.
    cbn [shr_m].
    destruct (Z.leb_spec (e + 1) (1024 - 53)); [ | lia ].
    split; [ reflexivity | ]. split; [ lia | reflexivity ].
Qed.

Lemma shr_m_of_loc (m : Z) (l : location) : shr_m (shr_record_of_loc m l) = m.
Proof. destruct l as [|[]]; reflexivity. Qed.

(** [binary_round_aux] on a mantissa of 53 or 54 digits: the result is
    finite, and its mantissa, scaled back, is the given one or a
    neighbour. *)
Lemma round_aux_spec (p : positive) (e : Z) (l : location) :
  2 ^ 52 <= Z.pos p < 2 ^ 54 ->
  -1074 <= e <= 960 ->
  exists M j,
    binary_round_aux 53 1024 false (Z.pos p) e l = S754_finite false M (e + j) /\
    0 <= j <= 2 /\
    Z.pos p - 1 <= Z.pos M * 2 ^ j <= Z.pos p + 1 /\
    (Z.pos M * 2 ^ j = Z.pos p - 1 -> l = loc_Exact /\ Z.odd (Z.pos p) = true) /\
    (Z.pos M * 2 ^ j = Z.pos p + 1 -> l <> loc_Exact \/ Z.odd (Z.pos p) = true).
Proof.
  intros Hp He. unfold binary_round_aux.
  destruct (Z.ltb_spec (Z.pos p) (2 ^ 53)) as [Hlt | Hge].
  - (* 53 digits: no shift before the rounding *)
    assert (Hd : Z.pos (digits2_pos p) = 53)
      by (apply digits2_pos_unique; change (53 - 1) with 52; lia).
    unfold shr_fexp at 1. unfold Zdigits2.
    rewrite Hd, fexp_normal by lia.
    replace (53 + e - 53 - e) with 0 by lia.
    cbn [shr]. rewrite shr_m_of_loc, loc_of_shr_record_of_loc.
    assert (Hround : exists m1,
              round_nearest_even (Z.pos p) l = Z.pos m1 /\
              (m1 = p \/ (m1 = (p + 1)%positive /\ l <> loc_Exact))).
    { destruct l as [|[]]; cbn [round_nearest_even].
      - exists p. auto.
      - destruct (Z.even (Z.pos p)).
        + exists p. auto.
        + exists (p + 1)%positive. split; [ reflexivity | right ].
          split; [ reflexivity | discriminate ].
      - exists p. auto.
      - exists (p + 1)%positive. split; [ reflexivity | right ].
        split; [ reflexivity | discriminate ]. }
    destruct Hround as (m1 & -> & Hm1).
    destruct (renormalize false m1 e) as (M & j & -> & Hj & HM);
      [ destruct Hm1 as [-> | [-> _]]; lia | lia | ].
    exists M, j. split; [ reflexivity | ]. split; [ lia | ].
    rewrite HM. destruct Hm1 as [-> | [-> Hl]].
    + split; [ lia | ]. split; [ lia | lia ].
    + rewrite Pos2Z.inj_add. split; [ lia | ]. split; [ lia | auto ].
  - (* 54 digits: one shift before the rounding *)
    assert (Hd : Z.pos (digits2_pos p) = 54)
      by (apply digits2_pos_unique; change (54 - 1) with 53; lia).
    unfold shr_fexp at 1. unfold Zdigits2.
    rewrite Hd, fexp_normal by lia.
    replace (54 + e - 53 - e) with 1 by lia.
    cbn [shr SpecFloat.iter_pos].
    assert (Hround : exists m1 : positive,
              round_nearest_even
                (shr_m (shr_1 (shr_record_of_loc (Z.pos p) l)))
                (loc_of_shr_record (shr_1 (shr_record_of_loc (Z.pos p) l)))
              = Z.pos m1 /\
              (2 * Z.pos m1 = Z.pos p \/
               (2 * Z.pos m1 = Z.pos p - 1 /\ l = loc_Exact /\
                Z.odd (Z.pos p) = true) \/
               (2 * Z.pos m1 = Z.pos p + 1 /\ Z.odd (Z.pos p) = true))).
    { destruct p as [p' | p' | ]; [ | | cbn in Hge; lia ].
      - (* odd *)
        destruct l as [|[]]; cbn [shr_record_of_loc shr_1 shr_m
                                    loc_of_shr_record orb round_nearest_even].
        + destruct (Z.even (Z.pos p')).
          * exists p'. split; [ reflexivity | right; left ].
            split; [ lia | split; reflexivity ].
          * exists (p' + 1)%positive. split; [ reflexivity | right; right ].
            split; [ lia | reflexivity ].
        + exists (p' + 1)%positive. split; [ reflexivity | right; right ].
          split; [ lia | reflexivity ].
        + exists (p' + 1)%positive. split; [ reflexivity | right; right ].
          split; [ lia | reflexivity ].
        + exists (p' + 1)%positive. split; [ reflexivity | right; right ].
          split; [ lia | reflexivity ].
      - (* even *)
        destruct l as [|[]]; cbn [shr_record_of_loc shr_1 shr_m
                                    loc_of_shr_record orb round_nearest_even];
          exists p'; (split; [ reflexivity | left; lia ]). }
    destruct Hround as (m1 & -> & Hm1).
    destruct (renormalize false m1 (e + 1)) as (M & j & -> & Hj & HM);
      [ lia | lia | ].
    exists M, (j + 1). split; [ f_equal; lia | ]. split; [ lia | ].
    rewrite Z.pow_add_r by lia. change (2 ^ 1) with 2.
    replace (Z.pos M * (2 ^ j * 2)) with (2 * (Z.pos M * 2 ^ j)) by lia.
    rewrite HM.
    destruct Hm1 as [H | [(H & Hl & Ho) | (H & Ho)]]; rewrite H.
    + split; [ lia | ]. split; lia.
    + split; [ lia | ]. split; [ auto | lia ].
    + split; [ lia | ]. split; [ lia | auto ].
Qed.

Lemma new_location_exact (m r : Z) : new_location m r = loc_Exact <-> r = 0.
Proof.
  unfold new_location, new_location_even, new_location_odd.
  destruct (Z.even m); destruct (Z.eqb_spec r 0); split; intros H;
    try reflexivity; try assumption; try discriminate; contradiction.
Qed.

(** The quotient of two finite numbers with mantissas of 53 digits. *)
Lemma SFdiv_finite (m1 m2 : positive) (e1 e2 : Z) :
  Z.pos (digits2_pos m1) = 53 ->
  Z.pos (digits2_pos m2) = 53 ->
  -52 <= e1 <= 0 ->
  -52 <= e2 <= 0 ->
  let q := (Z.pos m1 * 2 ^ 53) / Z.pos m2 in
  let r := (Z.pos m1 * 2 ^ 53) mod Z.pos m2 in
  exists M j,
    SFdiv 53 1024 (S754_finite false m1 e1) (S754_finite false m2 e2)
    = S754_finite false M (e1 - e2 - 53 + j) /\
    0 <= j <= 2 /\
    q - 1 <= Z.pos M * 2 ^ j <= q + 1 /\
    (Z.pos M * 2 ^ j = q - 1 -> r = 0 /\ Z.odd q = true) /\
    (Z.pos M * 2 ^ j = q + 1 -> r <> 0 \/ Z.odd q = true).
Proof.
  intros Hd1 Hd2 He1 He2 q r.
  pose proof (digits2_pos_bounds m1) as B1. rewrite Hd1 in B1.
  pose proof (digits2_pos_bounds m2) as B2. rewrite Hd2 in B2.
  change (53 - 1) with 52 in B1, B2.
  unfold SFdiv, SFdiv_core_binary, Zdigits2. cbn [xorb].
  rewrite Hd1, Hd2. rewrite fexp_normal by lia.
  rewrite Z.min_l by lia.
  replace (e1 - e2 - (53 + e1 - (53 + e2) - 53)) with 53 by lia.
  replace (53 + e1 - (53 + e2) - 53) with (e1 - e2 - 53) by lia.
  rewrite Z.shiftl_mul_pow2 by lia.
  assert (Hdiv : Z.div_eucl (Z.pos m1 * 2 ^ 53) (Z.pos m2) = (q, r)).
  { unfold q, r, Z.div, Z.modulo.
    destruct (Z.div_eucl (Z.pos m1 * 2 ^ 53) (Z.pos m2)); reflexivity. }
  rewrite Hdiv.
  assert (Hq : 2 ^ 52 <= q < 2 ^ 54).
  { unfold q. split.
    - apply Z.div_le_lower_bound; lia.
    - apply Z.div_lt_upper_bound; lia. }
  destruct q as [ | pq | pq ] eqn:Eq; [ lia | | lia ].
  destruct (round_aux_spec pq (e1 - e2 - 53) (new_location (Z.pos m2) r))
    as (M & j & Hres & Hj & Hv & Hdown & Hup); [ exact Hq | lia | ].
  exists M, j. rewrite Hres.
  split; [ reflexivity | ]. split; [ exact Hj | ]. split; [ exact Hv | ].
  split.
  - intros H. destruct (Hdown H) as [Hl Ho]. split; [ | exact Ho ].
    now apply new_location_exact in Hl.
  - intros H. destruct (Hup H) as [Hl | Ho]; [ left | right; exact Ho ].
    intros Hr. apply Hl. now apply new_location_exact.
Qed.

(** On integers below 2^53 the rounded quotient has the ceiling of the
    exact one. *)
Lemma mathCeil_divide_safe (a b : Z) :
  0 < a < 2 ^ 53 ->
  0 < b < 2 ^ 53 ->
  exists k,
    mathCeil (divide a b) = Integer k /\
    b * (k - 1) < a <= b * k.
Proof.
  intros Ha Hb.
  destruct a as [ | pa | pa ]; [ lia | | lia ].
  destruct b as [ | pb | pb ]; [ lia | | lia ].
  destruct (toNumber_safe pa) as (m1 & e1 & Hn1 & Hd1 & He1 & Hm1); [ lia | ].
  destruct (toNumber_safe pb) as (m2 & e2 & Hn2 & Hd2 & He2 & Hm2); [ lia | ].
  unfold divide. rewrite Hn1, Hn2.
  destruct (SFdiv_finite m1 m2 e1 e2 Hd1 Hd2 He1 He2)
    as (M & j & -> & Hj & Hv & Hdown & Hup).
  pose proof (digits2_pos_bounds m2) as B2. rewrite Hd2 in B2.
  change (53 - 1) with 52 in B2.
  set (a := Z.pos pa) in *. set (b := Z.pos pb) in *.
  set (q := Z.pos m1 * 2 ^ 53 / Z.pos m2) in *.
  set (r := (Z.pos m1 * 2 ^ 53) mod Z.pos m2) in *.
  set (V := Z.pos M * 2 ^ j) in *.
  (* the exact ceiling *)
  set (k := - ((- a) / b)).
  assert (Hk : b * (k - 1) < a <= b * k).
  { unfold k. pose proof (Z.div_mod (- a) b ltac:(lia)) as Hdm.
    pose proof (Z.mod_pos_bound (- a) b ltac:(lia)) as Hmb. nia. }
  clearbody k.
  (* the scale of the quotient *)
  set (s := 53 - e1 + e2).
  assert (Hs : 1 <= s <= 105) by (unfold s; lia).
  set (P := 2 ^ s). set (U := 2 ^ (- e1)) in *. set (W := 2 ^ (- e2)) in *.
  assert (HU : 0 < U) by (apply Z.pow_pos_nonneg; lia).
  assert (HW : 0 < W) by (apply Z.pow_pos_nonneg; lia).
  assert (HPW : P * W = 2 ^ 53 * U).
  { unfold P, W, U. rewrite <- !Z.pow_add_r by lia. f_equal. unfold s. lia. }
  assert (HP2 : exists P2, P = 2 * P2 /\ 0 < P2).
  { exists (2 ^ (s - 1)). split.
    - unfold P. replace s with (Z.succ (s - 1)) at 1 by lia.
      apply Z.pow_succ_r. lia.
    - apply Z.pow_pos_nonneg; lia. }
  destruct HP2 as (P2 & HP2 & HP2pos).
  assert (Hdm : Z.pos m1 * 2 ^ 53 = Z.pos m2 * q + r)
    by (apply Z.div_mod; lia).
  assert (Hr : 0 <= r < Z.pos m2) by (apply Z.mod_pos_bound; lia).
  assert (Hnum : Z.pos m1 * 2 ^ 53 = a * (P * W)) by (rewrite Hm1, HPW; lia).
  (* the rounded quotient lies in the same unit interval *)
  assert (Hlow : (k - 1) * P < V).
  { assert (Hgap : Z.pos m2 < (a - b * (k - 1)) * (P * W)).
    { assert (1 <= a - b * (k - 1)) by lia.
      assert (P * W <= (a - b * (k - 1)) * (P * W)) by nia.
      rewrite HPW in *. nia. }
    assert (Hq1 : (k - 1) * P + 1 <= q).
    { rewrite Hm2 in Hdm, Hr, Hgap. nia. }
    destruct (Z.eq_dec V (q - 1)) as [Hvq | Hvq]; [ | lia ].
    destruct (Hdown Hvq) as [Hr0 _].
    assert ((k - 1) * P + 1 <> q).
    { intros Heq. rewrite Hm2 in Hdm, Hgap. nia. }
    lia. }
  assert (Hhigh : V <= k * P).
  { assert (Hqk : q <= k * P).
    { rewrite Hm2 in Hdm, Hr. nia. }
    destruct (Z.eq_dec V (q + 1)) as [Hvq | Hvq]; [ | lia ].
    assert (q <> k * P); [ | lia ].
    destruct (Hup Hvq) as [Hr0 | Hodd].
    - intros Heq. rewrite Hm2 in Hdm, Hr. nia.
    - intros Heq. rewrite Heq, HP2 in Hodd.
      replace (k * (2 * P2)) with (2 * (k * P2)) in Hodd by lia.
      rewrite Z.odd_mul in Hodd. discriminate Hodd. }
  exists k. split; [ | exact Hk ].
  unfold mathCeil. cbn [andb]. f_equal.
  destruct (Z.ltb_spec (e1 - e2 - 53 + j) 0) as [Hneg | Hpos].
  - set (T := 2 ^ (- (e1 - e2 - 53 + j))).
    assert (HT : 0 < T) by (apply Z.pow_pos_nonneg; lia).
    assert (HPT : P = T * 2 ^ j).
    { unfold P, T. rewrite <- Z.pow_add_r by lia. f_equal. unfold s. lia. }
    assert (H2j : 0 < 2 ^ j) by (apply Z.pow_pos_nonneg; lia).
    assert (Hm : (k - 1) * T < Z.pos M <= k * T).
    { unfold V in Hlow, Hhigh. rewrite HPT in Hlow, Hhigh. nia. }
    assert (Hd : - Z.pos M / T = - k).
    { symmetry. apply Z.div_unique with (r := k * T - Z.pos M); lia. }
    fold T. rewrite Hd. lia.
  - set (T := 2 ^ (e1 - e2 - 53 + j)).
    assert (HT : 0 < T) by (apply Z.pow_pos_nonneg; lia).
    assert (HjT : 2 ^ j = P * T).
    { unfold P, T. rewrite <- Z.pow_add_r by lia. f_equal. unfold s. lia. }
    assert (HP : 0 < P) by lia.
    unfold V in Hlow, Hhigh. rewrite HjT in Hlow, Hhigh. nia.
Qed.

(** No row: the quotient by a positive page size is 0. *)
Lemma mathCeil_divide_zero (b : Z) :
  0 < b < 2 ^ 53 -> mathCeil (divide 0 b) = Integer 0.
Proof.
  intros Hb. destruct b as [ | pb | pb ]; [ lia | | lia ].
  destruct (toNumber_safe pb) as (m2 & e2 & Hn2 & _); [ lia | ].
  unfold divide. rewrite Hn2. reflexivity.
Qed.

(** A page size of 0: the quotient is [NaN] for no row, and [Infinity]
    for some rows. *)
Lemma mathCeil_divide_by_zero (a : Z) :
  0 <= a < 2 ^ 53 ->
  mathCeil (divide a 0) = if a =? 0 then NotANumber else Infinite false.
Proof.
  intros Ha. destruct a as [ | pa | pa ]; [ reflexivity | | lia ].
  destruct (toNumber_safe pa) as (m1 & e1 & Hn1 & _); [ lia | ].
  unfold divide. rewrite Hn1. reflexivity.
Qed.

(** ** What a fetched page leaves in the state *)

Lemma updateCursorStack_page_frame (page : Z) (cur : DocumentsState) :
  error (updateCursorStack page cur) = error cur /\
  pageSize (updateCursorStack page cur) = pageSize cur /\
  unfilteredTotalCount (updateCursorStack page cur) = unfilteredTotalCount cur /\
  documentsCache (updateCursorStack page cur) = documentsCache cur.
Proof.
  unfold updateCursorStack.
  destruct (page >? currentPage cur); [ destruct (documents cur) | ];
    [ | | destruct (page =? 1) ]; repeat split; reflexivity.
Qed.

(** The bookkeeping of a completed [try] block. *)
Lemma tryFetch_completed_page (w : Services) (ns : string) (force : bool)
    (limit page : Z) (s cur cur' : DocumentsState) (cs : list Call)
    (docs : list Document) (total : Z) (queryResult : DocumentsQueryResponse) :
  tryFetch w ns force limit page s cur = (cs, Completed cur' docs total queryResult) ->
  error cur' = error cur /\
  pageSize cur' = pageSize cur /\
  unfilteredTotalCount cur' = unfilteredTotalCount cur /\
  documentsCache cur' = documentsCache cur /\
  nextCursor cur' = newNextCursor docs.
Proof.
  unfold tryFetch, loadFiltered, loadBrowse.
  destruct (updateCursorStack_page_frame page cur) as (He & Hp & Hu & Hc).
  split_fetch; intros Heq; try discriminate;
    injection Heq as <- <- <- <- <-;
    repeat split; first [ exact He | exact Hp | exact Hu | exact Hc | reflexivity ].
Qed.

(** The last [set] of a completed load and what follows it. *)
Lemma completed_final_page (w : Services) (key : string) (page : Z)
    (s cur cur' : DocumentsState) (cs : list Call) (docs : list Document)
    (total : Z) (queryResult : DocumentsQueryResponse) :
  let s' := final (settle w key page s cur
                     (cs, Completed cur' docs total queryResult)) in
  error s' = error cur' /\
  pageSize s' = pageSize cur' /\
  nextCursor s' = nextCursor cur' /\
  totalCount s' = Some total /\
  totalPages s' = Some (mathCeil (divide total (pageSize cur'))) /\
  lastQueryResult s' = Some queryResult /\
  unfilteredTotalCount s'
  = (if shouldUseQueryMode s then unfilteredTotalCount cur' else Some total) /\
  documentsCache s'
  = <[key := {| cached_documents := docs; cached_totalCount := Some total;
                timestamp := nowStored w |}]> (documentsCache cur').
Proof.
  unfold settle, storePage. cbv beta iota zeta delta [fst snd final].
  destruct (shouldUseQueryMode s); destruct docs; repeat split; reflexivity.
Qed.

(** The cache key reads the connection, the namespace, the search text
    and the active filters. *)
Lemma cacheKey_reads_query (s s' : DocumentsState) (page limit : Z) :
  queryOf s = queryOf s' -> cacheKey s page limit = cacheKey s' page limit.
Proof.
  unfold queryOf. intros Hq.
  injection Hq as Hc Hn _ Ht Hf _ _ _ _ _ _ _ _ _ _ _.
  unfold cacheKey. rewrite Hc, Hn, Ht, Hf. reflexivity.
Qed.

(** The state after a load that fetched its page: the rows, the count
    and the page count of the answer, no error, the page size of the
    call, the key of the last row as next cursor, and the page written
    through to the cache under the key of the load.  The page count is
    [Math.ceil] of the quotient that JavaScript computes: for a total
    and a positive page size below 2^53, the least number of pages that
    hold the total; for a page size of 0, [NaN] when there is no row
    and [Infinity] when there are some. *)
Theorem loaded_page_postcondition (w : Services) (force loadMore : bool)
    (limit page : Z) (s : DocumentsState) :
  let r := loadDocuments w force loadMore limit page s in
  outcome r = Loaded ->
  exists ns q response total,
    currentNamespaceId s = Some ns /\
    primaryRequest s limit page = Some q /\
    queryDocuments w ns q = Fulfilled response /\
    documents (final r) = rowsOf response /\
    lastQueryResult (final r) = Some response /\
    totalCount (final r) = Some total /\
    totalPages (final r) = Some (mathCeil (divide total limit)) /\
    unfilteredTotalCount (final r)
    = (if shouldUseQueryMode s then unfilteredTotalCount s else Some total) /\
    error (final r) = None /\
    isLoading (final r) = false /\
    pageSize (final r) = limit /\
    currentPage (final r) = page /\
    nextCursor (final r) = newNextCursor (rowsOf response) /\
    documentsCache (final r) !! cacheKey s page limit
    = Some {| cached_documents := rowsOf response;
              cached_totalCount := Some total;
              timestamp := nowStored w |} /\
    (0 <= total < 2 ^ 53 -> 0 < limit < 2 ^ 53 ->
     exists pages,
       totalPages (final r) = Some (Integer pages) /\
       limit * (pages - 1) < total <= limit * pages) /\
    (0 <= total < 2 ^ 53 -> limit = 0 ->
     totalPages (final r)
     = Some (if total =? 0 then NotANumber else Infinite false)).
Proof.
  intros r Hout. subst r.
  destruct (loaded_inv w force loadMore limit page s Hout)
    as (ns & cs & cur' & docs & total & qr & Hns & _ & Htry & Hload).
  destruct (tryFetch_completed _ _ _ _ _ _ _ _ _ _ _ _ Htry)
    as (q & Hq & Hqr & Hdocs & _ & _ & _ & _ & _ & _).
  destruct (tryFetch_completed_page _ _ _ _ _ _ _ _ _ _ _ _ Htry)
    as (Te & Tp & Tu & _ & Tn).
  destruct (completed_final w (cacheKey s page limit) page s (beginLoad limit s)
              cur' cs docs total qr) as (_ & Cl & Cc & Cd & _ & _).
  destruct (completed_final_page w (cacheKey s page limit) page s
              (beginLoad limit s) cur' cs docs total qr)
    as (Pe & Pp & Pn & Pt & Pg & Pl & Pu & Pc).
  rewrite Hload. exists ns, q, qr, total. subst docs.
  split; [ exact Hns | ]. split; [ exact Hq | ]. split; [ exact Hqr | ].
  split; [ exact Cd | ]. split; [ exact Pl | ]. split; [ exact Pt | ].
  split; [ rewrite Pg, Tp; reflexivity | ].
  split; [ rewrite Pu, Tu; reflexivity | ].
  split; [ rewrite Pe, Te; reflexivity | ].
  split; [ exact Cl | ].
  split; [ rewrite Pp, Tp; reflexivity | ].
  split; [ exact Cc | ].
  split; [ rewrite Pn, Tn; reflexivity | ].
  split; [ rewrite Pc; apply lookup_insert_eq | ].
  assert (Hpages : totalPages
                     (final (settle w (cacheKey s page limit) page s
                               (beginLoad limit s)
                               (cs, Completed cur' (rowsOf qr) total qr)))
                   = Some (mathCeil (divide total limit)))
    by (rewrite Pg, Tp; reflexivity).
  rewrite Hpages. split.
  - intros Htotal Hlimit.
    destruct (Z.eq_dec total 0) as [-> | Hsome].
    + exists 0. rewrite mathCeil_divide_zero by exact Hlimit.
      split; [ reflexivity | lia ].
    + destruct (mathCeil_divide_safe total limit) as (k & -> & Hk);
        [ lia | exact Hlimit | ].
      exists k. split; [ reflexivity | exact Hk ].
  - intros Htotal ->. rewrite mathCeil_divide_by_zero by exact Htotal.
    reflexivity.
Qed.

(** The namespace of a state, read off its query configuration. *)
Lemma queryOf_namespace (s s' : DocumentsState) :
  queryOf s' = queryOf s -> currentNamespaceId s' = currentNamespaceId s.
Proof.
  unfold queryOf. intros Hq.
  injection Hq as _ Hn _ _ _ _ _ _ _ _ _ _ _ _ _ _. exact Hn.
Qed.

(** The query configuration after a load that fetched its page. *)
Lemma loaded_query (w : Services) (force loadMore : bool) (limit page : Z)
    (s : DocumentsState) :
  outcome (loadDocuments w force loadMore limit page s) = Loaded ->
  queryOf (final (loadDocuments w force loadMore limit page s)) = queryOf s /\
  isLoading (final (loadDocuments w force loadMore limit page s)) = false /\
  currentPage (final (loadDocuments w force loadMore limit page s)) = page.
Proof.
  intros Hout.
  destruct (loaded_inv w force loadMore limit page s Hout)
    as (ns & cs & cur' & docs & total & qr & _ & _ & Htry & Hload).
  destruct (tryFetch_completed _ _ _ _ _ _ _ _ _ _ _ _ Htry)
    as (q & _ & _ & _ & _ & _ & Tq & _ & _ & _).
  destruct (completed_final w (cacheKey s page limit) page s (beginLoad limit s)
              cur' cs docs total qr) as (Cq & Cl & Cc & _ & _ & _).
  rewrite Hload. split; [ | split ]; [ | exact Cl | exact Cc ].
  rewrite Cq, Tq. reflexivity.
Qed.

(** ** Write-through *)

(** A page that a load has fetched is served from the cache afterwards:
    a non-forced load of the same page with the same page size, while
    the entry is younger than the TTL, calls nothing and shows the rows
    and the count of the fetch. *)
Theorem loaded_page_is_served_from_cache (w1 w2 : Services)
    (force loadMore1 loadMore2 : bool) (limit page : Z) (s : DocumentsState) :
  let r1 := loadDocuments w1 force loadMore1 limit page s in
  let r2 := loadDocuments w2 false loadMore2 limit page (final r1) in
  outcome r1 = Loaded ->
  getClient w2 = true ->
  now w2 - nowStored w1 < CACHE_DURATION ->
  outcome r2 = CacheHit /\
  calls r2 = [] /\
  documents (final r2) = documents (final r1) /\
  totalCount (final r2) = totalCount (final r1).
Proof.
  intros r1 r2 Hout Hclient Hfresh.
  destruct (loaded_query w1 force loadMore1 limit page s Hout) as (Hq & Hl & _).
  fold r1 in Hq, Hl.
  destruct (loaded_inv w1 force loadMore1 limit page s Hout)
    as (ns & cs & cur' & docs & total & qr & Hns & Hg & Htry & Hload).
  destruct (tryFetch_completed_page _ _ _ _ _ _ _ _ _ _ _ _ Htry)
    as (_ & _ & _ & Tc & _).
  destruct (completed_final w1 (cacheKey s page limit) page s (beginLoad limit s)
              cur' cs docs total qr) as (_ & _ & _ & Cd & _ & _).
  destruct (completed_final_page w1 (cacheKey s page limit) page s
              (beginLoad limit s) cur' cs docs total qr)
    as (_ & _ & _ & Pt & _ & _ & _ & Pc).
  rewrite <- Hload in Cd, Pt, Pc. fold r1 in Cd, Pt, Pc.
  assert (Hg2 : passesGuards w2 (final r1) = true)
    by (apply (passesGuards_transfer w1 w2 s); assumption).
  assert (Hns2 : currentNamespaceId (final r1) = Some ns)
    by (rewrite (queryOf_namespace s (final r1) Hq); exact Hns).
  subst r2.
  rewrite (loadDocuments_guarded w2 false loadMore2 limit page (final r1) ns
             Hg2 Hns2).
  unfold servedFromCache, freshEntry.
  rewrite (cacheKey_reads_query (final r1) s page limit Hq), Pc, lookup_insert_eq.
  cbn [timestamp].
  destruct (Z.ltb_spec (now w2 - nowStored w1) CACHE_DURATION); [ | lia ].
  unfold fromCache. cbn [final calls outcome cached_documents cached_totalCount].
  match goal with
  | |- context [discoverAttributesFromDocuments ?d ?c] =>
      destruct (discover_keeps_rows d c) as [-> ->]
  end.
  rewrite Cd, Pt. repeat split; reflexivity.
Qed.

(** ** Forced loads *)

Lemma tryFetch_forced_head (w : Services) (ns : string) (limit page : Z)
    (s cur : DocumentsState) :
  hd_error (fst (tryFetch w ns true limit page s cur)) = Some (ns, countRequest s).
Proof.
  unfold tryFetch, loadFiltered, loadBrowse, countRequest.
  split_fetch; reflexivity.
Qed.

(** A forced load that gets past the entry guards is never answered
    from the cache, and its first call is the count request: the total
    is counted again even where it is known. *)
Theorem forced_load_recounts (w : Services) (loadMore : bool)
    (limit page : Z) (s : DocumentsState) (ns : string) :
  passesGuards w s = true ->
  currentNamespaceId s = Some ns ->
  let r := loadDocuments w true loadMore limit page s in
  outcome r <> CacheHit /\
  hd_error (calls r) = Some (ns, countRequest s) /\
  (length (calls r) <= 2)%nat.
Proof.
  intros Hg Hns r. subst r.
  rewrite (loadDocuments_guarded w true loadMore limit page s ns Hg Hns).
  unfold servedFromCache.
  pose proof (tryFetch_forced_head w ns limit page s (beginLoad limit s)) as Hhd.
  pose proof (tryFetch_calls w ns true limit page s (beginLoad limit s)) as Hlen.
  unfold settle.
  destruct (snd (tryFetch w ns true limit page s (beginLoad limit s)));
    cbn [calls outcome];
    (split; [ discriminate | split; [ exact Hhd | lia ] ]).
Qed.

(** ** A known total *)

(** A non-forced load of the listing that knows both totals and finds
    no fresh cache entry sends the page request alone; when it
    succeeds, the total it shows, and the unfiltered total it records,
    is the [totalCount] that the state held. *)
Theorem known_total_is_not_recounted (w : Services) (loadMore : bool)
    (limit page : Z) (s : DocumentsState) (ns : string) (n m : Z) :
  passesGuards w s = true ->
  currentNamespaceId s = Some ns ->
  shouldUseQueryMode s = false ->
  totalCount s = Some n ->
  unfilteredTotalCount s = Some m ->
  servedFromCache w false limit page s = None ->
  let r := loadDocuments w false loadMore limit page s in
  calls r = [(ns, listRequest match paginationCursor s page with
                              | Some cursor => cursorFilter cursor
                              | None => JUndefined
                              end limit)] /\
  (outcome r = Loaded ->
   totalCount (final r) = Some n /\ unfilteredTotalCount (final r) = Some n).
Proof.
  intros Hg Hns Hmode Ht Hu Hcache r. subst r.
  rewrite (loadDocuments_guarded w false loadMore limit page s ns Hg Hns), Hcache.
  unfold tryFetch, loadBrowse. rewrite Hmode, Ht, Hu.
  cbv beta iota zeta delta [fst snd].
  match goal with
  | |- context [queryDocuments w ns ?q] => destruct (queryDocuments w ns q)
  end.
  - split; [ reflexivity | ]. intros _.
    match goal with
    | |- context [settle ?w ?k ?p ?s ?c (?cs, Completed ?c' ?d ?t ?q)] =>
        destruct (completed_final_page w k p s c c' cs d t q)
          as (_ & _ & _ & Pt & _ & _ & Pu & _)
    end.
    rewrite Pt, Pu, Hmode. split; reflexivity.
  - split; [ reflexivity | ]. cbn [outcome settle snd]. discriminate.
Qed.

(** ** A cache hit *)

Lemma cache_hit_inv (w : Services) (force loadMore : bool) (limit page : Z)
    (s : DocumentsState) :
  outcome (loadDocuments w force loadMore limit page s) = CacheHit ->
  exists cached,
    servedFromCache w force limit page s = Some cached /\
    loadDocuments w force loadMore limit page s
    = {| final := fromCache page cached s; calls := []; outcome := CacheHit |}.
Proof.
  intros Hout. destruct (passesGuards w s) eqn:Hg.
  - destruct (passesGuards_namespace w s Hg) as (ns & Hns & _).
    rewrite (loadDocuments_guarded w force loadMore limit page s ns Hg Hns)
      in Hout |- *.
    destruct (servedFromCache w force limit page s) as [cached|].
    + exists cached. auto.
    + unfold settle in Hout.
      destruct (snd (tryFetch w ns force limit page s (beginLoad limit s)));
        discriminate.
  - destruct (loadDocuments_blocked w force loadMore limit page s Hg)
      as [_ [Ho | Ho]]; congruence.
Qed.

(** A load answered from the cache was not forced and found an entry
    younger than the TTL under its key.  It shows the rows of the entry
    under the page number asked for and drops the last response; the
    cursor stack, the next cursor, the page size, the page count, the
    error on display and the cache itself stay as they were. *)
Theorem cache_hit_keeps_pagination_state (w : Services) (force loadMore : bool)
    (limit page : Z) (s : DocumentsState) :
  let r := loadDocuments w force loadMore limit page s in
  outcome r = CacheHit ->
  exists entry,
    force = false /\
    documentsCache s !! cacheKey s page limit = Some entry /\
    now w - timestamp entry < CACHE_DURATION /\
    calls r = [] /\
    documents (final r) = cached_documents entry /\
    currentPage (final r) = page /\
    lastQueryResult (final r) = None /\
    previousCursors (final r) = previousCursors s /\
    nextCursor (final r) = nextCursor s /\
    pageSize (final r) = pageSize s /\
    totalPages (final r) = totalPages s /\
    error (final r) = error s /\
    documentsCache (final r) = documentsCache s.
Proof.
  intros r Hout. subst r.
  destruct (cache_hit_inv w force loadMore limit page s Hout)
    as (cached & Hserved & ->).
  exists cached. unfold servedFromCache, freshEntry in Hserved.
  destruct force; [ discriminate | ].
  destruct (documentsCache s !! cacheKey s page limit) as [c|] eqn:Hc;
    [ | discriminate ].
  destruct (Z.ltb_spec (now w - timestamp c) CACHE_DURATION); [ | discriminate ].
  injection Hserved as ->.
  unfold fromCache. cbn [final calls].
  destruct (cached_documents cached); repeat split; auto.
Qed.

(** ** Going forward *)

Lemma paginationCursor_forward (s : DocumentsState) (page : Z) :
  currentPage s < page ->
  paginationCursor s page
  = match documents s with
    | [] => None
    | _ => Some (lastId (documents s))
    end.
Proof.
  intros Hp. unfold paginationCursor.
  destruct (Z.gtb_spec page (currentPage s)); [ | lia ].
  destruct (Z.ltb_spec page (currentPage s)); [ lia | ].
  destruct (documents s); reflexivity.
Qed.

(** The page request of a forward load does not read the target page
    number: every page after the current one gets the request whose
    cursor is the key of the last row on display.  Two forward loads
    from the same state that both fetch show the same rows, each under
    the page number it was asked for. *)
Theorem forward_jump_fetches_the_next_page (w : Services)
    (force force' loadMore : bool) (limit page page' : Z) (s : DocumentsState) :
  currentPage s < page ->
  currentPage s < page' ->
  let r := loadDocuments w force loadMore limit page s in
  let r' := loadDocuments w force' loadMore limit page' s in
  primaryRequest s limit page = primaryRequest s limit page' /\
  (documents s <> [] ->
   primaryRequest s limit page
   = compileRequest s limit (Some (lastId (documents s)))) /\
  (outcome r = Loaded -> outcome r' = Loaded ->
   documents (final r) = documents (final r') /\
   currentPage (final r) = page /\
   currentPage (final r') = page').
Proof.
  intros Hp Hp' r r'. unfold primaryRequest.
  rewrite !paginationCursor_forward by assumption.
  split; [ reflexivity | ]. split.
  - destruct (documents s); [ congruence | reflexivity ].
  - intros Hout Hout'.
    destruct (loaded_sends_primary w force loadMore limit page s Hout)
      as (ns & q & Hns & Hq & _ & Hd).
    destruct (loaded_sends_primary w force' loadMore limit page' s Hout')
      as (ns' & q' & Hns' & Hq' & _ & Hd').
    destruct (loaded_query w force loadMore limit page s Hout) as (_ & _ & Hc).
    destruct (loaded_query w force' loadMore limit page' s Hout') as (_ & _ & Hc').
    unfold primaryRequest in Hq, Hq'.
    rewrite paginationCursor_forward in Hq, Hq' by assumption.
    assert (ns' = ns) as -> by congruence.
    assert (q' = q) as -> by congruence.
    subst r r'. rewrite Hd, Hd'. auto.
Qed.

(** ** Going backward *)

Lemma arraySet_same (arr : list JsVal) (i : Z) (x : JsVal) :
  0 <= i ->
  nth (Z.to_nat i) (arraySet arr i x) JUndefined = x /\
  (Z.to_nat i < length (arraySet arr i x))%nat.
Proof.
  intros Hi. unfold arraySet.
  destruct (Z.ltb_spec i 0); [ lia | ]. cbv zeta.
  destruct (Nat.ltb_spec (Z.to_nat i) (length arr)) as [Hlt | Hge].
  - rewrite nth_lookup, list_lookup_insert_eq, length_insert by exact Hlt.
    auto.
  - rewrite nth_lookup, lookup_app_r by exact Hge.
    rewrite lookup_app_r by (rewrite length_replicate; lia).
    rewrite length_replicate, !length_app, length_replicate.
    replace (Z.to_nat i - length arr - (Z.to_nat i - length arr))%nat with 0%nat
      by lia.
    split; [ reflexivity | cbn; lia ].
Qed.

Lemma arraySet_other (arr : list JsVal) (i : Z) (x : JsVal) (j : nat) :
  0 <= i ->
  (j < length arr)%nat ->
  j <> Z.to_nat i ->
  nth j (arraySet arr i x) JUndefined = nth j arr JUndefined /\
  (j < length (arraySet arr i x))%nat.
Proof.
  intros Hi Hj Hne. unfold arraySet.
  destruct (Z.ltb_spec i 0); [ lia | ]. cbv zeta.
  destruct (Nat.ltb_spec (Z.to_nat i) (length arr)) as [Hlt | Hge].
  - rewrite !nth_lookup, list_lookup_insert_ne, length_insert by auto.
    auto.
  - rewrite !nth_lookup, lookup_app_l, length_app by exact Hj.
    split; [ reflexivity | lia ].
Qed.

(** What a forward load that fetched its page pushes on the stack. *)
Lemma loaded_forward_stack (w : Services) (force loadMore : bool)
    (limit page : Z) (s : DocumentsState) :
  outcome (loadDocuments w force loadMore limit page s) = Loaded ->
  currentPage s < page ->
  previousCursors (final (loadDocuments w force loadMore limit page s))
  = match documents s with
    | first :: _ => arraySet (previousCursors s) (currentPage s - 1) (doc_id first)
    | [] => previousCursors s
    end.
Proof.
  intros Hout Hp.
  destruct (loaded_inv w force loadMore limit page s Hout)
    as (ns & cs & cur' & docs & total & qr & _ & _ & Htry & Hload).
  destruct (tryFetch_completed _ _ _ _ _ _ _ _ _ _ _ _ Htry)
    as (q & _ & _ & _ & _ & _ & _ & _ & _ & Tp).
  destruct (completed_final w (cacheKey s page limit) page s (beginLoad limit s)
              cur' cs docs total qr) as (_ & _ & _ & _ & Cp & _).
  rewrite Hload, Cp, Tp. unfold updateCursorStack.
  change (currentPage (beginLoad limit s)) with (currentPage s).
  change (documents (beginLoad limit s)) with (documents s).
  destruct (Z.gtb_spec page (currentPage s)); [ | lia ].
  destruct (documents s); reflexivity.
Qed.

(** The cursor of a backward load.  From page [p] showing the rows
    [first :: rest], let page [p + 1] and then page [p + 2] be fetched.
    The forward load of page [p + 1] asked for the rows after the last
    row of page [p]; a load that goes back to page [p + 1] asks for the
    rows after [first], the first row of page [p]. *)
Theorem backward_cursor_is_first_row_of_previous_page
    (w1 w2 : Services) (f1 f2 loadMore : bool) (limit p : Z)
    (s : DocumentsState) (first : Document) (rest : list Document) :
  let r1 := loadDocuments w1 f1 loadMore limit (p + 1) s in
  let r2 := loadDocuments w2 f2 loadMore limit (p + 2) (final r1) in
  1 <= p ->
  currentPage s = p ->
  documents s = first :: rest ->
  outcome r1 = Loaded ->
  outcome r2 = Loaded ->
  primaryRequest s limit (p + 1)
  = compileRequest s limit (Some (lastId (first :: rest))) /\
  paginationCursor (final r2) (p + 1) = Some (doc_id first) /\
  primaryRequest (final r2) limit (p + 1)
  = compileRequest (final r2) limit (Some (doc_id first)).
Proof.
  intros r1 r2 Hp Hcur Hdocs Hout1 Hout2.
  assert (Hfwd : primaryRequest s limit (p + 1)
                 = compileRequest s limit (Some (lastId (first :: rest)))).
  { unfold primaryRequest. rewrite paginationCursor_forward by lia.
    rewrite Hdocs. reflexivity. }
  pose proof (loaded_forward_stack w1 f1 loadMore limit (p + 1) s Hout1
                ltac:(lia)) as Hs1.
  rewrite Hdocs, Hcur in Hs1. fold r1 in Hs1.
  destruct (loaded_query w1 f1 loadMore limit (p + 1) s Hout1) as (_ & _ & Hc1).
  fold r1 in Hc1.
  pose proof (loaded_forward_stack w2 f2 loadMore limit (p + 2) (final r1) Hout2
                ltac:(lia)) as Hs2.
  rewrite Hc1 in Hs2. fold r2 in Hs2.
  destruct (loaded_query w2 f2 loadMore limit (p + 2) (final r1) Hout2)
    as (_ & _ & Hc2).
  fold r2 in Hc2.
  destruct (arraySet_same (previousCursors s) (p - 1) (doc_id first) ltac:(lia))
    as (Hnth1 & Hlen1).
  rewrite <- Hs1 in Hnth1, Hlen1.
  assert (Hstack : nth (Z.to_nat (p - 1)) (previousCursors (final r2)) JUndefined
                   = doc_id first /\
                   (Z.to_nat (p - 1) < length (previousCursors (final r2)))%nat).
  { rewrite Hs2. destruct (documents (final r1)) as [|d ds]; [ auto | ].
    replace (p + 1 - 1) with p by lia.
    destruct (arraySet_other (previousCursors (final r1)) p (doc_id d)
                (Z.to_nat (p - 1)) ltac:(lia) Hlen1 ltac:(lia)) as (-> & Hlen).
    auto. }
  destruct Hstack as (Hnth & Hlen).
  assert (Hback : paginationCursor (final r2) (p + 1) = Some (doc_id first)).
  { unfold paginationCursor. rewrite Hc2.
    destruct (Z.gtb_spec (p + 1) (p + 2)); [ lia | ].
    destruct (Z.ltb_spec (p + 1) (p + 2)); [ | lia ].
    destruct (Nat.ltb_spec 0 (length (previousCursors (final r2)))); [ | lia ].
    cbn [andb]. cbv zeta. replace (p + 1 - 2) with (p - 1) by lia.
    destruct (Z.leb_spec 0 (p - 1)); [ | lia ].
    destruct (Z.ltb_spec (p - 1) (Z.of_nat (length (previousCursors (final r2)))));
      [ | lia ].
    cbn [andb]. rewrite Hnth. reflexivity. }
  split; [ exact Hfwd | ]. split; [ exact Hback | ].
  unfold primaryRequest. rewrite Hback. reflexivity.
Qed.

(** ** A sequence of loads *)

(** No sequence of loads, whatever their outcomes, changes the query
    configuration, the connection, the namespace or the client flag;
    none leaves a load in flight when none was; and when every page
    asked for is at or after the first, so is the page shown. *)
Theorem loads_keep_query_configuration
    (requests : list (Services * bool * Z * Z)) (s : DocumentsState) :
  queryOf (afterLoads requests s) = queryOf s /\
  (isLoading s = false -> isLoading (afterLoads requests s) = false) /\
  (1 <= currentPage s ->
   Forall (fun request => 1 <= snd request) requests ->
   1 <= currentPage (afterLoads requests s)).
Proof.
  unfold afterLoads. revert s.
  induction requests as [|[[[w force] limit] page] rest IH]; intros s.
  - split; [ | split ]; auto.
  - cbn [fold_left].
    destruct (load_frame w force false limit page s) as (Hq & Hl & Hp & _).
    destruct (IH (final (loadDocuments w force false limit page s)))
      as (IHq & IHl & IHp).
    split; [ congruence | ]. split; [ auto | ].
    intros Hpage Hall. inversion Hall as [|? ? Hfirst Hrest]; subst.
    apply IHp; [ apply Hp; assumption | exact Hrest ].
Qed.

(** ** The search text of a ranked search *)

(** In full-text and vector mode the search text is no filter.  With a
    non-blank search text and no active predicate, every count request
    of a load is sent with no filter at all, so the total shown is the
    size of the namespace, and the page request carries the cursor
    predicate alone. *)
Theorem ranked_search_counts_whole_namespace (w : Services)
    (force loadMore : bool) (limit page : Z) (s : DocumentsState)
    (ns : string) (q : QueryRequest) :
  isBrowse (queryMode s) = false ->
  activeFilters s = [] ->
  nonEmpty (trim (searchText s)) = true ->
  In (ns, q) (calls (loadDocuments w force loadMore limit page s)) ->
  q = filteredCountRequest JUndefined \/
  (primaryRequest s limit page = Some q /\
   filters q = Some match paginationCursor s page with
                    | Some cursor => cursorFilter cursor
                    | None => JUndefined
                    end).
Proof.
  intros Hmode Hfilters Htext Hin.
  pose proof (searchText_forces_query_mode s Htext) as Hq.
  assert (Hbuild : buildFilters s = []).
  { unfold buildFilters. rewrite Hmode, Hfilters, andb_false_r. reflexivity. }
  destruct (calls_are_compiled w force loadMore limit page s ns q Hin)
    as (_ & [Hc | Hp]).
  - left. rewrite Hc. unfold countRequest. rewrite Hq, Hbuild. reflexivity.
  - right. split; [ exact Hp | ].
    rewrite primaryRequest_query_mode in Hp by exact Hq.
    rewrite Hbuild in Hp. unfold queryRequest in Hp.
    destruct (determineRankBy s); [ | discriminate ].
    destruct (0 <? length (aggregations s))%nat;
      injection Hp as <-; destruct (paginationCursor s page); reflexivity.
Qed.

(** ** The fallback field of the full-text ranking *)

(** With no BM25 field configured, a full-text ranking is over an
    attribute of the registry whose type is [string] or [[]string] and
    whose name is none of [id], [uuid], [key], [created_at] and
    [updated_at], in any letter case. *)
Theorem fulltext_fallback_field (s : DocumentsState) (r : JsVal) :
  customExpression s = None ->
  queryMode s = mode_bm25 ->
  nonEmpty (trim (searchText s)) = true ->
  bm25Fields s = [] ->
  determineRankBy s = Rank r ->
  exists a,
    In a (attributes s) /\
    r = bm25Rank (attr_name a) (trim (searchText s)) /\
    isTextType (attr_type a) = true /\
    isKeyLikeName (attr_name a) = false.
Proof.
  intros He Hm Ht Hf Hr.
  rewrite determineRankBy_fulltext in Hr
    by (try rewrite Hm, Ht; auto).
  rewrite Hf in Hr. cbv zeta in Hr.
  destruct (potentialBM25Fields (attributes s)) as [|p rest] eqn:Hp;
    [ discriminate | ].
  injection Hr as <-.
  assert (Hin : In p (potentialBM25Fields (attributes s)))
    by (rewrite Hp; left; reflexivity).
  unfold potentialBM25Fields in Hin.
  apply in_map_iff in Hin. destruct Hin as (a & <- & Hin).
  apply filter_In in Hin. destruct Hin as (Hin & Hkey).
  apply filter_In in Hin. destruct Hin as (Hin & Htype).
  exists a. repeat split; auto.
  destruct (isKeyLikeName (attr_name a)); [ discriminate | reflexivity ].
Qed.

(** ** Predicates typed in *)

(** A predicate added with [in] or [not_in] stores an array, whatever
    was typed: the elements of an array value, or the comma-separated
    parts of any other value, trimmed, the empty ones dropped.  The
    backend filter is built on that array as it stands. *)
Theorem list_filter_stores_and_sends_an_array (newId a : string)
    (op : FilterOperator) (raw : JsVal) (s : DocumentsState) :
  op = op_in \/ op = op_not_in ->
  exists f items,
    activeFilters (fst (addFilter newId a op raw s))
    = (activeFilters s ++ [f])%list /\
    filter_id f = newId /\
    value f = JArr items /\
    (forall text, raw = JStr text ->
       items = List.map (fun v => parseValueForFieldType v
                                    (fieldTypeOf (attributes s) a))
                 (splitValues text)) /\
    forall attrs,
      compileFilter attrs f
      = triple a match op with op_in => "In" | _ => "NotIn" end (JArr items).
Proof.
  intros [-> | ->]; unfold addFilter; cbn [fst];
    (destruct raw as [ | | b | n | text | items | fields ];
     eexists _, _;
     (split; [ reflexivity | ]); (split; [ reflexivity | ]);
     (split; [ reflexivity | ]);
     (split; [ intros t Ht; first [ discriminate Ht | injection Ht as <- ];
               reflexivity
             | intros attrs; reflexivity ])).
Qed.

(** The text [null], in any letter case, typed as the value of a
    predicate that is not a list predicate, is stored as the null
    value and displayed as [null]; with [equals] on an attribute that
    is not an array it is sent as [[attribute, "Eq", null]]. *)
Theorem null_text_filters_for_null (newId a text : string)
    (op : FilterOperator) (s : DocumentsState) :
  op <> op_in ->
  op <> op_not_in ->
  toLowerCase text = "null" ->
  exists f,
    activeFilters (fst (addFilter newId a op (JStr text) s))
    = (activeFilters s ++ [f])%list /\
    value f = JNull /\
    displayValue f = "null" /\
    (op = op_equals ->
     isArrayType (fieldTypeOf (attributes s) a) = false ->
     compileFilter (attributes s) f = triple a "Eq" JNull).
Proof.
  intros Hin Hnin Hnull. unfold addFilter. cbn [fst].
  assert (Htyped : typedValueOf (fieldTypeOf (attributes s) a) op (JStr text)
                   = JNull).
  { unfold typedValueOf. rewrite Hnull.
    destruct op; try reflexivity; congruence. }
  rewrite Htyped. eexists. split; [ reflexivity | ].
  split; [ reflexivity | ]. split; [ reflexivity | ].
  intros -> Harr. unfold compileFilter. cbn [operator attribute value].
  rewrite Harr. reflexivity.
Qed.

(** ** The list of active predicates *)

Lemma filter_other_ids (newId : string) (fs : list SimpleFilter) :
  (forall f, In f fs -> filter_id f <> newId) ->
  List.filter (fun f => negb (String.eqb (filter_id f) newId)) fs = fs.
Proof.
  induction fs as [|f rest IH]; intros Hfresh; [ reflexivity | ].
  cbn [List.filter].
  destruct (String.eqb_spec (filter_id f) newId) as [Heq | _].
  - destruct (Hfresh f (or_introl eq_refl) Heq).
  - cbn [negb]. rewrite IH; [ reflexivity | ].
    intros g Hg. apply Hfresh. right. exact Hg.
Qed.

(** Adding a predicate under an id that no active predicate has, then
    removing that id, gives back the list of active predicates and the
    query configuration; the query-mode flag is the one that the search
    text and the remaining predicates give. *)
Theorem add_then_remove_restores_filters (newId a : string)
    (op : FilterOperator) (raw : JsVal) (s : DocumentsState) :
  (forall f, In f (activeFilters s) -> filter_id f <> newId) ->
  let s' := fst (removeFilter newId (fst (addFilter newId a op raw s))) in
  activeFilters s' = activeFilters s /\
  queryOf s' = queryOf s /\
  isQueryMode s' = (0 <? String.length (searchText s))%nat
                   || (0 <? length (activeFilters s))%nat.
Proof.
  intros Hfresh s'. subst s'. unfold removeFilter, addFilter. cbn [fst].
  match goal with
  | |- context [List.filter ?p ?l] =>
      assert (Hkept : List.filter p l = activeFilters s)
  end.
  { change (activeFilters _) with
      (activeFilters s ++
       [{| filter_id := newId; attribute := a; operator := op;
           value := typedValueOf (fieldTypeOf (attributes s) a) op raw;
           displayValue :=
             displayValueOf
               (typedValueOf (fieldTypeOf (attributes s) a) op raw) |}])%list
      at 1.
    rewrite List.filter_app, filter_other_ids by exact Hfresh.
    cbn [List.filter filter_id]. rewrite String.eqb_refl.
    apply app_nil_r. }
  rewrite Hkept. repeat split.
Qed.

Lemma replaceFilter_ids (filterId : string)
    (update : SimpleFilter -> SimpleFilter) (fs : list SimpleFilter) :
  (forall f, filter_id (update f) = filter_id f) ->
  List.map filter_id (replaceFilter filterId update fs) = List.map filter_id fs.
Proof.
  intros Hid. induction fs as [|f rest IH]; [ reflexivity | ].
  cbn [replaceFilter]. destruct (String.eqb (filter_id f) filterId); cbn [List.map].
  - rewrite Hid. reflexivity.
  - rewrite IH. reflexivity.
Qed.

Lemma replaceFilter_others (filterId : string)
    (update : SimpleFilter -> SimpleFilter) (fs : list SimpleFilter)
    (i : nat) (f : SimpleFilter) :
  fs !! i = Some f ->
  filter_id f <> filterId ->
  replaceFilter filterId update fs !! i = Some f.
Proof.
  revert i. induction fs as [|g rest IH]; intros i Hi Hne; [ discriminate | ].
  cbn [replaceFilter].
  destruct (String.eqb_spec (filter_id g) filterId) as [Heq | _].
  - destruct i as [|i]; [ | exact Hi ].
    injection Hi as ->. contradiction.
  - destruct i as [|i]; [ exact Hi | ]. apply IH; assumption.
Qed.

(** [updateFilter] keeps the ids, the order and the number of the
    active predicates and every predicate of another id; the query-mode
    flag stays as it was.  With an id that no active predicate has, the
    predicates are the same ones in the same order. *)
Theorem updateFilter_keeps_ids_and_order (filterId a : string)
    (op : FilterOperator) (raw : JsVal) (s : DocumentsState) :
  let s' := fst (updateFilter filterId a op raw s) in
  List.map filter_id (activeFilters s') = List.map filter_id (activeFilters s) /\
  (forall i f, activeFilters s !! i = Some f -> filter_id f <> filterId ->
     activeFilters s' !! i = Some f) /\
  isQueryMode s' = isQueryMode s.
Proof.
  cbv zeta. unfold updateFilter. cbn [fst].
  split; [ | split ]; [ | | reflexivity ].
  - apply replaceFilter_ids. reflexivity.
  - intros i f Hi Hne. apply replaceFilter_others; assumption.
Qed.

(** ** Blank texts *)

Lemma trimStartChars_nil (cs : list ascii) :
  trimStartChars cs = [] <-> forallb isWhiteSpace cs = true.
Proof.
  induction cs as [|c rest IH]; cbn [trimStartChars forallb].
  - split; reflexivity.
  - destruct (isWhiteSpace c); cbn [andb]; [ exact IH | ].
    split; discriminate.
Qed.

Lemma trimStartChars_head (cs : list ascii) :
  match trimStartChars cs with
  | c :: _ => isWhiteSpace c = false
  | [] => True
  end.
Proof.
  induction cs as [|c rest IH]; cbn [trimStartChars]; [ exact I | ].
  destruct (isWhiteSpace c) eqn:Hc; [ exact IH | exact Hc ].
Qed.

(** The texts that [trim] empties are the texts of white space only. *)
Lemma trim_blank (text : string) :
  trim text = "" <-> forallb isWhiteSpace (list_ascii_of_string text) = true.
Proof.
  unfold trim. split.
  - intros Hempty.
    assert (Hrev : rev (trimStartChars
                          (rev (trimStartChars (list_ascii_of_string text)))) = []).
    { destruct (rev _) as [|c l]; [ reflexivity | discriminate Hempty ]. }
    apply (f_equal (@rev ascii)) in Hrev. rewrite rev_involutive in Hrev.
    cbn [rev] in Hrev. apply trimStartChars_nil in Hrev.
    apply trimStartChars_nil.
    pose proof (trimStartChars_head (list_ascii_of_string text)) as Hhead.
    destruct (trimStartChars (list_ascii_of_string text)) as [|c l];
      [ reflexivity | ].
    cbn [rev] in Hrev. rewrite forallb_app in Hrev.
    cbn [forallb] in Hrev. rewrite Hhead in Hrev.
    rewrite andb_false_r in Hrev. discriminate Hrev.
  - intros Hblank. apply trimStartChars_nil in Hblank.
    rewrite Hblank. reflexivity.
Qed.

(** ** The query-mode flag *)

(** A search text of white space only (a text that [trim] empties, see
    [trim_blank]), with no active predicate, sets the query-mode flag,
    while the load it schedules takes the listing path: it counts and
    lists the whole namespace. *)
Theorem blank_search_text_lists_the_namespace (text : string)
    (s : DocumentsState) (limit : Z) :
  text <> "" ->
  trim text = "" ->
  activeFilters s = [] ->
  let s' := fst (setSearchText text s) in
  isQueryMode s' = true /\
  shouldUseQueryMode s' = false /\
  countRequest s' = totalCountRequest /\
  primaryRequest s' limit 1 = Some (listRequest JUndefined limit).
Proof.
  intros Hne Hblank Hfilters s'.
  assert (Hflag : isQueryMode s' = true).
  { subst s'. unfold setSearchText. cbn [fst].
    change (isQueryMode _) with ((0 <? String.length text)%nat
                                 || (0 <? length (activeFilters s))%nat).
    destruct text; [ congruence | reflexivity ]. }
  assert (Hmode : shouldUseQueryMode s' = false).
  { subst s'. unfold shouldUseQueryMode, setSearchText. cbn [fst].
    change (searchText _) with text. change (activeFilters _) with (activeFilters s).
    rewrite Hblank, Hfilters. reflexivity. }
  split; [ exact Hflag | ]. split; [ exact Hmode | ].
  split.
  - unfold countRequest. rewrite Hmode. reflexivity.
  - rewrite primaryRequest_browse_mode by exact Hmode.
    rewrite paginationCursor_first_page; [ reflexivity | ].
    subst s'. unfold setSearchText. cbn [fst].
    change (currentPage _) with 1. lia.
Qed.

End StoreFacts.

(** * Properties of the other actions *)

Section ActionFacts.

Context {RT : Runtime} {UT : Utilities}.

(** ** Clearing the filters *)

(** [clearFilters] and [clearAllFilters] leave the same state: no
    search text, no predicate, the flag down and the pagination reset.
    Both schedule the forced load of page 1, and every call of that
    load is the count of the whole namespace or its listing from the
    start, with the page size of the state. *)
Theorem cleared_filters_list_the_namespace (w : Services) (s : DocumentsState)
    (ns : string) (q : QueryRequest) :
  let s' := fst (clearAllFilters s) in
  fst (clearFilters s) = s' /\
  In (SetTimeout 0 LoadFirstPage) (snd (clearFilters s)) /\
  In (SetTimeout 0 LoadFirstPage) (snd (clearAllFilters s)) /\
  shouldUseQueryMode s' = false /\
  isQueryMode s' = false /\
  (currentPage s', previousCursors s', nextCursor s') = (1, [], None) /\
  (In (ns, q) (calls (loadFirstPage w s')) ->
   currentNamespaceId s = Some ns /\
   (q = totalCountRequest \/ q = listRequest JUndefined (pageSize s))).
Proof.
  cbv zeta.
  assert (Hmode : shouldUseQueryMode (fst (clearAllFilters s)) = false)
    by reflexivity.
  split; [ reflexivity | ].
  split; [ cbn; auto | ]. split; [ cbn; auto | ].
  split; [ exact Hmode | ]. split; [ reflexivity | ]. split; [ reflexivity | ].
  intros Hin. unfold loadFirstPage in Hin.
  destruct (calls_are_compiled w true false _ 1 _ ns q Hin) as (Hns & Hq).
  split; [ exact Hns | ].
  destruct Hq as [Hq | Hq].
  - left. rewrite Hq. unfold countRequest. rewrite Hmode. reflexivity.
  - right. rewrite primaryRequest_browse_mode in Hq by exact Hmode.
    rewrite paginationCursor_first_page in Hq
      by (change (currentPage (fst (clearAllFilters s))) with 1; lia).
    injection Hq as <-. reflexivity.
Qed.

(** ** Changing the namespace *)

(** A load that the guards refuse shows the rows that were shown. *)
Lemma blocked_load_keeps_rows (w : Services) (force loadMore : bool)
    (limit page : Z) (s : DocumentsState) :
  passesGuards w s = false ->
  documents (final (loadDocuments w force loadMore limit page s)) = documents s.
Proof.
  unfold passesGuards, missing, loadDocuments. intros H.
  destruct (currentNamespaceId s) as [ns|]; [ | reflexivity ].
  destruct (nonEmpty ns); [ | reflexivity ].
  destruct (isLoading s); [ reflexivity | ].
  destruct (isClientInitialized s);
    [ destruct (getClient w); [ discriminate | ] | ];
    cbv beta iota zeta delta [negb orb final];
    destruct (missing (error s)); reflexivity.
Qed.

(** Setting the namespace that is already set changes nothing.  Setting
    another one empties the rows and resets the filters, and marks the
    client as not initialized: until [initializeClient] succeeds, no
    load calls the backend.  The ranking mode, the ranking expression,
    the aggregations, the page size and the result cache are not
    touched.  After [reset], which leaves no namespace, every load is
    skipped. *)
Theorem namespace_switch_refuses_loads (namespaceId : option string)
    (st : Store) (w : Services) (force loadMore : bool) (limit page : Z) :
  let st' := fst (setNamespace namespaceId st) in
  let r := loadDocuments w force loadMore limit page (core st') in
  let r0 := loadDocuments w force loadMore limit page (core (reset st)) in
  (sameNullable (currentNamespaceId (core st)) namespaceId = true ->
   setNamespace namespaceId st = (st, None)) /\
  (sameNullable (currentNamespaceId (core st)) namespaceId = false ->
   currentNamespaceId (core st') = namespaceId /\
   documents (core st') = [] /\
   shouldUseQueryMode (core st') = false /\
   initializationAttempts st' = 0 /\
   calls r = [] /\
   documents (final r) = [] /\
   (outcome r = Skipped \/ outcome r = NotInitialized) /\
   (rankingMode (core st'), rankingExpression (core st'),
    aggregations (core st'), pageSize (core st'), documentsCache (core st'))
   = (rankingMode (core st), rankingExpression (core st),
      aggregations (core st), pageSize (core st), documentsCache (core st))) /\
  (r0 = {| final := core (reset st); calls := []; outcome := Skipped |} /\
   documents (core (reset st)) = [] /\
   documentsCache (core (reset st)) = ∅).
Proof.
  cbv zeta. split; [ | split ].
  - unfold setNamespace.
    destruct (sameNullable (currentNamespaceId (core st)) namespaceId);
      [ reflexivity | discriminate ].
  - unfold setNamespace.
    destruct (sameNullable (currentNamespaceId (core st)) namespaceId);
      [ discriminate | ].
    intros _. cbn [fst].
    match goal with
    | |- context [loadDocuments w force loadMore limit page ?s] =>
        set (s' := s)
    end.
    assert (Hg : passesGuards w s' = false).
    { unfold passesGuards. change (isClientInitialized s') with false.
      rewrite andb_false_r. reflexivity. }
    destruct (loadDocuments_blocked w force loadMore limit page s' Hg)
      as (Hcalls & Hout).
    pose proof (blocked_load_keeps_rows w force loadMore limit page s' Hg)
      as Hrows.
    split; [ reflexivity | ]. split; [ reflexivity | ].
    split; [ reflexivity | ]. split; [ reflexivity | ].
    split; [ exact Hcalls | ]. split; [ exact Hrows | ].
    split; [ exact Hout | reflexivity ].
  - repeat split.
Qed.

(** ** The retry limit of the client *)

(** One call of [initializeClient] that finds no client and a
    connection that fails. *)
Lemma initializeClient_failing (e : Thrown) (st : Store) :
  let r := initializeClient false (RejectedWith e) st in
  let exhausted := maxInitAttempts st <=? initializationAttempts st in
  attempted r = negb exhausted /\
  initialized r = false /\
  maxInitAttempts (initialized_store r) = maxInitAttempts st /\
  initializationAttempts (initialized_store r)
  = (if exhausted then initializationAttempts st
     else initializationAttempts st + 1) /\
  (exhausted = true ->
   error (core (initialized_store r))
   = Some ("Failed to initialize after " +:+ showInt (maxInitAttempts st) +:+
           " attempts. Please check your connection.")).
Proof.
  cbv zeta. unfold initializeClient. rewrite andb_false_r.
  destruct (maxInitAttempts st <=? initializationAttempts st);
    repeat split; (reflexivity || discriminate).
Qed.

(** One call of [initializeClient] that has an attempt left and
    connects. *)
Lemma initializeClient_connects (clientPresent : bool) (st : Store) :
  isClientInitialized (core st) && clientPresent = false ->
  initializationAttempts st < maxInitAttempts st ->
  let r := initializeClient clientPresent Resolved st in
  attempted r = true /\
  initialized r = true /\
  isClientInitialized (core (initialized_store r)) = true /\
  error (core (initialized_store r)) = None /\
  initializationAttempts (initialized_store r) = 0.
Proof.
  intros Hclient Hleft. cbv zeta. unfold initializeClient. rewrite Hclient.
  destruct (Z.leb_spec (maxInitAttempts st) (initializationAttempts st));
    [ lia | ].
  repeat split.
Qed.

(** The connection is tried at most [maxInitAttempts] times in a row.
    Of any number of calls of [initializeClient] that each find the
    connection failing, the ones that try the connection are the first
    ones, as many as attempts were left; the counter stops at the
    limit, and every call past it only writes the message of the
    failed initialization.  After [resetInitialization] the next call
    tries again, and a call that connects sets the client flag, clears
    the error and puts the counter back to 0. *)
Theorem initialization_attempts_are_bounded (errors : list Thrown) (st : Store) :
  0 <= initializationAttempts st <= maxInitAttempts st ->
  let left := Z.to_nat (maxInitAttempts st - initializationAttempts st) in
  let st' := fst (initializeFailing errors st) in
  snd (initializeFailing errors st) = Nat.min (length errors) left /\
  initializationAttempts st'
  = Z.min (maxInitAttempts st)
      (initializationAttempts st + Z.of_nat (length errors)) /\
  maxInitAttempts st' = maxInitAttempts st /\
  ((left < length errors)%nat ->
   error (core st')
   = Some ("Failed to initialize after " +:+ showInt (maxInitAttempts st) +:+
           " attempts. Please check your connection.")) /\
  (0 < maxInitAttempts st ->
   forall clientPresent,
     let r := initializeClient clientPresent Resolved (resetInitialization st') in
     isClientInitialized (core st') && clientPresent = false ->
     attempted r = true /\
     initialized r = true /\
     isClientInitialized (core (initialized_store r)) = true /\
     error (core (initialized_store r)) = None /\
     initializationAttempts (initialized_store r) = 0).
Proof.
  cbv zeta. intros Hbound.
  assert (Hseq :
    snd (initializeFailing errors st)
    = Nat.min (length errors)
        (Z.to_nat (maxInitAttempts st - initializationAttempts st)) /\
    initializationAttempts (fst (initializeFailing errors st))
    = Z.min (maxInitAttempts st)
        (initializationAttempts st + Z.of_nat (length errors)) /\
    maxInitAttempts (fst (initializeFailing errors st)) = maxInitAttempts st /\
    ((Z.to_nat (maxInitAttempts st - initializationAttempts st)
      < length errors)%nat ->
     error (core (fst (initializeFailing errors st)))
     = Some ("Failed to initialize after " +:+ showInt (maxInitAttempts st) +:+
             " attempts. Please check your connection."))).
  { revert st Hbound. induction errors as [|e rest IH]; intros st Hbound.
    - cbn [initializeFailing fst snd length]. repeat split; try lia.
    - cbn [initializeFailing length].
      destruct (initializeClient_failing e st) as (Ha & _ & Hm & Hn & He).
      set (r := initializeClient false (RejectedWith e) st) in *.
      specialize (IH (initialized_store r)).
      destruct (initializeFailing rest (initialized_store r)) as [st' n] eqn:Hrest.
      cbn [fst snd] in IH |- *. rewrite Hm, Hn in IH. rewrite Ha.
      destruct (Z.leb_spec (maxInitAttempts st) (initializationAttempts st))
        as [Hex | Hleft]; cbn [negb].
      + destruct (IH ltac:(lia)) as (IHn & IHa & IHm & IHe).
        split; [ lia | ]. split; [ lia | ]. split; [ exact IHm | ].
        intros _. destruct rest as [|e' rest'].
        * cbn [initializeFailing] in Hrest. injection Hrest as <- <-.
          exact (He eq_refl).
        * apply IHe. cbn [length]. lia.
      + destruct (IH ltac:(lia)) as (IHn & IHa & IHm & IHe).
        split; [ lia | ]. split; [ lia | ]. split; [ exact IHm | ].
        intros Hlen. apply IHe. lia. }
  destruct Hseq as (Hn & Ha & Hm & He).
  split; [ exact Hn | ]. split; [ exact Ha | ]. split; [ exact Hm | ].
  split; [ exact He | ].
  intros Hpos clientPresent Hclient.
  apply initializeClient_connects; [ exact Hclient | ].
  change (initializationAttempts (resetInitialization ?x)) with 0.
  change (maxInitAttempts (resetInitialization ?x)) with (maxInitAttempts x).
  rewrite Hm. exact Hpos.
Qed.

(** ** From a namespace switch to the first load *)

(** What [setNamespace] leaves when the namespace is another one. *)
Lemma setNamespace_switched (namespaceId : option string) (st : Store) :
  sameNullable (currentNamespaceId (core st)) namespaceId = false ->
  let st' := fst (setNamespace namespaceId st) in
  currentNamespaceId (core st') = namespaceId /\
  isLoading (core st') = isLoading (core st) /\
  isClientInitialized (core st') = false /\
  shouldUseQueryMode (core st') = false /\
  currentPage (core st') = 1 /\
  initializationAttempts st' = 0 /\
  maxInitAttempts st' = maxInitAttempts st.
Proof.
  intros Hother. cbv zeta. unfold setNamespace. rewrite Hother.
  repeat split; reflexivity.
Qed.

(** The state that a call of [initializeClient] that connects leaves. *)
Lemma initializeClient_connected_core (clientPresent : bool) (st : Store) :
  isClientInitialized (core st) && clientPresent = false ->
  initializationAttempts st < maxInitAttempts st ->
  core (initialized_store (initializeClient clientPresent Resolved st))
  = (core st) <| isClientInitialized := true |> <| error := None |>.
Proof.
  intros Hclient Hleft. unfold initializeClient. rewrite Hclient.
  destruct (Z.leb_spec (maxInitAttempts st) (initializationAttempts st));
    [ lia | ].
  reflexivity.
Qed.

(** The first load of a listing, once the client is there. *)
Lemma first_load_of_listing (w : Services) (limit : Z) (s : DocumentsState)
    (n ns : string) (q : QueryRequest) :
  currentNamespaceId s = Some n ->
  nonEmpty n = true ->
  isLoading s = false ->
  getClient w = true ->
  shouldUseQueryMode s = false ->
  currentPage s = 1 ->
  let s' := s <| isClientInitialized := true |> <| error := None |> in
  let r := loadDocuments w false false limit 1 s' in
  outcome r <> Skipped /\
  outcome r <> NotInitialized /\
  (In (ns, q) (calls r) ->
   ns = n /\ (q = totalCountRequest \/ q = listRequest JUndefined limit)).
Proof.
  intros Hns Hn Hl Hclient Hmode Hpage s' r.
  assert (Hns' : currentNamespaceId s' = Some n) by exact Hns.
  assert (Hmode' : shouldUseQueryMode s' = false) by exact Hmode.
  assert (Hpage' : currentPage s' = 1) by exact Hpage.
  assert (Hg : passesGuards w s' = true).
  { unfold passesGuards, missing. rewrite Hns', Hn, Hclient.
    change (isLoading s') with (isLoading s). rewrite Hl. reflexivity. }
  clearbody s'. subst r.
  split; [ | split ].
  - rewrite (loadDocuments_guarded w false false limit 1 s' n Hg Hns').
    destruct (servedFromCache w false limit 1 s'); [ discriminate | ].
    unfold settle.
    destruct (snd (tryFetch w n false limit 1 s' (beginLoad limit s')));
      discriminate.
  - rewrite (loadDocuments_guarded w false false limit 1 s' n Hg Hns').
    destruct (servedFromCache w false limit 1 s'); [ discriminate | ].
    unfold settle.
    destruct (snd (tryFetch w n false limit 1 s' (beginLoad limit s')));
      discriminate.
  - intros Hin.
    destruct (calls_are_compiled w false false limit 1 s' ns q Hin) as (Hq1 & Hq).
    split; [ congruence | ].
    destruct Hq as [Hq | Hq].
    + left. rewrite Hq. unfold countRequest. rewrite Hmode'. reflexivity.
    + right. rewrite primaryRequest_browse_mode in Hq by exact Hmode'.
      rewrite paginationCursor_first_page in Hq by lia.
      injection Hq as <-. reflexivity.
Qed.

(** The page opens a namespace by [setNamespace], [initializeClient]
    and a non-forced load.  With no load in flight and an attempt left,
    once the client connects the load is not refused, and every call
    it makes goes to the new namespace and is the count of the whole
    namespace or its listing from the start. *)
Theorem namespace_switch_then_first_load (n : string) (st : Store)
    (clientPresent : bool) (w : Services) (limit : Z)
    (ns : string) (q : QueryRequest) :
  nonEmpty n = true ->
  sameNullable (currentNamespaceId (core st)) (Some n) = false ->
  isLoading (core st) = false ->
  0 < maxInitAttempts st ->
  getClient w = true ->
  let st1 := fst (setNamespace (Some n) st) in
  let r1 := initializeClient clientPresent Resolved st1 in
  let r2 := loadDocuments w false false limit 1 (core (initialized_store r1)) in
  initialized r1 = true /\
  outcome r2 <> Skipped /\
  outcome r2 <> NotInitialized /\
  (In (ns, q) (calls r2) ->
   ns = n /\ (q = totalCountRequest \/ q = listRequest JUndefined limit)).
Proof.
  intros Hn Hother Hl Hmax Hclient st1 r1.
  destruct (setNamespace_switched (Some n) st Hother)
    as (Sn & Sl & Si & Sm & Sp & Sa & Sx).
  fold st1 in Sn, Sl, Si, Sm, Sp, Sa, Sx.
  assert (Hinit : isClientInitialized (core st1) && clientPresent = false)
    by (rewrite Si; reflexivity).
  assert (Hleft : initializationAttempts st1 < maxInitAttempts st1) by lia.
  destruct (initializeClient_connects clientPresent st1 Hinit Hleft)
    as (_ & Hr & _).
  fold r1 in Hr.
  pose proof (initializeClient_connected_core clientPresent st1 Hinit Hleft)
    as Hcore.
  fold r1 in Hcore. rewrite Hcore. clearbody r1 st1.
  split; [ exact Hr | ].
  apply first_load_of_listing; congruence.
Qed.

(** ** Deleting rows *)

(** After [deleteDocuments] succeeded, the rows shown are the rows that
    were shown whose key is none of the deleted ones, in their order;
    the total, when known, went down by the number of keys given and
    not below 0; the selection and the result cache are empty.  After
    it failed, the rows, the total and the cache are as they were, the
    error is the message of what was thrown, and it is thrown again. *)
Theorem deleted_rows_are_gone (ids : list JsVal) (st : Store) :
  missing (currentNamespaceId (core st)) = false ->
  let st' := after (deleteDocuments Resolved ids st) in
  (forall doc,
     In doc (documents (core st')) <->
     In doc (documents (core st)) /\
     forall id, In id ids -> sameKey id (doc_id doc) = false) /\
  (totalCount (core st) = None -> totalCount (core st') = None) /\
  (forall total, totalCount (core st) = Some total ->
     exists total',
       totalCount (core st') = Some total' /\
       0 <= total' /\
       (Z.of_nat (length ids) <= total ->
        total' = total - Z.of_nat (length ids))) /\
  selectedDocuments st' = [] /\
  documentsCache (core st') = ∅ /\
  forall e,
    let failed := deleteDocuments (RejectedWith e) ids st in
    rethrown failed = Some e /\
    error (core (after failed)) = Some (errorMessage e "Failed to delete documents") /\
    (documents (core (after failed)), totalCount (core (after failed)),
     documentsCache (core (after failed)))
    = (documents (core st), totalCount (core st), documentsCache (core st)).
Proof.
  intros Hns. cbv zeta. unfold deleteDocuments. rewrite Hns.
  cbn [after rethrown].
  split; [ | split; [ | split; [ | split; [ | split ] ] ] ];
    try reflexivity.
  - intros doc.
    change (documents (core _)) with
      (List.filter
         (fun doc => negb (existsb (fun id => sameKey id (doc_id doc)) ids))
         (documents (core st))) at 1.
    rewrite filter_In, negb_true_iff.
    split; intros (Hin & Hnone); (split; [ exact Hin | ]).
    + intros id Hid.
      destruct (sameKey id (doc_id doc)) eqn:Hsame; [ | reflexivity ].
      assert (Hex : existsb (fun id => sameKey id (doc_id doc)) ids = true)
        by (apply existsb_exists; exists id; auto).
      congruence.
    + destruct (existsb (fun id => sameKey id (doc_id doc)) ids) eqn:Hex;
        [ | reflexivity ].
      apply existsb_exists in Hex. destruct Hex as (id & Hid & Hsame).
      rewrite (Hnone id Hid) in Hsame. discriminate.
  - intros Hnone.
    change (totalCount (core _)) with
      ((fun n => Z.max 0 (n - Z.of_nat (length ids))) <$> totalCount (core st)).
    rewrite Hnone. reflexivity.
  - intros total Htotal.
    change (totalCount (core _)) with
      ((fun n => Z.max 0 (n - Z.of_nat (length ids))) <$> totalCount (core st)).
    rewrite Htotal. eexists. split; [ reflexivity | ]. cbv beta. lia.
  - intros e. repeat split.
Qed.

(** ** Updating a row *)

Lemma getProperty_setProperty (k k' : string) (v : JsVal)
    (o : list (string * JsVal)) :
  getProperty k' (setProperty k v o)
  = if String.eqb k k' then Some v else getProperty k' o.
Proof.
  unfold getProperty. induction o as [|[k0 v0] rest IH]; cbn [setProperty].
  - cbn. destruct (String.eqb k k'); reflexivity.
  - destruct (String.eqb_spec k0 k) as [-> | Hne]; cbn [List.find fst].
    + destruct (String.eqb k k'); reflexivity.
    + destruct (String.eqb_spec k0 k') as [-> | Hne'].
      * destruct (String.eqb_spec k k'); [ congruence | reflexivity ].
      * exact IH.
Qed.

Lemma getProperty_app (k : string) (o o' : list (string * JsVal)) :
  getProperty k (o ++ o')
  = match getProperty k o with
    | Some v => Some v
    | None => getProperty k o'
    end.
Proof.
  unfold getProperty. induction o as [|[k0 v0] rest IH]; [ reflexivity | ].
  cbn [app List.find fst]. destruct (String.eqb k0 k); [ reflexivity | exact IH ].
Qed.

(** The value of a key in [{ ...o, ...update }]: the one in [update]
    when the key is there (the last one, should a key come twice),
    the one in [o] otherwise. *)
Lemma getProperty_spread (k : string) (o update : list (string * JsVal)) :
  getProperty k (spread o update)
  = match getProperty k (rev update) with
    | Some v => Some v
    | None => getProperty k o
    end.
Proof.
  unfold spread. revert o. induction update as [|[k0 v0] rest IH]; intros o.
  - reflexivity.
  - cbn [fold_left fst snd rev]. rewrite IH, getProperty_app.
    destruct (getProperty k (rev rest)); [ reflexivity | ].
    rewrite getProperty_setProperty.
    assert (Hone : getProperty k [(k0, v0)]
                   = if String.eqb k0 k then Some v0 else None)
      by (unfold getProperty; cbn; destruct (String.eqb k0 k); reflexivity).
    rewrite Hone. destruct (String.eqb k0 k); reflexivity.
Qed.

Lemma mergeIntoFirst_spec (id : JsVal) (attrs : list (string * JsVal))
    (docs : list Document) (i : nat) (doc : Document) :
  docs !! i = Some doc ->
  sameKey (doc_id doc) id = true ->
  (forall j d, (j < i)%nat -> docs !! j = Some d -> sameKey (doc_id d) id = false) ->
  mergeIntoFirst id attrs docs !! i
  = Some {| doc_id := doc_id doc;
            doc_attributes := spread (doc_attributes doc) attrs |} /\
  (forall j, j <> i -> mergeIntoFirst id attrs docs !! j = docs !! j) /\
  length (mergeIntoFirst id attrs docs) = length docs.
Proof.
  revert i. induction docs as [|d rest IH]; intros i Hi Hsame Hfirst;
    [ discriminate | ].
  cbn [mergeIntoFirst]. destruct i as [|i].
  - injection Hi as ->. rewrite Hsame.
    split; [ reflexivity | ]. split; [ | reflexivity ].
    intros [|j] Hj; [ congruence | reflexivity ].
  - rewrite (Hfirst 0%nat d ltac:(lia) eq_refl).
    destruct (IH i Hi Hsame) as (IHi & IHj & IHl).
    { intros j d' Hj Hd'. apply (Hfirst (S j) d'); [ lia | exact Hd' ]. }
    split; [ exact IHi | ]. split; [ | cbn [length]; rewrite IHl; reflexivity ].
    intros [|j] Hj; [ reflexivity | ]. apply IHj. congruence.
Qed.

(** After [updateDocument] succeeded, the first row shown under the key
    keeps its key and its place, and each of its attributes has the
    value given for it, or the value it had when none was given; the
    other rows are as they were, and the result cache is empty. *)
Theorem updated_attributes_win (id : JsVal) (attrs : list (string * JsVal))
    (st : Store) (i : nat) (doc : Document) :
  missing (currentNamespaceId (core st)) = false ->
  documents (core st) !! i = Some doc ->
  sameKey (doc_id doc) id = true ->
  (forall j d, (j < i)%nat -> documents (core st) !! j = Some d ->
     sameKey (doc_id d) id = false) ->
  let st' := after (updateDocument Resolved id attrs st) in
  exists doc',
    documents (core st') !! i = Some doc' /\
    doc_id doc' = doc_id doc /\
    (forall k,
       getProperty k (doc_attributes doc')
       = match getProperty k (rev attrs) with
         | Some v => Some v
         | None => getProperty k (doc_attributes doc)
         end) /\
    (forall j, j <> i ->
       documents (core st') !! j = documents (core st) !! j) /\
    length (documents (core st')) = length (documents (core st)) /\
    documentsCache (core st') = ∅.
Proof.
  intros Hns Hi Hsame Hfirst. cbv zeta.
  assert (Hrows : documents (core (after (updateDocument Resolved id attrs st)))
                  = mergeIntoFirst id attrs (documents (core st)))
    by (unfold updateDocument; rewrite Hns; reflexivity).
  assert (Hcache : documentsCache
                     (core (after (updateDocument Resolved id attrs st))) = ∅)
    by (unfold updateDocument; rewrite Hns; reflexivity).
  rewrite Hrows, Hcache.
  destruct (mergeIntoFirst_spec id attrs (documents (core st)) i doc Hi Hsame
              Hfirst) as (Mi & Mj & Ml).
  eexists. split; [ exact Mi | ]. split; [ reflexivity | ].
  split; [ intros k; apply getProperty_spread | ].
  split; [ exact Mj | ]. split; [ exact Ml | reflexivity ].
Qed.

(** ** Importing rows *)

(** The reload that [importDocuments] awaits finds the load flag up. *)
Lemma importDocuments_resolved (w : Services) (docs : list Document)
    (st : Store) :
  missing (currentNamespaceId (core st)) = false ->
  importDocuments w Resolved docs st
  = ({| after :=
          st <| core := (core st) <| isLoading := true |>
                                  <| error := None |>
                                  <| documentsCache := ∅ |>
                                  <| isLoading := false |> |>
             <| attributesCache := ∅ |>;
        called := true; rethrown := None |}, []).
Proof.
  intros Hns. unfold importDocuments. rewrite Hns.
  match goal with
  | |- context [loadDocuments w true false ?l 1 ?s] =>
      assert (Hskip : loadDocuments w true false l 1 s
                      = {| final := s; calls := []; outcome := Skipped |})
  end.
  { unfold loadDocuments.
    match goal with
    | |- context [currentNamespaceId ?s] =>
        change (currentNamespaceId s) with (currentNamespaceId (core st));
        change (isLoading s) with true
    end.
    destruct (currentNamespaceId (core st)); [ | reflexivity ].
    rewrite orb_true_r. reflexivity. }
  rewrite Hskip. reflexivity.
Qed.

(** [importDocuments] raises [isLoading] before it awaits the write,
    and the reload it then awaits finds a load in flight: the reload
    is skipped.  After a successful import no query was sent and the
    rows, the total and the page are the ones shown before; the flag is
    down again, the error cleared and both caches empty. *)
Theorem import_does_not_reload (w : Services) (docs : list Document)
    (st : Store) :
  missing (currentNamespaceId (core st)) = false ->
  let r := importDocuments w Resolved docs st in
  let s' := core (after (fst r)) in
  snd r = [] /\
  called (fst r) = true /\
  rethrown (fst r) = None /\
  documents s' = documents (core st) /\
  totalCount s' = totalCount (core st) /\
  currentPage s' = currentPage (core st) /\
  isLoading s' = false /\
  error s' = None /\
  documentsCache s' = ∅ /\
  attributesCache (after (fst r)) = ∅.
Proof.
  intros Hns. cbv zeta. rewrite (importDocuments_resolved w docs st Hns).
  repeat split.
Qed.

(** ** Writes and the result cache *)

Lemma empty_cache_never_hits (w : Services) (force loadMore : bool)
    (limit page : Z) (s : DocumentsState) :
  documentsCache s = ∅ ->
  outcome (loadDocuments w force loadMore limit page s) <> CacheHit.
Proof.
  intros Hempty Hout.
  destruct (cache_hit_inv w force loadMore limit page s Hout)
    as (cached & Hserved & _).
  unfold servedFromCache in Hserved. rewrite Hempty, lookup_empty in Hserved.
  destruct force; discriminate.
Qed.

(** After a successful [deleteDocuments], [updateDocument] or
    [importDocuments], and after [clearCache], no load is answered from
    the result cache. *)
Theorem writes_invalidate_the_cache (w w0 : Services) (force loadMore : bool)
    (limit page : Z) (ids : list JsVal) (id : JsVal)
    (attrs : list (string * JsVal)) (docs : list Document) (st : Store) :
  missing (currentNamespaceId (core st)) = false ->
  let answered s :=
    outcome (loadDocuments w force loadMore limit page s) = CacheHit in
  ~ answered (core (after (deleteDocuments Resolved ids st))) /\
  ~ answered (core (after (updateDocument Resolved id attrs st))) /\
  ~ answered (core (after (fst (importDocuments w0 Resolved docs st)))) /\
  ~ answered (core (clearCache st)).
Proof.
  intros Hns. cbv zeta.
  rewrite (importDocuments_resolved w0 docs st Hns).
  unfold deleteDocuments, updateDocument. rewrite Hns. cbn [after fst].
  repeat split; apply empty_cache_never_hits; reflexivity.
Qed.

(** ** Raw query results *)

(** The raw query bar clears the rows, then shows the rows of the
    answer with their number as total; the search text and the
    predicates are cleared, and the query-mode flag, the page and the
    cursor stack stay as they are.  A load of a later page from there
    lists the namespace after the key of the last raw row: the raw
    query is not asked again. *)
Theorem paging_after_raw_query_lists_the_namespace (docs : list Document)
    (queryResponse : option DocumentsQueryResponse) (s : DocumentsState)
    (limit page : Z) :
  docs <> [] ->
  currentPage s < page ->
  let s' := setRawQueryResults docs queryResponse (clearDocuments s) in
  documents (clearDocuments s) = [] /\
  documents s' = docs /\
  totalCount s' = Some (Z.of_nat (length docs)) /\
  shouldUseQueryMode s' = false /\
  (isQueryMode s', currentPage s', previousCursors s')
  = (isQueryMode s, currentPage s, previousCursors s) /\
  countRequest s' = totalCountRequest /\
  primaryRequest s' limit page
  = Some (listRequest (cursorFilter (lastId docs)) limit).
Proof.
  intros Hdocs Hpage s'.
  assert (Hmode : shouldUseQueryMode s' = false) by reflexivity.
  assert (Hrows : documents s' = docs) by reflexivity.
  assert (Hcur : currentPage s' = currentPage s) by reflexivity.
  split; [ reflexivity | ].
  split; [ exact Hrows | ]. split; [ reflexivity | ].
  split; [ exact Hmode | ]. split; [ reflexivity | ].
  clearbody s'.
  split; [ unfold countRequest; rewrite Hmode; reflexivity | ].
  rewrite primaryRequest_browse_mode by exact Hmode.
  rewrite paginationCursor_forward by lia.
  rewrite Hrows. destruct docs; [ congruence | reflexivity ].
Qed.

(** ** The recent filters *)

Lemma sameFilter_refl (f : SimpleFilter) : sameFilter f f = true.
Proof.
  unfold sameFilter. rewrite !String.eqb_refl, bool_decide_eq_true_2; reflexivity.
Qed.

Lemma everyMatches_refl (fs : list SimpleFilter) : everyMatches fs fs = true.
Proof.
  induction fs as [|f rest IH]; [ reflexivity | ].
  cbn [everyMatches]. rewrite sameFilter_refl, IH. reflexivity.
Qed.

(** An entry is a duplicate of any entry with its search text and its
    filters. *)
Lemma isDuplicateOf_same (e e' : RecentFilterEntry) :
  recent_searchText e = recent_searchText e' ->
  recent_filters e = recent_filters e' ->
  isDuplicateOf e e' = true.
Proof.
  intros Ht Hf. unfold isDuplicateOf.
  rewrite Ht, Hf, String.eqb_refl, Nat.eqb_refl, everyMatches_refl. reflexivity.
Qed.

(** How [logFilterChange] ends: with the state as it was, or with the
    new entry put first under the key of the connection and the
    namespace. *)
Lemma logFilterChange_cases (newId : string) (time : Z) (saved : Awaited)
    (st : Store) :
  logFilterChange newId time saved st = st \/
  exists c n,
    historyScope (core st) = Some (c, n) /\
    saved = Resolved /\
    existsb (isDuplicateOf (recentEntry newId time (core st)))
      (default [] (recentFilterHistory st !! historyKey c n)) = false /\
    logFilterChange newId time saved st
    = st <| recentFilterHistory :=
              <[historyKey c n :=
                  firstn 30 (recentEntry newId time (core st)
                             :: default [] (recentFilterHistory st !! historyKey c n))]>
                (recentFilterHistory st) |>.
Proof.
  unfold logFilterChange.
  destruct (historyScope (core st)) as [[c n]|]; [ | auto ].
  destruct ((String.length (searchText (core st)) =? 0)%nat
            && (length (activeFilters (core st)) =? 0)%nat); [ auto | ].
  destruct saved; [ | auto ].
  destruct (existsb (isDuplicateOf (recentEntry newId time (core st)))
              (default [] (recentFilterHistory st !! historyKey c n))) eqn:Hdup;
    [ auto | ].
  right. exists c, n. auto.
Qed.

(** A filter that [logFilterChange] has logged can be applied again.
    When there is something to log, the write to disk succeeds and the
    combination is not in the list yet, the new entry is the first of
    at most 30 that [getNamespaceRecentHistory] returns.  Applied by
    its id from any state of that connection and namespace that holds
    the list, it puts back the search text and the predicates that
    were logged and raises the query-mode flag; it leaves the page and
    the cursor stack alone and schedules the forced load of page 1. *)
Theorem logged_filter_can_be_reapplied (newId : string) (time : Z)
    (st : Store) (c n : string) :
  historyScope (core st) = Some (c, n) ->
  searchText (core st) <> "" \/ activeFilters (core st) <> [] ->
  existsb (isDuplicateOf (recentEntry newId time (core st)))
    (getNamespaceRecentHistory st) = false ->
  let st1 := logFilterChange newId time Resolved st in
  getNamespaceRecentHistory st1
  = firstn 30 (recentEntry newId time (core st) :: getNamespaceRecentHistory st) /\
  (length (getNamespaceRecentHistory st1) <= 30)%nat /\
  forall st2,
    historyScope (core st2) = Some (c, n) ->
    recentFilterHistory st2 = recentFilterHistory st1 ->
    let applied := applyRecentFilter newId st2 in
    searchText (core (fst applied)) = searchText (core st) /\
    activeFilters (core (fst applied)) = activeFilters (core st) /\
    isQueryMode (core (fst applied)) = true /\
    (currentPage (core (fst applied)), previousCursors (core (fst applied)))
    = (currentPage (core st2), previousCursors (core st2)) /\
    snd applied = [SetTimeout 0 LoadFirstPage].
Proof.
  intros Hscope Hsome Hdup st1.
  unfold getNamespaceRecentHistory in Hdup |- *. rewrite Hscope in Hdup |- *.
  assert (Hlog : recentFilterHistory st1
                 = <[historyKey c n :=
                       firstn 30 (recentEntry newId time (core st)
                                  :: default [] (recentFilterHistory st
                                                 !! historyKey c n))]>
                     (recentFilterHistory st) /\
                 core st1 = core st).
  { subst st1. unfold logFilterChange. rewrite Hscope, Hdup.
    assert (Hnone : (String.length (searchText (core st)) =? 0)%nat
                    && (length (activeFilters (core st)) =? 0)%nat = false).
    { destruct Hsome as [Ht | Hf].
      - destruct (searchText (core st)); [ congruence | reflexivity ].
      - destruct (activeFilters (core st)); [ congruence | ].
        apply andb_false_r. }
    rewrite Hnone. split; reflexivity. }
  destruct Hlog as (Hlog & Hcore). clearbody st1.
  rewrite Hcore, Hscope, Hlog, lookup_insert_eq. cbn [from_option id].
  split; [ reflexivity | ]. split; [ apply firstn_le_length | ].
  intros st2 Hscope2 Hhist2.
  unfold applyRecentFilter. rewrite Hscope2, Hhist2, lookup_insert_eq.
  assert (Hfind : forall l,
            List.find (fun entry => String.eqb (recent_id entry) newId)
              (default [] (Some (firstn 30 (recentEntry newId time (core st) :: l))))
            = Some (recentEntry newId time (core st))).
  { intros l. cbn [from_option id firstn List.find].
    change (recent_id (recentEntry newId time (core st))) with newId.
    rewrite String.eqb_refl. reflexivity. }
  rewrite Hfind. cbn [fst snd].
  split; [ reflexivity | ]. split; [ reflexivity | ].
  split; [ | split; reflexivity ].
  match goal with
  | |- isQueryMode (core (_ <| core := ?s |>)) = true =>
      change (isQueryMode (core (st2 <| core := s |>))) with
        ((0 <? String.length (searchText (core st)))%nat
         || (0 <? length (activeFilters (core st)))%nat)
  end.
  destruct Hsome as [Ht | Hf].
  - destruct (searchText (core st)); [ congruence | reflexivity ].
  - destruct (activeFilters (core st)); [ congruence | apply orb_true_r ].
Qed.

(** The list of recent filters stays within 30 entries, and the
    combination just logged is not logged twice: whatever the first
    call did, a second call of [logFilterChange] on the state it left
    changes nothing. *)
Theorem recent_filters_are_bounded_and_not_repeated (id1 id2 : string)
    (t1 t2 : Z) (saved1 saved2 : Awaited) (st : Store) :
  let st1 := logFilterChange id1 t1 saved1 st in
  ((length (getNamespaceRecentHistory st) <= 30)%nat ->
   (length (getNamespaceRecentHistory st1) <= 30)%nat) /\
  (saved1 = Resolved -> logFilterChange id2 t2 saved2 st1 = st1).
Proof.
  cbv zeta.
  destruct (logFilterChange_cases id1 t1 saved1 st)
    as [Hsame | (c & n & Hscope & -> & Hdup & Hlog)].
  - rewrite Hsame. split; [ auto | ]. intros ->.
    destruct (logFilterChange_cases id2 t2 saved2 st)
      as [Hsame2 | (c & n & Hscope & -> & Hdup & Hlog)]; [ exact Hsame2 | ].
    exfalso. revert Hsame. unfold logFilterChange. rewrite Hscope.
    destruct ((String.length (searchText (core st)) =? 0)%nat
              && (length (activeFilters (core st)) =? 0)%nat) eqn:Hnone.
    + unfold logFilterChange in Hlog. rewrite Hscope, Hnone in Hlog.
      intros _.
      assert (Hlook : recentFilterHistory st !! historyKey c n
                      = Some (firstn 30
                                (recentEntry id2 t2 (core st)
                                 :: default [] (recentFilterHistory st
                                                !! historyKey c n))))
        by (rewrite Hlog at 1; apply lookup_insert_eq).
      rewrite Hlook in Hdup. cbn [from_option id firstn existsb] in Hdup.
      rewrite isDuplicateOf_same in Hdup by reflexivity. discriminate.
    + assert (Hdup1 : existsb (isDuplicateOf (recentEntry id1 t1 (core st)))
                        (default [] (recentFilterHistory st !! historyKey c n))
                      = false).
      { change (isDuplicateOf (recentEntry id1 t1 (core st)))
          with (isDuplicateOf (recentEntry id2 t2 (core st))).
        exact Hdup. }
      rewrite Hdup1. intros Hsame.
      assert (Hlook : recentFilterHistory st !! historyKey c n
                      = Some (firstn 30
                                (recentEntry id1 t1 (core st)
                                 :: default [] (recentFilterHistory st
                                                !! historyKey c n))))
        by (rewrite <- Hsame at 1; apply lookup_insert_eq).
      rewrite Hlook in Hdup1. cbn [from_option id firstn existsb] in Hdup1.
      rewrite isDuplicateOf_same in Hdup1 by reflexivity. discriminate.
  - rewrite Hlog. split.
    + intros _. unfold getNamespaceRecentHistory.
      change (core (_ <| recentFilterHistory := _ |>)) with (core st).
      rewrite Hscope.
      change (recentFilterHistory (_ <| recentFilterHistory := ?m |>)) with m.
      rewrite lookup_insert_eq. apply firstn_le_length.
    + intros _. unfold logFilterChange at 1.
      change (core (_ <| recentFilterHistory := _ |>)) with (core st).
      rewrite Hscope.
      change (recentFilterHistory (_ <| recentFilterHistory := ?m |>)) with m.
      rewrite lookup_insert_eq. cbn [from_option id firstn existsb].
      rewrite isDuplicateOf_same by reflexivity. cbn [orb].
      destruct ((String.length (searchText (core st)) =? 0)%nat
                && (length (activeFilters (core st)) =? 0)%nat);
        [ reflexivity | ].
      destruct saved2; reflexivity.
Qed.

(** ** The history menu *)

Lemma length_append (a b : string) :
  String.length (a +:+ b) = (String.length a + String.length b)%nat.
Proof.
  induction a as [|ch a IH]; [ reflexivity | ].
  change (S (String.length (a +:+ b))
          = S (String.length a + String.length b)).
  f_equal. exact IH.
Qed.

(** The key of the history is never the bare namespace id. *)
Lemma historyKey_not_namespace (c n : string) : historyKey c n <> n.
Proof.
  unfold historyKey. intros Heq.
  apply (f_equal String.length) in Heq.
  rewrite !length_append in Heq. cbn in Heq. lia.
Qed.

(** The history menu of the filter bar reads [recentFilterHistory]
    under the namespace id, while [logFilterChange] and the history
    loaded from disk are written under the key of connection and
    namespace: neither changes what the menu shows.  With nothing
    stored under the bare namespace id the menu is empty, whatever has
    been logged. *)
Theorem history_menu_misses_logged_filters (newId : string) (time : Z)
    (saved : Awaited) (st : Store) :
  recentHistoryShown (logFilterChange newId time saved st)
  = recentHistoryShown st /\
  (forall c fromDisk recent,
     currentConnectionId (core st) = Some c ->
     recentHistoryShown
       (queryHistoryLoaded c (default "" (currentNamespaceId (core st)))
          fromDisk recent st)
     = recentHistoryShown st) /\
  (recentFilterHistory st = ∅ ->
   recentHistoryShown (logFilterChange newId time saved st) = []).
Proof.
  assert (Hlog : recentHistoryShown (logFilterChange newId time saved st)
                 = recentHistoryShown st).
  { destruct (logFilterChange_cases newId time saved st)
      as [-> | (c & n & Hscope & _ & _ & ->)]; [ reflexivity | ].
    unfold recentHistoryShown.
    change (core (_ <| recentFilterHistory := _ |>)) with (core st).
    change (recentFilterHistory (_ <| recentFilterHistory := ?m |>)) with m.
    unfold historyScope in Hscope.
    destruct (currentConnectionId (core st)) as [c'|]; [ | discriminate ].
    destruct (currentNamespaceId (core st)) as [n'|]; [ | discriminate ].
    destruct (nonEmpty c' && nonEmpty n'); [ | discriminate ].
    injection Hscope as -> ->.
    rewrite lookup_insert_ne by apply historyKey_not_namespace. reflexivity. }
  split; [ exact Hlog | ]. split.
  - intros c fromDisk recent Hc. unfold recentHistoryShown, queryHistoryLoaded.
    change (core (_ <| filterHistory := _ |> <| recentFilterHistory := _ |>))
      with (core st).
    change (recentFilterHistory
              (_ <| filterHistory := _ |> <| recentFilterHistory := ?m |>))
      with m.
    destruct (currentNamespaceId (core st)) as [n|]; [ | reflexivity ].
    cbn [from_option id].
    rewrite lookup_insert_ne by apply historyKey_not_namespace. reflexivity.
  - intros Hempty. rewrite Hlog. unfold recentHistoryShown. rewrite Hempty.
    destruct (currentNamespaceId (core st)) as [n|]; [ | reflexivity ].
    rewrite lookup_empty. destruct (nonEmpty n); reflexivity.
Qed.

(** ** The saved filters *)

Lemma find_saved_map (historyId : string)
    (update : FilterHistoryEntry -> FilterHistoryEntry)
    (entries : list FilterHistoryEntry) :
  (forall e, saved_id (update e) = saved_id e) ->
  List.find (fun entry => String.eqb (saved_id entry) historyId)
    (List.map update entries)
  = update <$> List.find (fun entry => String.eqb (saved_id entry) historyId)
                 entries.
Proof.
  intros Hid. induction entries as [|e rest IH]; [ reflexivity | ].
  cbn [List.map List.find]. rewrite Hid.
  destruct (String.eqb (saved_id e) historyId); [ reflexivity | exact IH ].
Qed.

(** A saved filter goes first into a list of at most 20.  Applying it
    by its id puts back the search text and the predicates that were
    saved and counts the application on the entry; deleting it by its
    id leaves no entry of that id. *)
Theorem saved_filter_round_trip (name_ newId : string) (time : Z)
    (st : Store) (c n : string) :
  historyScope (core st) = Some (c, n) ->
  let st1 := saveToFilterHistory name_ newId time Resolved st in
  let applied := applyFilterFromHistory newId st1 in
  let st3 := deleteFilterFromHistory newId Resolved (fst applied) in
  getNamespaceFilterHistory st1
  = firstn 20 (savedEntry name_ newId time (core st)
               :: getNamespaceFilterHistory st) /\
  (length (getNamespaceFilterHistory st1) <= 20)%nat /\
  searchText (core (fst applied)) = searchText (core st) /\
  activeFilters (core (fst applied)) = activeFilters (core st) /\
  snd applied = [SetTimeout 0 LoadFirstPage] /\
  (appliedCount <$> List.find (fun e => String.eqb (saved_id e) newId)
                      (getNamespaceFilterHistory (fst applied))) = Some 1 /\
  length (getNamespaceFilterHistory (fst applied))
  = length (getNamespaceFilterHistory st1) /\
  forall e, In e (getNamespaceFilterHistory st3) -> saved_id e <> newId.
Proof.
  intros Hscope st1 applied st3.
  set (entry := savedEntry name_ newId time (core st)).
  set (before := default [] (filterHistory st !! historyKey c n)).
  assert (Hst1 : st1 = st <| filterHistory :=
                              <[historyKey c n := firstn 20 (entry :: before)]>
                                (filterHistory st) |>).
  { subst st1. unfold saveToFilterHistory. rewrite Hscope. reflexivity. }
  assert (Hcore1 : core st1 = core st) by (rewrite Hst1; reflexivity).
  assert (Hhist1 : filterHistory st1 !! historyKey c n
                   = Some (entry :: firstn 19 before)).
  { rewrite Hst1.
    change (filterHistory (_ <| filterHistory := ?m |>)) with m.
    rewrite lookup_insert_eq. reflexivity. }
  assert (Hget1 : getNamespaceFilterHistory st1 = entry :: firstn 19 before).
  { unfold getNamespaceFilterHistory. rewrite Hcore1, Hscope, Hhist1.
    reflexivity. }
  assert (Hget0 : getNamespaceFilterHistory st = before).
  { unfold getNamespaceFilterHistory. rewrite Hscope. reflexivity. }
  clearbody st1.
  set (count := fun e : FilterHistoryEntry =>
                  if String.eqb (saved_id e) newId
                  then e <| appliedCount := appliedCount e + 1 |> else e).
  assert (Happlied :
    applied
    = (st1 <| core :=
               (core st1)
                 <| searchText := searchText (core st) |>
                 <| activeFilters := activeFilters (core st) |>
                 <| isQueryMode :=
                      (0 <? String.length (searchText (core st)))%nat
                      || (0 <? length (activeFilters (core st)))%nat |> |>
           <| filterHistory :=
                <[historyKey c n := List.map count (entry :: firstn 19 before)]>
                  (filterHistory st1) |>,
       [SetTimeout 0 LoadFirstPage])).
  { subst applied. unfold applyFilterFromHistory.
    rewrite Hcore1, Hscope, Hhist1. cbn [from_option id List.find].
    change (saved_id entry) with newId. rewrite String.eqb_refl. reflexivity. }
  assert (Hget2 : getNamespaceFilterHistory (fst applied)
                  = List.map count (entry :: firstn 19 before)).
  { rewrite Happlied. cbn [fst]. unfold getNamespaceFilterHistory.
    change (historyScope (core (_ <| core := ?s |> <| filterHistory := _ |>)))
      with (historyScope (core st1)).
    rewrite Hcore1, Hscope.
    change (filterHistory (_ <| core := _ |> <| filterHistory := ?m |>)) with m.
    rewrite lookup_insert_eq. reflexivity. }
  assert (Hscope2 : historyScope (core (fst applied)) = Some (c, n)).
  { rewrite Happlied. cbn [fst].
    change (historyScope (core (_ <| core := ?s |> <| filterHistory := _ |>)))
      with (historyScope (core st1)).
    rewrite Hcore1. exact Hscope. }
  split; [ rewrite Hget1, Hget0; reflexivity | ].
  split; [ rewrite Hget1; cbn [length];
           pose proof (firstn_le_length 19 before); lia | ].
  split; [ rewrite Happlied; reflexivity | ].
  split; [ rewrite Happlied; reflexivity | ].
  split; [ rewrite Happlied; reflexivity | ].
  split.
  { rewrite Hget2. cbn [List.map List.find].
    assert (Hcount : count entry
                     = entry <| appliedCount := appliedCount entry + 1 |>).
    { unfold count. change (saved_id entry) with newId.
      rewrite String.eqb_refl. reflexivity. }
    rewrite Hcount.
    change (saved_id (entry <| appliedCount := appliedCount entry + 1 |>))
      with newId.
    rewrite String.eqb_refl. reflexivity. }
  split; [ rewrite Hget2, Hget1, length_map; reflexivity | ].
  intros e He. subst st3.
  unfold getNamespaceFilterHistory, deleteFilterFromHistory in He.
  rewrite Hscope2 in He.
  change (historyScope (core (_ <| filterHistory := _ |>)))
    with (historyScope (core (fst applied))) in He.
  rewrite Hscope2 in He.
  change (filterHistory (_ <| filterHistory := ?m |>)) with m in He.
  rewrite lookup_insert_eq in He. cbn [from_option id] in He.
  apply filter_In in He. destruct He as (_ & He).
  destruct (String.eqb_spec (saved_id e) newId); [ discriminate | assumption ].
Qed.

(** ** The operators of the filter builder *)

(** Every operator that the filter builder offers for a field is
    compiled by [loadDocuments] to the backend operator that the
    builder shows for it, when the builder and the store agree on the
    type of the field; and the operator that the builder selects when
    an existing filter is moved to a known field is one of those it
    offers for that field. *)
Theorem offered_operator_compiles_to_its_api_operator
    (attrs : list DiscoveredAttribute) (info : FieldInfo)
    (o : OperatorOption) (f : SimpleFilter) (fields : list FieldInfo) :
  fieldTypeOf attrs (field_name info) = Some (field_type info) ->
  (In o (operators (Some info)) ->
   attribute f = field_name info ->
   operator f = option_value o ->
   exists operand,
     compileFilter attrs f = triple (field_name info) (apiOperator o) operand) /\
  (List.find (fun g => String.eqb (field_name g) (field_name info)) fields
   = Some info ->
   In (operatorOnFieldChange fields (field_name info))
     (List.map option_value (operators (Some info)))).
Proof.
  intros Htype. split.
  - intros Hin Hattr Hop. unfold compileFilter. rewrite Hattr, Hop, Htype.
    unfold operators in Hin.
    destruct (isArrayType (Some (field_type info))).
    + apply in_app_or in Hin. destruct Hin as [Hin | Hin].
      * cbn [In] in Hin.
        repeat (destruct Hin as [<- | Hin]; [ eexists; reflexivity | ]).
        destruct Hin.
      * destruct (includes "int" (field_type info)
                  || includes "uint" (field_type info)
                  || includes "float" (field_type info)
                  || String.eqb (field_type info) "[]number");
          cbn [In] in Hin;
          repeat (destruct Hin as [<- | Hin]; [ eexists; reflexivity | ]);
          destruct Hin.
    + destruct (String.eqb (field_type info) "number"
                || isNumericType (field_type info)).
      * cbn [In] in Hin.
        repeat (destruct Hin as [<- | Hin]; [ eexists; reflexivity | ]).
        destruct Hin.
      * apply in_app_or in Hin. destruct Hin as [Hin | Hin].
        -- cbn [In] in Hin.
           repeat (destruct Hin as [<- | Hin]; [ eexists; reflexivity | ]).
           destruct Hin.
        -- destruct (isFts info) as [[|]|]; cbn [In] in Hin;
             repeat (destruct Hin as [<- | Hin]; [ eexists; reflexivity | ]);
             destruct Hin.
  - intros Hfind. unfold operatorOnFieldChange, operators. rewrite Hfind.
    cbn [fmap option_fmap option_map].
    destruct (isArrayType (Some (field_type info))).
    + rewrite List.map_app. apply in_or_app. left. cbn. auto.
    + destruct (String.eqb (field_type info) "number"
                || isNumericType (field_type info)).
      * cbn. auto.
      * rewrite List.map_app. apply in_or_app. left. cbn. auto.
Qed.

End ActionFacts.

(** * The properties on the sample data *)

#[local] Existing Instance sampleRuntime.

(** Evaluation of a closed statement. *)
Ltac evaluate := vm_compute; first [ reflexivity | discriminate ].

(** ** Predicate translation *)

(** C2 on the sample predicates: [tags] is an array attribute, [status] a
    scalar one. *)
Lemma equals_compiles_by_attribute_type_witness :
  compileFilter (attributes filteredState) tagsFilter
  = JArr [JStr "tags"; JStr "ContainsAny"; JStr "x"] /\
  compileFilter (attributes filteredState) statusFilter
  = JArr [JStr "status"; JStr "Eq"; JStr "published"].
Proof.
  assert (Htags : In tagsFilter (activeFilters filteredState))
    by (vm_compute; right; left; reflexivity).
  assert (Hstatus : In statusFilter (activeFilters filteredState))
    by (vm_compute; left; reflexivity).
  assert (Harray : isArrayType (fieldTypeOf (attributes filteredState)
                                  (attribute tagsFilter)) = true) by evaluate.
  assert (Hscalar : isArrayType (fieldTypeOf (attributes filteredState)
                                   (attribute statusFilter)) = false) by evaluate.
  pose proof (equals_compiles_by_attribute_type filteredState tagsFilter Htags)
    as Ht.
  pose proof (equals_compiles_by_attribute_type filteredState statusFilter Hstatus)
    as Hs.
  cbv zeta in Ht, Hs.
  destruct Ht as (_ & Ht & _). destruct Hs as (_ & _ & Hs & _).
  exact (conj (proj1 (Ht Harray) eq_refl) (proj1 (Hs Hscalar) eq_refl)).
Defined.

(** ** Aggregation *)

(** C1 where the code departs from it: with an aggregation configured
    and neither filter nor search text, the forced load of page 1 takes
    the listing branch and sends a page request that has [rank_by] and
    [include_attributes] and no [aggregate_by]. *)
Lemma aggregation_ignored_without_filter :
  aggregations aggregatingState <> [] /\
  exists q,
    primaryRequest aggregatingState 100 1 = Some q /\
    calls (loadDocuments (servicesAt 0) true false 100 1 aggregatingState)
    = [("docs", totalCountRequest); ("docs", q)] /\
    aggregate_by q = None /\
    rank_by q = Some (JArr [JStr "id"; JStr "asc"]) /\
    include_attributes q = Some true.
Proof.
  split; [ evaluate | ].
  eexists. split; [ vm_compute; reflexivity | ].
  split; [ evaluate | ].
  split; [ evaluate | ]. split; evaluate.
Qed.

(** The same aggregation behind a filter: the query-mode branch sends
    it, with [group_by] and without [rank_by] and [include_attributes]. *)
Lemma aggregation_excludes_ranking_witness :
  exists q,
    primaryRequest filteredAggregatingState 100 1 = Some q /\
    is_Some (aggregate_by q) /\
    (is_Some (group_by q) <-> groupByAttributes filteredAggregatingState <> []) /\
    rank_by q = None /\
    include_attributes q = None.
Proof.
  eexists. split; [ vm_compute; reflexivity | ].
  assert (Hmode : shouldUseQueryMode filteredAggregatingState = true) by evaluate.
  assert (Hagg : aggregations filteredAggregatingState <> []) by evaluate.
  refine (proj1 (aggregation_excludes_ranking filteredAggregatingState 100 1 _ _)
            Hmode Hagg).
  vm_compute; reflexivity.
Defined.

(** C10 where the code departs from it: with two aggregations
    configured and neither filter nor search text, the forced load of
    page 1 takes the listing branch, whose page request has no
    [aggregate_by] object at all; behind a filter the same two
    aggregations are sent as the one entry of the first. *)
Lemma listing_sends_no_aggregate_by :
  aggregations twoAggregationsState
  = [mkAggregation "total" "count" (Some "id");
     mkAggregation "mean" "avg" (Some "price")] /\
  (exists q,
     primaryRequest twoAggregationsState 100 1 = Some q /\
     calls (loadDocuments (servicesAt 0) true false 100 1 twoAggregationsState)
     = [("docs", totalCountRequest); ("docs", q)] /\
     q = listRequest JUndefined 100 /\
     aggregate_by q = None) /\
  aggregate_by
    <$> primaryRequest (twoAggregationsState <| activeFilters := [statusFilter] |>)
          100 1
  = Some (Some [("total", JArr [JStr "Count"])]).
Proof.
  split; [ evaluate | ]. split; [ | evaluate ].
  eexists. split; [ vm_compute; reflexivity | ].
  split; [ evaluate | ]. split; evaluate.
Qed.

(** The aggregation branch on the aggregation behind a filter. *)
Lemma aggregate_by_is_first_count_witness :
  exists q,
    primaryRequest filteredAggregatingState 100 1 = Some q /\
    aggregate_by q = Some [("total", JArr [JStr "Count"])] /\
    primaryRequest
      (filteredAggregatingState
         <| aggregations := [mkAggregation "total" "sum" (Some "price");
                             mkAggregation "other" "count" None] |>) 100 1
    = Some q.
Proof.
  eexists. split; [ vm_compute; reflexivity | ].
  assert (Hagg : aggregations filteredAggregatingState
                 = [mkAggregation "total" "count" (Some "id")]) by evaluate.
  assert (Hmode : shouldUseQueryMode filteredAggregatingState = true) by evaluate.
  match goal with
  | |- aggregate_by ?q = _ /\ _ =>
      assert (Hq : primaryRequest filteredAggregatingState 100 1 = Some q)
        by (vm_compute; reflexivity);
      pose proof (aggregate_by_is_first_count filteredAggregatingState 100 1 q
                    _ _ Hagg Hq) as (Hfirst & _ & Hrest)
  end.
  split.
  - exact (Hfirst Hmode).
  - exact (Hrest (mkAggregation "total" "sum" (Some "price"))
             [mkAggregation "other" "count" None] eq_refl).
Defined.

(** ** Ranking *)

(** Against C3 as stated: in browse mode with no filter and no search
    text, a descending sort on [name] is configured, yet the forced load
    of page 1 ranks by [["id", "asc"]], not by [["name", "desc"]].  And
    in full-text mode a search text of one space, which is not empty,
    does not rank by BM25: the text is trimmed first, and the lexical
    sort applies. *)
Lemma browse_listing_ignores_sort :
  (customExpression sortedState = None /\
   queryMode sortedState = mode_browse /\
   vectorQuery sortedState = None /\
   aggregations sortedState = [] /\
   lexicalSortAsClaimed sortedState = JArr [JStr "name"; JStr "desc"] /\
   exists q,
     primaryRequest sortedState 100 1 = Some q /\
     calls (loadDocuments (servicesAt 0) true false 100 1 sortedState)
     = [("docs", totalCountRequest); ("docs", q)] /\
     rank_by q = Some (JArr [JStr "id"; JStr "asc"]) /\
     rank_by q <> Some (lexicalSortAsClaimed sortedState)) /\
  (customExpression blankSearchState = None /\
   queryMode blankSearchState = mode_bm25 /\
   searchText blankSearchState <> "" /\
   aggregations blankSearchState = [] /\
   rank_by <$> primaryRequest blankSearchState 100 1
   = Some (Some (JArr [JStr "id"; JStr "asc"]))).
Proof.
  split.
  - do 5 (split; [ evaluate | ]).
    eexists. split; [ vm_compute; reflexivity | ].
    split; [ evaluate | ]. split; evaluate.
  - do 4 (split; [ evaluate | ]). evaluate.
Qed.

(** The amended C3 on the sort behind a filter. *)
Lemma rank_by_priority_witness :
  rank_by <$> primaryRequest filteredSortedState 100 1
  = Some (Some (JArr [JStr "name"; JStr "desc"])).
Proof.
  assert (Hmode : shouldUseQueryMode filteredSortedState = true) by evaluate.
  assert (Hagg : aggregations filteredSortedState = []) by evaluate.
  assert (Hexpr : customExpression filteredSortedState = None) by evaluate.
  assert (Htext : isBM25 (queryMode filteredSortedState)
                  && nonEmpty (trim (searchText filteredSortedState)) = false)
    by evaluate.
  assert (Hvec : queryMode filteredSortedState <> mode_vector) by evaluate.
  pose proof (rank_by_priority filteredSortedState 100 1 Hmode Hagg) as H.
  cbv zeta in H. destruct H as (_ & _ & _ & H).
  exact (H Hexpr Htext (or_introl Hvec)).
Defined.

(** Against C9 as stated: a single configured field of weight 2 is
    ranked by the bare [["a", "BM25", "hello"]]; its weight is dropped
    and no [Product] wraps the term. *)
Lemma single_field_weight_is_dropped :
  bm25Fields weightedFieldState = [mkBM25Field "a" 2] /\
  ~ (2 == 1)%Q /\
  rank_by <$> primaryRequest weightedFieldState 100 1
  = Some (Some (JArr [JStr "a"; JStr "BM25"; JStr "hello"])) /\
  rank_by <$> primaryRequest weightedFieldState 100 1
  <> Some (Some (JArr [JStr "Product";
                       JArr [JNum 2; JArr [JStr "a"; JStr "BM25"; JStr "hello"]]])).
Proof.
  split; [ reflexivity | ].
  split; [ vm_compute; discriminate | ].
  split; [ vm_compute; reflexivity | vm_compute; discriminate ].
Qed.

(** The amended C9 on the two fields of weight 1. *)
Lemma bm25_ranking_witness :
  rank_by <$> primaryRequest twoFieldState 100 1
  = Some (Some (JArr [JStr "Sum";
                      JArr [JArr [JStr "a"; JStr "BM25"; JStr "hello"];
                            JArr [JStr "b"; JStr "BM25"; JStr "hello"]]])).
Proof.
  assert (Hexpr : customExpression twoFieldState = None) by evaluate.
  assert (Hmode : queryMode twoFieldState = mode_bm25) by evaluate.
  assert (Hagg : aggregations twoFieldState = []) by evaluate.
  assert (Htext : searchText twoFieldState = "hello") by evaluate.
  assert (Hfields : bm25Fields twoFieldState
                    = [mkBM25Field "a" 1; mkBM25Field "b" 1]) by evaluate.
  assert (Hop : bm25Operator twoFieldState = bm25_sum) by evaluate.
  pose proof (bm25_ranking twoFieldState 100 1 Hexpr Hmode Hagg) as H.
  cbv zeta in H. destruct H as (H & _).
  exact (H Htext Hfields Hop).
Defined.

(** ** The full-text branch without a field *)

(** Against C6 as stated: the load that ends with the
    no-searchable-fields error has called the backend once, for the
    count, before it gives up. *)
Lemma count_query_precedes_field_error :
  let r := loadDocuments (servicesAt 0) true false 100 1 fullTextState in
  queryMode fullTextState = mode_bm25 /\
  searchText fullTextState = "hello" /\
  bm25Fields fullTextState = [] /\
  potentialBM25Fields (attributes fullTextState) = [] /\
  error (final r) = Some NO_TEXT_FIELDS /\
  calls r = [("docs", countRequest fullTextState)] /\
  length (calls r) = 1%nat.
Proof. cbv zeta. vm_compute. repeat split; reflexivity. Qed.

(** The amended C6 on the full-text search with no field. *)
Lemma no_searchable_fields_skips_page_request_witness :
  outcome (loadDocuments (servicesAt 0) true false 100 1 fullTextState)
  = ConfigError /\
  calls (loadDocuments (servicesAt 0) true false 100 1 fullTextState)
  = [("docs", countRequest fullTextState)] /\
  primaryRequest fullTextState 100 1 = None.
Proof.
  assert (Hg : passesGuards (servicesAt 0) fullTextState = true) by evaluate.
  assert (Hns : currentNamespaceId fullTextState = Some "docs") by evaluate.
  assert (Hcache : servedFromCache (servicesAt 0) true 100 1 fullTextState = None)
    by evaluate.
  assert (Hexpr : customExpression fullTextState = None) by evaluate.
  assert (Hmode : queryMode fullTextState = mode_bm25) by evaluate.
  assert (Htext : nonEmpty (trim (searchText fullTextState)) = true) by evaluate.
  assert (Hfields : bm25Fields fullTextState = []) by evaluate.
  assert (Hattrs : potentialBM25Fields (attributes fullTextState) = [])
    by evaluate.
  assert (Hcount : queryDocuments (servicesAt 0) "docs" (countRequest fullTextState)
                   = Fulfilled (countResponse 4)) by evaluate.
  pose proof (no_searchable_fields_skips_page_request (servicesAt 0) true false
                100 1 fullTextState "docs" (countResponse 4)
                Hg Hns Hcache Hexpr Hmode Htext Hfields Hattrs Hcount) as H.
  cbv zeta in H. destruct H as (Hout & _ & _ & Hcalls & Hreq & _).
  exact (conj Hout (conj Hcalls Hreq)).
Defined.

(** ** Failure *)

(** C8 on a backend that goes down after page 1 was loaded. *)
Lemma rejected_load_keeps_rows_witness :
  error (final (loadDocuments (failingServices "503 Service Unavailable")
                  true false 100 2 loadedFirstPage))
  = Some "503 Service Unavailable" /\
  isLoading (final (loadDocuments (failingServices "503 Service Unavailable")
                      true false 100 2 loadedFirstPage))
  = false /\
  documents (final (loadDocuments (failingServices "503 Service Unavailable")
                      true false 100 2 loadedFirstPage))
  = documents loadedFirstPage.
Proof.
  assert (Hin : In ("docs", totalCountRequest)
                  (calls (loadDocuments (failingServices "503 Service Unavailable")
                            true false 100 2 loadedFirstPage)))
    by (vm_compute; left; reflexivity).
  assert (Hrej : queryDocuments (failingServices "503 Service Unavailable")
                   "docs" totalCountRequest
                 = Rejected (ErrorObject "503 Service Unavailable")) by evaluate.
  pose proof (rejected_load_keeps_rows
                (failingServices "503 Service Unavailable") true false 100 2
                loadedFirstPage "docs" totalCountRequest
                (ErrorObject "503 Service Unavailable") Hin Hrej) as H.
  cbv zeta in H. destruct H as (He & Hl & Hd & _).
  exact (conj He (conj Hl Hd)).
Defined.

(** ** The result cache *)

(** Against C7 as stated: the page of the filtered query was cached at
    time 0; reloaded unforced at time 400000, past the TTL, the load
    ignores the entry and calls the backend twice, for the count and for
    the page. *)
Lemma expired_entry_costs_two_calls :
  documentsCache loadedFiltered !! cacheKey loadedFiltered 1 100
  = Some {| cached_documents := pageOne; cached_totalCount := Some 4;
            timestamp := 0 |} /\
  CACHE_DURATION <= now (servicesAt 400000) - 0 /\
  length (calls (loadDocuments (servicesAt 400000) false false 100 1
                   loadedFiltered)) = 2%nat.
Proof.
  split; [ evaluate | ]. split; [ evaluate | evaluate ].
Qed.

(** The amended C7 on the cached first page, reloaded at time 10. *)
Lemma cache_hit_and_expiry_witness :
  calls (loadDocuments (servicesAt 10) false false 2 1 loadedFirstPage) = [] /\
  documents (final (loadDocuments (servicesAt 10) false false 2 1 loadedFirstPage))
  = pageOne /\
  totalCount (final (loadDocuments (servicesAt 10) false false 2 1 loadedFirstPage))
  = Some 4.
Proof.
  assert (Hg : passesGuards (servicesAt 10) loadedFirstPage = true) by evaluate.
  assert (Hentry : documentsCache loadedFirstPage !! cacheKey loadedFirstPage 1 2
                   = Some {| cached_documents := pageOne;
                             cached_totalCount := Some 4; timestamp := 0 |})
    by evaluate.
  assert (Hfresh : now (servicesAt 10) - 0 < CACHE_DURATION) by evaluate.
  pose proof (cache_hit_and_expiry (servicesAt 10) false false 2 1
                loadedFirstPage _ Hg Hentry) as H.
  cbv zeta in H. destruct H as (H & _).
  destruct (H eq_refl Hfresh) as (Hcalls & _ & Hdocs & Htotal).
  exact (conj Hcalls (conj Hdocs Htotal)).
Defined.

(** ** Forward, then back to the first page *)


(** What the condition on the registry is for: with an empty registry
    the predicate on [tags] compiles to [Eq] for the first fetch of
    page 1; the analysis of the rows fetched finds [tags] to be an
    array, and the same predicate compiles to [ContainsAny] for the
    reload. *)
Lemma discovery_retypes_reloaded_filter :
  let s0 := connectedState <| activeFilters := [tagsFilter] |> in
  let r1 := loadDocuments (RT := scanningRuntime) (taggedServicesAt 0)
              false false 2 1 s0 in
  outcome r1 = Loaded /\
  attributes (final r1)
  = [mkAttribute "status" "string"; mkAttribute "tags" "[]string"] /\
  filters <$> primaryRequest (RT := scanningRuntime) s0 2 1
  = Some (Some (JArr [JStr "tags"; JStr "Eq"; JArr [JStr "x"; JStr "y"]])) /\
  filters <$> primaryRequest (RT := scanningRuntime) (final r1) 2 1
  = Some (Some (JArr [JStr "tags"; JStr "ContainsAny"; JStr "x"])).
Proof.
  cbv zeta. split; [ evaluate | ]. split; [ evaluate | ]. split; evaluate.
Qed.


(** * The other properties on the sample data *)

#[local] Existing Instance sampleUtilities.

(** ** The entry guards *)

(** A load before any namespace is chosen. *)
Lemma refused_load_changes_nothing_witness :
  calls (loadDocuments (servicesAt 0) false false 100 1 initialState) = [] /\
  final (loadDocuments (servicesAt 0) false false 100 1 initialState)
  = initialState.
Proof.
  assert (Hg : passesGuards (servicesAt 0) initialState = false) by evaluate.
  assert (Hns : missing (currentNamespaceId initialState) = true) by evaluate.
  pose proof (refused_load_changes_nothing (servicesAt 0) false false 100 1
                initialState Hg) as H.
  cbv zeta in H. destruct H as (Hcalls & Hskip & _).
  destruct (Hskip (or_introl Hns)) as (Hfinal & _).
  exact (conj Hcalls Hfinal).
Defined.

(** ** What a fetched page leaves in the state *)

(** Page 1 of the listing, two rows to a page: the four rows take two
    pages. *)
Lemma loaded_page_postcondition_witness :
  pageSize (final (loadDocuments (servicesAt 0) false false 2 1 connectedState))
  = 2 /\
  error (final (loadDocuments (servicesAt 0) false false 2 1 connectedState))
  = None /\
  totalPages (final (loadDocuments (servicesAt 0) false false 2 1 connectedState))
  = Some (Integer 2).
Proof.
  assert (Hout : outcome (loadDocuments (servicesAt 0) false false 2 1
                            connectedState) = Loaded) by evaluate.
  assert (Hcount : totalCount (final (loadDocuments (servicesAt 0) false false
                                        2 1 connectedState)) = Some 4)
    by evaluate.
  assert (Htotal : 0 <= 4 < 2 ^ 53) by lia.
  assert (Hlimit : 0 < 2 < 2 ^ 53) by lia.
  pose proof (loaded_page_postcondition (servicesAt 0) false false 2 1
                connectedState) as H.
  cbv zeta in H.
  destruct (H Hout)
    as (ns & q & response & total & _ & _ & _ & _ & _ & Ht & _ & _ & He & _
        & Hp & _ & _ & _ & Hpages & _).
  rewrite Hcount in Ht. injection Ht as <-.
  destruct (Hpages Htotal Hlimit) as (pages & Hpg & Hb).
  assert (pages = 2) as -> by lia.
  exact (conj Hp (conj He Hpg)).
Defined.

(** Past 2^53 the quotient is rounded before its ceiling is taken: the
    page count of 13510798882111492 rows, three to a page, is one page
    short of holding them.  And a page size of 0 gives no integer. *)
Lemma page_count_past_safe_integers :
  mathCeil (divide 13510798882111492 3) = Integer 4503599627370497 /\
  3 * 4503599627370497 < 13510798882111492 /\
  mathCeil (divide 4 0) = Infinite false /\
  mathCeil (divide 0 0) = NotANumber.
Proof. split; [ evaluate | ]. split; [ lia | ]. split; evaluate. Qed.

(** Page 1 fetched at time 0 and asked for again at time 10. *)
Lemma loaded_page_is_served_from_cache_witness :
  outcome (loadDocuments (servicesAt 10) false false 2 1
             (final (loadDocuments (servicesAt 0) false false 2 1
                       connectedState)))
  = CacheHit /\
  calls (loadDocuments (servicesAt 10) false false 2 1
           (final (loadDocuments (servicesAt 0) false false 2 1 connectedState)))
  = [].
Proof.
  assert (Hout : outcome (loadDocuments (servicesAt 0) false false 2 1
                            connectedState) = Loaded) by evaluate.
  assert (Hclient : getClient (servicesAt 10) = true) by evaluate.
  assert (Hfresh : now (servicesAt 10) - nowStored (servicesAt 0)
                   < CACHE_DURATION) by evaluate.
  pose proof (loaded_page_is_served_from_cache (servicesAt 0) (servicesAt 10)
                false false false 2 1 connectedState) as H.
  cbv zeta in H. destruct (H Hout Hclient Hfresh) as (Hhit & Hcalls & _).
  exact (conj Hhit Hcalls).
Defined.

(** The forced reload of page 1. *)
Lemma forced_load_recounts_witness :
  hd_error (calls (loadDocuments (servicesAt 20) true false 2 1 loadedFirstPage))
  = Some ("docs", countRequest loadedFirstPage).
Proof.
  assert (Hg : passesGuards (servicesAt 20) loadedFirstPage = true) by evaluate.
  assert (Hns : currentNamespaceId loadedFirstPage = Some "docs") by evaluate.
  pose proof (forced_load_recounts (servicesAt 20) false 2 1 loadedFirstPage
                "docs" Hg Hns) as H.
  cbv zeta in H. destruct H as (_ & Hhead & _).
  exact Hhead.
Defined.

(** Page 2 of the listing after page 1, the total being known. *)
Lemma known_total_is_not_recounted_witness :
  calls (loadDocuments (servicesAt 10) false false 2 2 loadedFirstPage)
  = [("docs", listRequest match paginationCursor loadedFirstPage 2 with
                          | Some cursor => cursorFilter cursor
                          | None => JUndefined
                          end 2)].
Proof.
  assert (Hg : passesGuards (servicesAt 10) loadedFirstPage = true) by evaluate.
  assert (Hns : currentNamespaceId loadedFirstPage = Some "docs") by evaluate.
  assert (Hmode : shouldUseQueryMode loadedFirstPage = false) by evaluate.
  assert (Ht : totalCount loadedFirstPage = Some 4) by evaluate.
  assert (Hu : unfilteredTotalCount loadedFirstPage = Some 4) by evaluate.
  assert (Hcache : servedFromCache (servicesAt 10) false 2 2 loadedFirstPage
                   = None) by evaluate.
  pose proof (known_total_is_not_recounted (servicesAt 10) false 2 2
                loadedFirstPage "docs" 4 4 Hg Hns Hmode Ht Hu Hcache) as H.
  cbv zeta in H. destruct H as (Hcalls & _).
  exact Hcalls.
Defined.

(** The return to page 1 from page 2, within the TTL. *)
Lemma cache_hit_keeps_pagination_state_witness :
  previousCursors
    (final (loadDocuments (servicesAt 20) false false 2 1 loadedSecondPage))
  = previousCursors loadedSecondPage /\
  nextCursor
    (final (loadDocuments (servicesAt 20) false false 2 1 loadedSecondPage))
  = nextCursor loadedSecondPage.
Proof.
  assert (Hout : outcome (loadDocuments (servicesAt 20) false false 2 1
                            loadedSecondPage) = CacheHit) by evaluate.
  pose proof (cache_hit_keeps_pagination_state (servicesAt 20) false false 2 1
                loadedSecondPage) as H.
  cbv zeta in H.
  destruct (H Hout) as (entry & _ & _ & _ & _ & _ & _ & _ & Hp & Hn & _).
  exact (conj Hp Hn).
Defined.

(** ** Going forward and backward *)

(** From page 1, page 2 and page 3 get the same request. *)
Lemma forward_jump_fetches_the_next_page_witness :
  primaryRequest loadedFirstPage 2 2 = primaryRequest loadedFirstPage 2 3.
Proof.
  assert (Hp : currentPage loadedFirstPage < 2) by evaluate.
  assert (Hp' : currentPage loadedFirstPage < 3) by evaluate.
  pose proof (forward_jump_fetches_the_next_page (servicesAt 10) false false
                false 2 2 3 loadedFirstPage Hp Hp') as H.
  cbv zeta in H. destruct H as (Hsame & _).
  exact Hsame.
Defined.

(** Pages 1, 2 and 3 of the listing, then back to page 2: the cursor is
    the key of the first row of page 1. *)
Lemma backward_cursor_is_first_row_of_previous_page_witness :
  paginationCursor
    (final (loadDocuments (servicesAt 20) false false 2 (1 + 2)
              (final (loadDocuments (servicesAt 10) false false 2 (1 + 1)
                        loadedFirstPage))))
    (1 + 1)
  = Some (doc_id (row "a")).
Proof.
  assert (Hp : 1 <= 1) by lia.
  assert (Hcur : currentPage loadedFirstPage = 1) by evaluate.
  assert (Hdocs : documents loadedFirstPage = row "a" :: [row "b"]) by evaluate.
  assert (Hout1 : outcome (loadDocuments (servicesAt 10) false false 2 (1 + 1)
                             loadedFirstPage) = Loaded) by evaluate.
  assert (Hout2 : outcome
                    (loadDocuments (servicesAt 20) false false 2 (1 + 2)
                       (final (loadDocuments (servicesAt 10) false false 2
                                 (1 + 1) loadedFirstPage))) = Loaded)
    by evaluate.
  pose proof (backward_cursor_is_first_row_of_previous_page
                (servicesAt 10) (servicesAt 20) false false false 2 1
                loadedFirstPage (row "a") [row "b"]) as H.
  cbv zeta in H. destruct (H Hp Hcur Hdocs Hout1 Hout2) as (_ & Hback & _).
  exact Hback.
Defined.

(** ** Ranked search *)

(** The count request of the full-text search over two fields. *)
Lemma ranked_search_counts_whole_namespace_witness :
  filteredCountRequest JUndefined = filteredCountRequest JUndefined \/
  (primaryRequest twoFieldState 100 1 = Some (filteredCountRequest JUndefined) /\
   filters (filteredCountRequest JUndefined)
   = Some match paginationCursor twoFieldState 1 with
          | Some cursor => cursorFilter cursor
          | None => JUndefined
          end).
Proof.
  assert (Hmode : isBrowse (queryMode twoFieldState) = false) by evaluate.
  assert (Hfilters : activeFilters twoFieldState = []) by evaluate.
  assert (Htext : nonEmpty (trim (searchText twoFieldState)) = true) by evaluate.
  assert (Hin : In ("docs", filteredCountRequest JUndefined)
                  (calls (loadDocuments (servicesAt 0) true false 100 1
                            twoFieldState)))
    by (vm_compute; left; reflexivity).
  exact (ranked_search_counts_whole_namespace (servicesAt 0) true false 100 1
           twoFieldState "docs" (filteredCountRequest JUndefined)
           Hmode Hfilters Htext Hin).
Defined.

(** Over a registry with an id and a title, the fallback is the title. *)
Lemma fulltext_fallback_field_witness :
  exists a,
    In a (attributes titledState) /\
    bm25Rank "title" "hello" = bm25Rank (attr_name a) (trim (searchText titledState)) /\
    isTextType (attr_type a) = true /\
    isKeyLikeName (attr_name a) = false.
Proof.
  assert (He : customExpression titledState = None) by evaluate.
  assert (Hm : queryMode titledState = mode_bm25) by evaluate.
  assert (Ht : nonEmpty (trim (searchText titledState)) = true) by evaluate.
  assert (Hf : bm25Fields titledState = []) by evaluate.
  assert (Hr : determineRankBy titledState = Rank (bm25Rank "title" "hello"))
    by evaluate.
  exact (fulltext_fallback_field titledState (bm25Rank "title" "hello")
           He Hm Ht Hf Hr).
Defined.

(** ** Predicates typed in *)

(** [status in listText] typed into the filter builder: the parts are
    trimmed, of the no-break space too, and the empty one is dropped. *)
Lemma list_filter_stores_and_sends_an_array_witness :
  exists f,
    activeFilters (fst (addFilter "f3" "status" op_in (JStr listText) connectedState))
    = (activeFilters connectedState ++ [f])%list /\
    filter_id f = "f3" /\
    value f = JArr [JStr "a"; JStr "b"].
Proof.
  destruct (list_filter_stores_and_sends_an_array "f3" "status" op_in
              (JStr listText) connectedState (or_introl eq_refl))
    as (f & items & Hf & Hid & Hv & Hitems & _).
  assert (Hsplit : List.map
                     (fun v => parseValueForFieldType v
                                 (fieldTypeOf (attributes connectedState) "status"))
                     (splitValues listText)
                   = [JStr "a"; JStr "b"]) by evaluate.
  rewrite (Hitems listText eq_refl), Hsplit in Hv.
  exact (ex_intro _ f (conj Hf (conj Hid Hv))).
Defined.

(** [status equals NULL] typed into the filter builder. *)
Lemma null_text_filters_for_null_witness :
  exists f,
    activeFilters (fst (addFilter "f3" "status" op_equals (JStr "NULL")
                          connectedState))
    = (activeFilters connectedState ++ [f])%list /\
    value f = JNull /\
    displayValue f = "null".
Proof.
  assert (Hin : op_equals <> op_in) by discriminate.
  assert (Hnin : op_equals <> op_not_in) by discriminate.
  assert (Hnull : toLowerCase "NULL" = "null") by evaluate.
  destruct (null_text_filters_for_null "f3" "status" "NULL" op_equals
              connectedState Hin Hnin Hnull) as (f & Hf & Hv & Hd & _).
  exact (ex_intro _ f (conj Hf (conj Hv Hd))).
Defined.

(** A second predicate added to the one of [oneFilterState], then
    removed. *)
Lemma add_then_remove_restores_filters_witness :
  activeFilters
    (fst (removeFilter "f3"
            (fst (addFilter "f3" "tags" op_contains (JStr "x") oneFilterState))))
  = activeFilters oneFilterState.
Proof.
  assert (Hfresh : forall f, In f (activeFilters oneFilterState) ->
                             filter_id f <> "f3").
  { intros f Hin. vm_compute in Hin. destruct Hin as [<- | []].
    vm_compute. discriminate. }
  pose proof (add_then_remove_restores_filters "f3" "tags" op_contains
                (JStr "x") oneFilterState Hfresh) as H.
  cbv zeta in H. destruct H as (Hsame & _).
  exact Hsame.
Defined.

(** A search text of a no-break space, a tab and a space. *)
Lemma blank_search_text_lists_the_namespace_witness :
  isQueryMode (fst (setSearchText blankText connectedState)) = true /\
  shouldUseQueryMode (fst (setSearchText blankText connectedState)) = false.
Proof.
  assert (Hne : blankText <> "") by discriminate.
  assert (Hblank : trim blankText = "") by evaluate.
  assert (Hfilters : activeFilters connectedState = []) by evaluate.
  pose proof (blank_search_text_lists_the_namespace blankText connectedState 100
                Hne Hblank Hfilters) as H.
  cbv zeta in H. destruct H as (Hflag & Hmode & _).
  exact (conj Hflag Hmode).
Defined.

(** ** The client *)

(** Five failures in a row with the limit of three attempts. *)
Lemma initialization_attempts_are_bounded_witness :
  snd (initializeFailing
         [ErrorObject "down"; ErrorObject "down"; ErrorObject "down";
          ErrorObject "down"; ErrorObject "down"] initialStore)
  = Nat.min
      (length [ErrorObject "down"; ErrorObject "down"; ErrorObject "down";
               ErrorObject "down"; ErrorObject "down"])
      (Z.to_nat (maxInitAttempts initialStore
                 - initializationAttempts initialStore)).
Proof.
  assert (Hbound : 0 <= initializationAttempts initialStore
                   <= maxInitAttempts initialStore)
    by (split; evaluate).
  pose proof (initialization_attempts_are_bounded
                [ErrorObject "down"; ErrorObject "down"; ErrorObject "down";
                 ErrorObject "down"; ErrorObject "down"] initialStore Hbound)
    as H.
  cbv zeta in H. destruct H as (Htried & _).
  exact Htried.
Defined.

(** The namespace [docs] opened from the initial state. *)
Lemma namespace_switch_then_first_load_witness :
  initialized (initializeClient false Resolved
                 (fst (setNamespace (Some "docs") initialStore)))
  = true.
Proof.
  assert (Hn : nonEmpty "docs" = true) by evaluate.
  assert (Hother : sameNullable (currentNamespaceId (core initialStore))
                     (Some "docs") = false) by evaluate.
  assert (Hl : isLoading (core initialStore) = false) by evaluate.
  assert (Hmax : 0 < maxInitAttempts initialStore) by evaluate.
  assert (Hclient : getClient (servicesAt 0) = true) by evaluate.
  pose proof (namespace_switch_then_first_load "docs" initialStore false
                (servicesAt 0) 100 "docs" totalCountRequest
                Hn Hother Hl Hmax Hclient) as H.
  cbv zeta in H. destruct H as (Hinit & _).
  exact Hinit.
Defined.

(** ** Writes *)

(** Row [a] deleted from page 1. *)
Lemma deleted_rows_are_gone_witness :
  selectedDocuments (after (deleteDocuments Resolved [JStr "a"] loadedStore)) = [] /\
  documentsCache (core (after (deleteDocuments Resolved [JStr "a"] loadedStore)))
  = ∅.
Proof.
  assert (Hns : missing (currentNamespaceId (core loadedStore)) = false)
    by evaluate.
  pose proof (deleted_rows_are_gone [JStr "a"] loadedStore Hns) as H.
  cbv zeta in H. destruct H as (_ & _ & _ & Hsel & Hcache & _).
  exact (conj Hsel Hcache).
Defined.

(** Row [b] of page 1 given a title. *)
Lemma updated_attributes_win_witness :
  exists doc',
    documents (core (after (updateDocument Resolved (JStr "b")
                              [("title", JStr "x")] loadedStore))) !! 1%nat
    = Some doc' /\
    doc_id doc' = doc_id (row "b").
Proof.
  assert (Hns : missing (currentNamespaceId (core loadedStore)) = false)
    by evaluate.
  assert (Hi : documents (core loadedStore) !! 1%nat = Some (row "b"))
    by evaluate.
  assert (Hsame : sameKey (doc_id (row "b")) (JStr "b") = true) by evaluate.
  assert (Hfirst : forall j d, (j < 1)%nat ->
                     documents (core loadedStore) !! j = Some d ->
                     sameKey (doc_id d) (JStr "b") = false).
  { intros j d Hj Hd. destruct j as [|j]; [ | lia ].
    vm_compute in Hd. injection Hd as <-. reflexivity. }
  pose proof (updated_attributes_win (JStr "b") [("title", JStr "x")]
                loadedStore 1%nat (row "b") Hns Hi Hsame Hfirst) as H.
  cbv zeta in H. destruct H as (doc' & Hdoc & Hid & _).
  exact (ex_intro _ doc' (conj Hdoc Hid)).
Defined.

(** A row imported while page 1 is on display. *)
Lemma import_does_not_reload_witness :
  snd (importDocuments (servicesAt 50) Resolved [row "e"] loadedStore) = [] /\
  documents (core (after (fst (importDocuments (servicesAt 50) Resolved
                                 [row "e"] loadedStore))))
  = documents (core loadedStore).
Proof.
  assert (Hns : missing (currentNamespaceId (core loadedStore)) = false)
    by evaluate.
  pose proof (import_does_not_reload (servicesAt 50) [row "e"] loadedStore Hns)
    as H.
  cbv zeta in H. destruct H as (Hcalls & _ & _ & Hdocs & _).
  exact (conj Hcalls Hdocs).
Defined.

(** Page 1 asked for again after row [a] was deleted. *)
Lemma writes_invalidate_the_cache_witness :
  outcome (loadDocuments (servicesAt 10) false false 2 1
             (core (after (deleteDocuments Resolved [JStr "a"] loadedStore))))
  <> CacheHit.
Proof.
  assert (Hns : missing (currentNamespaceId (core loadedStore)) = false)
    by evaluate.
  pose proof (writes_invalidate_the_cache (servicesAt 10) (servicesAt 50)
                false false 2 1 [JStr "a"] (JStr "b") [("title", JStr "x")]
                [row "e"] loadedStore Hns) as H.
  cbv zeta in H. destruct H as (Hdelete & _).
  exact Hdelete.
Defined.

(** ** Raw query results *)

(** Two raw rows shown on page 1, then page 2 asked for. *)
Lemma paging_after_raw_query_lists_the_namespace_witness :
  primaryRequest (setRawQueryResults pageOne None (clearDocuments connectedState))
    2 2
  = Some (listRequest (cursorFilter (lastId pageOne)) 2).
Proof.
  assert (Hdocs : pageOne <> []) by discriminate.
  assert (Hpage : currentPage connectedState < 2) by evaluate.
  pose proof (paging_after_raw_query_lists_the_namespace pageOne None
                connectedState 2 2 Hdocs Hpage) as H.
  cbv zeta in H. destruct H as (_ & _ & _ & _ & _ & _ & Hreq).
  exact Hreq.
Defined.

(** ** Filter history *)

(** The predicate of [filteringStore] logged into an empty history. *)
Lemma logged_filter_can_be_reapplied_witness :
  getNamespaceRecentHistory (logFilterChange "r1" 0 Resolved filteringStore)
  = firstn 30 (recentEntry "r1" 0 (core filteringStore)
               :: getNamespaceRecentHistory filteringStore).
Proof.
  assert (Hscope : historyScope (core filteringStore) = Some ("conn", "docs"))
    by evaluate.
  assert (Hsome : searchText (core filteringStore) <> ""
                  \/ activeFilters (core filteringStore) <> [])
    by (right; vm_compute; discriminate).
  assert (Hdup : existsb (isDuplicateOf (recentEntry "r1" 0 (core filteringStore)))
                   (getNamespaceRecentHistory filteringStore) = false)
    by evaluate.
  pose proof (logged_filter_can_be_reapplied "r1" 0 filteringStore "conn" "docs"
                Hscope Hsome Hdup) as H.
  cbv zeta in H. destruct H as (Hfirst & _).
  exact Hfirst.
Defined.

(** The predicate of [filteringStore] saved, then applied. *)
Lemma saved_filter_round_trip_witness :
  activeFilters
    (core (fst (applyFilterFromHistory "s1"
                  (saveToFilterHistory "mine" "s1" 0 Resolved filteringStore))))
  = activeFilters (core filteringStore).
Proof.
  assert (Hscope : historyScope (core filteringStore) = Some ("conn", "docs"))
    by evaluate.
  pose proof (saved_filter_round_trip "mine" "s1" 0 filteringStore "conn" "docs"
                Hscope) as H.
  cbv zeta in H. destruct H as (_ & _ & _ & Hfilters & _).
  exact Hfilters.
Defined.

(** ** The operators of the filter builder *)

(** [array_contains] on the array attribute [tags]. *)
Lemma offered_operator_compiles_to_its_api_operator_witness :
  exists operand,
    compileFilter [mkAttribute "tags" "[]string"] tagsContains
    = triple (field_name tagsField)
        (apiOperator (mkOperatorOption op_array_contains "Contains"
                        "Array contains value" "containment"))
        operand.
Proof.
  assert (Htype : fieldTypeOf [mkAttribute "tags" "[]string"]
                    (field_name tagsField) = Some (field_type tagsField))
    by evaluate.
  assert (Hin : In (mkOperatorOption op_array_contains "Contains"
                      "Array contains value" "containment")
                  (operators (Some tagsField)))
    by (vm_compute; left; reflexivity).
  assert (Hattr : attribute tagsContains = field_name tagsField) by evaluate.
  assert (Hop : operator tagsContains
                = option_value (mkOperatorOption op_array_contains "Contains"
                                  "Array contains value" "containment"))
    by evaluate.
  pose proof (offered_operator_compiles_to_its_api_operator
                [mkAttribute "tags" "[]string"] tagsField
                (mkOperatorOption op_array_contains "Contains"
                   "Array contains value" "containment")
                tagsContains [tagsField] Htype) as H.
  destruct H as (Hcompile & _).
  exact (Hcompile Hin Hattr Hop).
Defined.
